(** * Chat session and authorization core of user-auth-system

    A shallow embedding of the chat slice of the server:
    - [server/middleware/auth.js]      (token verification),
    - [server/models/Message.js]       (the message schema, its pre-save hook,
                                         its methods and statics),
    - [server/routes/chat.js]          (the REST mirror),
    - [server/socket/socketHandlers.js] (the live channel and the registry).

    Conventions of the embedding.
    - A JavaScript string is a [string]: a sequence of code units, here
      the code units below 256.  [String.length] is the [.length] of the
      source.
    - An ObjectId is the 24-digit lower-case hexadecimal string that its
      [toString()] returns.
    - A [Date] is an integer number of milliseconds ([Z]).
    - The collections are finite maps from identifier to document.
    - Every handler runs to completion on the state it is given; the
      clock value [now] and the identifier that the driver would
      allocate for a new document are arguments of the handler.
    - Libraries outside the repository (jsonwebtoken, the regular
      expression engine of the store) are parameters. *)

From Stdlib Require Import ZArith Ascii String.
From Stdlib Require QArith_base.
From stdpp Require Import base option list sorting strings gmap.

Local Open Scope Z_scope.
Local Open Scope string_scope.

(** ** JavaScript string primitives used by the sources *)

Module JS.

(** White space removed by [String.prototype.trim], restricted to code
    units below 256: TAB, LF, VT, FF, CR, SP and NBSP. *)
Definition is_ws (c : ascii) : bool :=
  let n := nat_of_ascii c in
  ((9 <=? n)%nat && (n <=? 13)%nat) || (n =? 32)%nat || (n =? 160)%nat.

Fixpoint trim_start (s : string) : string :=
  match s with
  | EmptyString => EmptyString
  | String c r => if is_ws c then trim_start r else s
  end.

(** [trim_end] drops the trailing white space: a white-space
    character is kept only when something is kept after it. *)
Fixpoint trim_end (s : string) : string :=
  match s with
  | EmptyString => EmptyString
  | String c r =>
      match trim_end r with
      | EmptyString => if is_ws c then EmptyString else String c EmptyString
      | r' => String c r'
      end
  end.

Definition trim (s : string) : string := trim_end (trim_start s).

(** Truthiness of a possibly missing string: [undefined] and the empty
    string are falsy. *)
Definition truthy (o : option string) : bool :=
  match o with
  | Some (String _ _) => true
  | _ => false
  end.

(** [a || b] on possibly missing strings. *)
Definition or_else (a b : option string) : option string :=
  if truthy a then a else b.

(** [s.split(sep)] for a single-character separator. *)
Fixpoint split_on (sep : ascii) (s : string) : list string :=
  match s with
  | EmptyString => [EmptyString]
  | String c r =>
      if Ascii.eqb c sep then EmptyString :: split_on sep r
      else match split_on sep r with
           | [] => [String c EmptyString]
           | w :: ws => String c w :: ws
           end
  end.

Definition in_range (lo hi : nat) (c : ascii) : bool :=
  let n := nat_of_ascii c in (lo <=? n)%nat && (n <=? hi)%nat.

Definition is_digit (c : ascii) : bool := in_range 48 57 c.
Definition is_upper (c : ascii) : bool := in_range 65 90 c.
Definition is_lower (c : ascii) : bool := in_range 97 122 c.

(** The class [\w] of a regular expression without flags. *)
Definition is_word (c : ascii) : bool :=
  is_upper c || is_lower c || is_digit c || Ascii.eqb c "_".

(** The class [[0-9a-fA-F]]. *)
Definition is_hex (c : ascii) : bool :=
  is_digit c || in_range 97 102 c || in_range 65 70 c.

Fixpoint all_chars (p : ascii -> bool) (s : string) : bool :=
  match s with
  | EmptyString => true
  | String c r => p c && all_chars p r
  end.

Definition is_empty (s : string) : bool :=
  match s with EmptyString => true | _ => false end.

Definition lower_char (c : ascii) : ascii :=
  if is_upper c then ascii_of_nat (nat_of_ascii c + 32) else c.

Fixpoint to_lower (s : string) : string :=
  match s with
  | EmptyString => EmptyString
  | String c r => String (lower_char c) (to_lower r)
  end.

End JS.

(** ** Identifiers *)

Module ObjectId.

(** [/^[0-9a-fA-F]{24}$/.test(s)], the test of [auth.js]. *)
Definition is_hex24 (s : string) : bool :=
  (String.length s =? 24)%nat && JS.all_chars JS.is_hex s.

(** Cast of a string to an ObjectId by the document mapper: a string
    of 24 hexadecimal digits denotes the identifier with those digits
    (rendered in lower case); any other string is a cast error. *)
Definition cast (s : string) : option string :=
  if is_hex24 s then Some (JS.to_lower s) else None.

End ObjectId.

(** ** server/models/User.js: the fields of a user read by the chat core *)

Module User.

(** [role: enum ['user', 'admin', 'moderator']]. *)
Inductive Role := RoleUser | RoleAdmin | RoleModerator.

#[global] Instance Role_eq_dec : EqDecision Role.
Proof. solve_decision. Defined.

(** A stored user document, without its key. *)
Record fields := mkFields {
  f_name : string;
  f_avatar : option string;
  f_isActive : bool;
  f_role : Role
}.

(** A loaded user document ([socket.user], [req.user]). *)
Record t := mk {
  _id : string;
  name : string;
  avatar : option string;
  isActive : bool;
  role : Role
}.

Definition load (k : string) (f : fields) : t :=
  {| _id := k; name := f_name f; avatar := f_avatar f;
     isActive := f_isActive f; role := f_role f |}.

End User.

(** ** server/models/Message.js: the message entity *)

Module Attachment.
Record t := mk {
  type : option string;
  url : option string;
  filename : option string;
  size : option Z
}.
End Attachment.

Module Reaction.
Record t := mk {
  user : string;
  emoji : string;
  createdAt : Z
}.
End Reaction.

Module Message.

(** A stored message document, without its key.  The fields [tags]
    and [updatedAt] are read by no operation and are left out. *)
Record t := mk {
  user : string;
  content : string;
  messageType : string;
  attachments : list Attachment.t;
  isEdited : bool;
  editedAt : option Z;
  isDeleted : bool;
  deletedAt : option Z;
  reactions : list Reaction.t;
  replyTo : option string;
  mentions : list string;
  createdAt : Z
}.

Definition with_content (c : string) (e : bool) (t0 : option Z) (m : t) : t :=
  mk (user m) c (messageType m) (attachments m) e t0
     (isDeleted m) (deletedAt m) (reactions m) (replyTo m) (mentions m)
     (createdAt m).

Definition with_deleted (d : bool) (t0 : option Z) (m : t) : t :=
  mk (user m) (content m) (messageType m) (attachments m) (isEdited m)
     (editedAt m) d t0 (reactions m) (replyTo m) (mentions m) (createdAt m).

Definition with_reactions (rs : list Reaction.t) (m : t) : t :=
  mk (user m) (content m) (messageType m) (attachments m) (isEdited m)
     (editedAt m) (isDeleted m) (deletedAt m) rs (replyTo m) (mentions m)
     (createdAt m).

Definition with_mentions (ms : list string) (m : t) : t :=
  mk (user m) (content m) (messageType m) (attachments m) (isEdited m)
     (editedAt m) (isDeleted m) (deletedAt m) (reactions m) (replyTo m) ms
     (createdAt m).

(** [messageType: enum ['text', 'image', 'file', 'system']]. *)
Definition messageType_enum : list string :=
  ["text"; "image"; "file"; "system"].

(** [attachments.type: enum ['image', 'file', 'link']]. *)
Definition attachment_type_enum : list string := ["image"; "file"; "link"].

Definition in_enum (e : list string) (s : string) : bool :=
  bool_decide (s ∈ e).

(** Schema validators of the paths of a message. *)
Definition valid_content (c : string) : bool :=
  negb (JS.is_empty c) && (String.length c <=? 1000)%nat.

Definition valid_attachment (a : Attachment.t) : bool :=
  match Attachment.type a with
  | Some k => in_enum attachment_type_enum k
  | None => true
  end.

Definition valid_reaction (r : Reaction.t) : bool :=
  negb (JS.is_empty (Reaction.emoji r)).

Definition valid_reactions (rs : list Reaction.t) : bool :=
  forallb valid_reaction rs.

(** The validation that [save()] runs on a loaded document: the
    validators of every loaded path, modified or not. *)
Definition valid_document (m : t) : bool :=
  valid_content (content m)
  && in_enum messageType_enum (messageType m)
  && forallb valid_attachment (attachments m)
  && valid_reactions (reactions m).

(** The loop of the pre-save hook over [/@(\w+)/g]: the pending
    capture is [Some w] after an [@] has been read, [w] being the word
    characters read since. *)
Definition flush (cur : option string) : list string :=
  match cur with
  | Some (String c w) => [String c w]
  | _ => []
  end.

Fixpoint scan_mentions (cur : option string) (s : string) : list string :=
  match s with
  | EmptyString => flush cur
  | String c r =>
      match cur with
      | Some w =>
          if JS.is_word c then scan_mentions (Some (w ++ String c "")) r
          else flush cur ++
               scan_mentions (if Ascii.eqb c "@" then Some "" else None) r
      | None =>
          scan_mentions (if Ascii.eqb c "@" then Some "" else None) r
      end
  end.

Definition extract_mentions (c : string) : list string :=
  scan_mentions None c.

End Message.

(** ** The persistence collaborator *)

Record Db := mkDb {
  users : gmap string User.fields;
  messages : gmap string Message.t
}.

Definition set_messages (ms : gmap string Message.t) (db : Db) : Db :=
  mkDb (users db) ms.

(** A stored document together with its key. *)
Definition MessageDoc : Type := string * Message.t.

(** Outcome of a query that may throw: [None] is a thrown error (a cast
    error of the identifier), [Some None] is [null]. *)
Definition Thrown (A : Type) : Type := option A.

Definition User_findById (db : Db) (id : string) : Thrown (option User.t) :=
  k ← ObjectId.cast id;
  Some (User.load k <$> users db !! k).

Definition Message_findById (db : Db) (id : string) : Thrown (option MessageDoc) :=
  k ← ObjectId.cast id;
  Some (pair k <$> messages db !! k).

(** [sort({ createdAt: -1 })]: [x] may precede [y] when [x] is not older
    than [y].  The order among equal timestamps is whatever the sort of
    the store yields on the fixed collection. *)
Definition newer_eq (x y : MessageDoc) : Prop :=
  (Message.createdAt x.2 >= Message.createdAt y.2)%Z.

#[global] Instance newer_eq_dec : RelDecision newer_eq.
Proof. intros x y. unfold newer_eq. apply _. Defined.

Definition not_deleted (d : MessageDoc) : bool := negb (Message.isDeleted d.2).

Definition newest_first (ds : list MessageDoc) : list MessageDoc :=
  merge_sort newer_eq ds.

(** [cursor.limit(n)]: zero is no limit, a negative number is its
    absolute value. *)
Definition cursor_limit (n : Z) (ds : list MessageDoc) : list MessageDoc :=
  if (n =? 0)%Z then ds else take (Z.to_nat (Z.abs n)) ds.

(** [messageSchema.statics.getMessages]; a negative skip is refused by
    the store. *)
Definition getMessages (page limit : Z) (db : Db) : Thrown (list MessageDoc) :=
  let skip := ((page - 1) * limit)%Z in
  if (skip <? 0)%Z then None
  else
    let found := filter (λ d, not_deleted d = true) (map_to_list (messages db)) in
    Some (cursor_limit limit (drop (Z.to_nat skip) (newest_first found))).

Section Model.

(** [{ $regex: query, $options: 'i' }] applied to a content. *)
Variable regex_test : string → string → bool.

(** What the document mapper does with a save when the assignment
    [this.mentions = mentions] of the pre-save hook fails to cast:
    [true] if the save is rejected, [false] if the assignment is
    dropped and the save goes on. *)
Variable hook_cast_error_aborts_save : bool.

(** [messageSchema.statics.searchMessages]. *)
Definition searchMessages (query : string) (userId : option string) (db : Db)
  : Thrown (list MessageDoc) :=
  owner ← (if JS.truthy userId
           then Some <$> (userId ≫= ObjectId.cast)
           else Some None);
  let matches (d : MessageDoc) : bool :=
    not_deleted d && regex_test query (Message.content d.2)
    && match owner with
       | Some o => bool_decide (Message.user d.2 = o)
       | None => true
       end in
  let found := filter (λ d, matches d = true) (map_to_list (messages db)) in
  Some (take 20 (newest_first found)).

(** The pre-save hook, run when [content] is modified: the captures of
    [/@(\w+)/g] are assigned to [mentions], an array of ObjectId. *)
Definition pre_save (contentModified : bool) (m : Message.t) : Thrown Message.t :=
  if contentModified then
    match mapM ObjectId.cast (Message.extract_mentions (Message.content m)) with
    | Some ids => Some (Message.with_mentions ids m)
    | None => if hook_cast_error_aborts_save then None else Some m
    end
  else Some m.

(** The argument of [new Message(...)] in the handlers. *)
Record MessageData := mkData {
  d_user : string;
  d_content : string;
  d_messageType : string;
  d_attachments : list Attachment.t;
  d_replyTo : option string
}.

(** [new Message(data)] followed by [save()] for a document with key
    [id] at time [now]: cast and setters of the constructor,
    validation of every path, pre-save hook, insertion.  A path that
    is not in the schema ([recipient]) is dropped by the constructor. *)
Definition create (id : string) (now : Z) (data : MessageData) (db : Db)
  : Thrown (Db * MessageDoc) :=
  reply ← (match d_replyTo data with
           | Some r => Some <$> ObjectId.cast r
           | None => Some None
           end);
  let c := JS.trim (d_content data) in
  if Message.valid_content c
     && Message.in_enum Message.messageType_enum (d_messageType data)
     && forallb Message.valid_attachment (d_attachments data)
  then
    let m0 := Message.mk (d_user data) c (d_messageType data)
                (d_attachments data) false None false None [] reply [] now in
    m ← pre_save true m0;
    match messages db !! id with
    | Some _ => None
    | None => Some (set_messages (<[id := m]> (messages db)) db, (id, m))
    end
  else None.

(** The write of [save()] of a loaded document.  Before it, [save()]
    validates every loaded path of the document
    ([Message.valid_document]) and runs the pre-save hook, which does
    nothing unless the content was modified; each method below writes
    these steps out. *)
Definition store (doc : MessageDoc) (db : Db) : Db :=
  set_messages (<[doc.1 := doc.2]> (messages db)) db.

(** [messageSchema.methods.addReaction]. *)
Definition addReaction (userId emoji : string) (now : Z) (doc : MessageDoc)
    (db : Db) : Thrown (Db * MessageDoc) :=
  let kept := filter (λ r, Reaction.user r ≠ userId) (Message.reactions doc.2) in
  let rs := (kept ++ [Reaction.mk userId emoji now])%list in
  let doc' := (doc.1, Message.with_reactions rs doc.2) in
  if Message.valid_document doc'.2 then Some (store doc' db, doc') else None.

(** [messageSchema.methods.removeReaction]. *)
Definition removeReaction (userId : string) (doc : MessageDoc) (db : Db)
  : Thrown (Db * MessageDoc) :=
  let rs := filter (λ r, Reaction.user r ≠ userId) (Message.reactions doc.2) in
  let doc' := (doc.1, Message.with_reactions rs doc.2) in
  if Message.valid_document doc'.2 then Some (store doc' db, doc') else None.

(** [messageSchema.methods.softDelete]. *)
Definition softDelete (now : Z) (doc : MessageDoc) (db : Db)
  : Thrown (Db * MessageDoc) :=
  let doc' := (doc.1, Message.with_deleted true (Some now) doc.2) in
  if Message.valid_document doc'.2 then Some (store doc' db, doc') else None.

(** [messageSchema.methods.editMessage]. *)
Definition editMessage (newContent : string) (now : Z) (doc : MessageDoc)
    (db : Db) : Thrown (Db * MessageDoc) :=
  let c := JS.trim newContent in
  let modified := negb (String.eqb c (Message.content doc.2)) in
  let m1 := Message.with_content c true (Some now) doc.2 in
  if Message.valid_document m1 then
    m ← pre_save modified m1;
    Some (store (doc.1, m) db, (doc.1, m))
  else None.

(** [populate('user', 'name avatar')]: [null] when the user is gone. *)
Record Sender := mkSender {
  s_id : string;
  s_name : string;
  s_avatar : option string
}.

Definition populate_user (db : Db) (m : Message.t) : option Sender :=
  (λ f, mkSender (Message.user m) (User.f_name f) (User.f_avatar f))
    <$> users db !! Message.user m.

(** [populate('replyTo', 'content user')]: [null] when there is no
    reference or no such message. *)
Record ReplyRef := mkReply {
  r_id : string;
  r_content : string;
  r_user : string
}.

Definition populate_replyTo (db : Db) (m : Message.t) : option ReplyRef :=
  k ← Message.replyTo m;
  (λ t, mkReply k (Message.content t) (Message.user t)) <$> messages db !! k.

End Model.

(** ** Payloads shared by the REST mirror and the live channel *)

(** The virtual [formattedTime] is a rendering of [createdAt] and is not
    carried by the payloads of the embedding. *)
Record MessagePayload := mkPayload {
  p_id : string;
  p_content : string;
  p_messageType : string;
  p_attachments : list Attachment.t;
  p_user : Sender;
  p_replyTo : option ReplyRef;
  p_createdAt : Z
}.

Record EditedPayload := mkEdited {
  e_id : string;
  e_content : string;
  e_isEdited : bool;
  e_editedAt : option Z;
  e_user : Sender;
  e_createdAt : Z
}.

(** The object literal [messagePayload] of a Send, after the two
    [populate] calls.  Building it does not throw; sending it does when
    it does not serialise, see [serialises] below. *)
Definition message_payload (db : Db) (doc : MessageDoc) (s : Sender) : MessagePayload :=
  mkPayload doc.1 (Message.content doc.2) (Message.messageType doc.2)
    (Message.attachments doc.2) s (populate_replyTo db doc.2)
    (Message.createdAt doc.2).

(** [res.json(...)] and [emit(...)] serialise the payload.  A populated
    reply-target is a document loaded with [content] and [user] only;
    serialising it evaluates its virtual [formattedTime], which reads
    the [createdAt] that was not loaded and throws.  A payload
    serialises when its reply-target is [null] or absent. *)
Definition serialises (p : MessagePayload) : bool :=
  match p_replyTo p with
  | Some _ => false
  | None => true
  end.

Definition edited_payload (doc : MessageDoc) (s : Sender) : EditedPayload :=
  mkEdited doc.1 (Message.content doc.2) (Message.isEdited doc.2)
    (Message.editedAt doc.2) s (Message.createdAt doc.2).

(** The body of a send request: [{ content, messageType = 'text',
    attachments = [], replyTo }]; a missing field is [None]. *)
Record SendRequest := mkSend {
  content : option string;
  messageType : option string;
  attachments : option (list Attachment.t);
  replyTo : option string
}.

(** The two content checks that open Send and Edit in both transports:
    [!content || content.trim().length === 0], then
    [content.length > 1000]. *)
Inductive ContentCheck :=
| ContentRequired
| ContentTooLong
| ContentOk (c : string).

Definition check_content (content : option string) : ContentCheck :=
  match content with
  | None => ContentRequired
  | Some c =>
      if JS.is_empty c || JS.is_empty (JS.trim c) then ContentRequired
      else if (1000 <? String.length c)%nat then ContentTooLong
      else ContentOk c
  end.

Definition send_data (userId c : string) (req : SendRequest) : MessageData :=
  mkData userId (JS.trim c) (default "text" (messageType req))
    (default [] (attachments req))
    (if JS.truthy (replyTo req) then replyTo req else None).

(** [message.user.toString() !== userId.toString() && role !== 'admin']. *)
Definition forbidden (doc : MessageDoc) (u : User.t) : bool :=
  bool_decide (Message.user doc.2 ≠ User._id u)
  && bool_decide (User.role u ≠ User.RoleAdmin).

(** ** server/routes/chat.js: the REST mirror *)

Module Rest.

Inductive Body :=
| Failure (error message : string)
| Sent (p : MessagePayload)
| Edited (p : EditedPayload)
| Notice (message : string)
| Reactions (message : string) (rs : list Reaction.t)
| Listing (ms : list MessageDoc) (page limit : Z) (hasMore : bool)
| Found (ms : list MessageDoc) (query : string).

Record Response := mkResponse {
  status : nat;
  body : Body
}.

Definition fail (code : nat) (error message : string) : Response :=
  mkResponse code (Failure error message).

Section Routes.

Variable regex_test : string → string → bool.
Variable hook_cast_error_aborts_save : bool.

(** [parseInt(q) || d]: [None] is [NaN]. *)
Definition int_or (q : option Z) (d : Z) : Z :=
  match q with
  | Some n => if (n =? 0)%Z then d else n
  | None => d
  end.

(** [GET /messages]. *)
Definition get_messages (qpage qlimit : option Z) (search : option string)
    (db : Db) : Response :=
  let page := int_or qpage 1 in
  let limit := int_or qlimit 50 in
  let result :=
    match (if JS.truthy search then search else None) with
    | Some q => searchMessages regex_test q None db
    | None => getMessages page limit db
    end in
  match result with
  | None => fail 500 "Server error" "Failed to fetch messages"
  | Some ms =>
      mkResponse 200
        (Listing (reverse ms) page limit
           (bool_decide (Z.of_nat (length ms) = limit)))
  end.

(** [POST /messages], after [authenticateToken] has set [req.user]. *)
Definition post_messages (u : User.t) (req : SendRequest) (id : string)
    (now : Z) (db : Db) : Db * Response :=
  match check_content (content req) with
  | ContentRequired =>
      (db, fail 400 "Validation error" "Message content is required")
  | ContentTooLong =>
      (db, fail 400 "Validation error"
             "Message content cannot exceed 1000 characters")
  | ContentOk c =>
      match create hook_cast_error_aborts_save id now
              (send_data (User._id u) c req) db with
      | None => (db, fail 500 "Server error" "Failed to send message")
      | Some (db', doc) =>
          match populate_user db' doc.2 with
          | None => (db', fail 500 "Server error" "Failed to send message")
          | Some s =>
              let p := message_payload db' doc s in
              if serialises p then (db', mkResponse 201 (Sent p))
              else (db', fail 500 "Server error" "Failed to send message")
          end
      end
  end.

(** [PUT /messages/:messageId]. *)
Definition put_message (u : User.t) (messageId : string)
    (content : option string) (now : Z) (db : Db) : Db * Response :=
  match check_content content with
  | ContentRequired =>
      (db, fail 400 "Validation error" "Message content is required")
  | ContentTooLong =>
      (db, fail 400 "Validation error"
             "Message content cannot exceed 1000 characters")
  | ContentOk c =>
      match Message_findById db messageId with
      | None => (db, fail 500 "Server error" "Failed to edit message")
      | Some None =>
          (db, fail 404 "Message not found"
                 "The specified message does not exist")
      | Some (Some doc) =>
          if forbidden doc u then
            (db, fail 403 "Access denied" "You can only edit your own messages")
          else
            match editMessage hook_cast_error_aborts_save (JS.trim c) now doc db with
            | None => (db, fail 500 "Server error" "Failed to edit message")
            | Some (db', doc') =>
                match populate_user db' doc'.2 with
                | None => (db', fail 500 "Server error" "Failed to edit message")
                | Some s => (db', mkResponse 200 (Edited (edited_payload doc' s)))
                end
            end
      end
  end.

(** [DELETE /messages/:messageId]. *)
Definition delete_message (u : User.t) (messageId : string) (now : Z)
    (db : Db) : Db * Response :=
  match Message_findById db messageId with
  | None => (db, fail 500 "Server error" "Failed to delete message")
  | Some None =>
      (db, fail 404 "Message not found" "The specified message does not exist")
  | Some (Some doc) =>
      if forbidden doc u then
        (db, fail 403 "Access denied" "You can only delete your own messages")
      else
        match softDelete now doc db with
        | None => (db, fail 500 "Server error" "Failed to delete message")
        | Some (db', _) =>
            (db', mkResponse 200 (Notice "Message deleted successfully"))
        end
  end.

(** [POST /messages/:messageId/reactions]. *)
Definition post_reaction (u : User.t) (messageId : string)
    (emoji : option string) (now : Z) (db : Db) : Db * Response :=
  match (if JS.truthy emoji then emoji else None) with
  | None => (db, fail 400 "Validation error" "Emoji is required")
  | Some e =>
      match Message_findById db messageId with
      | None => (db, fail 500 "Server error" "Failed to add reaction")
      | Some None =>
          (db, fail 404 "Message not found"
                 "The specified message does not exist")
      | Some (Some doc) =>
          match addReaction (User._id u) e now doc db with
          | None => (db, fail 500 "Server error" "Failed to add reaction")
          | Some (db', doc') =>
              (db', mkResponse 200
                      (Reactions "Reaction added successfully"
                         (Message.reactions doc'.2)))
          end
      end
  end.

(** [DELETE /messages/:messageId/reactions]. *)
Definition delete_reaction (u : User.t) (messageId : string) (db : Db)
  : Db * Response :=
  match Message_findById db messageId with
  | None => (db, fail 500 "Server error" "Failed to remove reaction")
  | Some None =>
      (db, fail 404 "Message not found" "The specified message does not exist")
  | Some (Some doc) =>
      match removeReaction (User._id u) doc db with
      | None => (db, fail 500 "Server error" "Failed to remove reaction")
      | Some (db', doc') =>
          (db', mkResponse 200
                  (Reactions "Reaction removed successfully"
                     (Message.reactions doc'.2)))
      end
  end.

(** [GET /search]. *)
Definition get_search (q userId : option string) (db : Db) : Response :=
  match (if JS.truthy q then q else None) with
  | None => fail 400 "Validation error" "Search query is required"
  | Some query =>
      match searchMessages regex_test query userId db with
      | None => fail 500 "Server error" "Failed to search messages"
      | Some ms => mkResponse 200 (Found ms query)
      end
  end.

End Routes.

(** The messages carried by the answer of a listing or of a search. *)
Definition listed (r : Response) : list MessageDoc :=
  match body r with
  | Listing ms _ _ _ => ms
  | Found ms _ => ms
  | _ => []
  end.

End Rest.

(** ** server/middleware/auth.js: token verification *)

Module Auth.

(** The claims of a decoded token that the server reads. *)
Record JwtPayload := mkJwt {
  userId : option string
}.

(** The class [[A-Za-z0-9-_]]. *)
Definition is_token_char (c : ascii) : bool :=
  JS.is_upper c || JS.is_lower c || JS.is_digit c
  || Ascii.eqb c "-" || Ascii.eqb c "_".

(** [/^[A-Za-z0-9-_]+\.[A-Za-z0-9-_]+\.[A-Za-z0-9-_]*$/.test(token)]:
    three dot-separated segments of token characters, the first two
    not empty. *)
Definition token_format (token : string) : bool :=
  match JS.split_on "." token with
  | [a; b; c] =>
      negb (JS.is_empty a) && negb (JS.is_empty b)
      && JS.all_chars is_token_char a && JS.all_chars is_token_char b
      && JS.all_chars is_token_char c
  | _ => false
  end.

Section Verify.

(** [jwt.verify(token, secret, { issuer, audience })]; [None] when
    it throws. *)
Variable jwt_verify : string → option JwtPayload.

(** [verifyToken]. *)
Definition verifyToken (token : string) : option JwtPayload :=
  if JS.is_empty token || negb (token_format token) then None
  else
    match jwt_verify token with
    | None => None
    | Some decoded =>
        match userId decoded with
        | Some uid =>
            if JS.is_empty uid || negb (ObjectId.is_hex24 uid) then None
            else Some decoded
        | None => None
        end
    end.

End Verify.

End Auth.

(** ** server/socket/socketHandlers.js: the live channel *)

Module Live.

Inductive Target :=
| ToSocket (socketId : string)            (* socket.emit, io.to(socketId) *)
| ToRoom (room : string)                  (* io.to(room) *)
| ToOthers (room : string) (self : string). (* socket.to(room) *)

Record PrivatePayload := mkPrivate {
  pp_id : string;
  pp_content : string;
  pp_user : Sender;
  pp_createdAt : Z
}.

Inductive Event :=
| ev_error (message : string)
| ev_new_message (p : MessagePayload)
| ev_message_sent (messageId : string)
| ev_message_edited (p : EditedPayload)
| ev_message_deleted (messageId : string)
| ev_reaction_added (messageId : string) (rs : list Reaction.t)
| ev_reaction_removed (messageId : string) (rs : list Reaction.t)
| ev_user_connected (userId name : string) (avatar : option string) (timestamp : Z)
| ev_user_disconnected (userId name : string) (timestamp : Z)
| ev_online_users (us : gmap string string)
| ev_user_typing (userId name : string) (timestamp : Z)
| ev_user_stopped_typing (userId : string) (timestamp : Z)
| ev_user_status_update (userId : string) (status : option string) (timestamp : Z)
| ev_private_message (p : PrivatePayload)
| ev_private_message_sent (messageId : string).

Definition Emit : Type := Target * Event.

(** The process state: the store, the two registry maps of the module
    ([connectedUsers], [userSockets]) and the room membership kept by
    the transport (pairs of room and socket). *)
Record Server := mkServer {
  db : Db;
  connectedUsers : gmap string string;
  userSockets : gmap string string;
  rooms : gset (string * string)
}.

Definition set_db (d : Db) (s : Server) : Server :=
  mkServer d (connectedUsers s) (userSockets s) (rooms s).

(** [socket.handshake]: [auth.token] and the [authorization] header. *)
Record Handshake := mkHandshake {
  auth_token : option string;
  authorization : option string
}.

(** [auth.token || headers.authorization?.split(' ')[1]]. *)
Definition handshake_token (h : Handshake) : option string :=
  JS.or_else (auth_token h)
    (a ← authorization h; JS.split_on " " a !! 1%nat).

Inductive Gate :=
| Refused (message : string)
| Accepted (u : User.t).

Section Handlers.

Variable jwt_verify : string → option Auth.JwtPayload.
Variable hook_cast_error_aborts_save : bool.

(** The [io.use] middleware: [next(new Error(..))] or [next()] with
    [socket.user] set. *)
Definition io_use (h : Handshake) (d : Db) : Gate :=
  match (if JS.truthy (handshake_token h) then handshake_token h else None) with
  | None => Refused "Authentication token required"
  | Some token =>
      match Auth.verifyToken jwt_verify token with
      | None => Refused "Invalid token"
      | Some decoded =>
          match Auth.userId decoded ≫= User_findById d with
          | None => Refused "Authentication failed"
          | Some None => Refused "User not found or inactive"
          | Some (Some u) =>
              if User.isActive u then Accepted u
              else Refused "User not found or inactive"
          end
      end
  end.

(** The head of the [connection] handler: registry write, room
    joins, presence broadcast, list of online users.  The event
    [online_users] carries the entries of [connectedUsers] after the
    write; the code sends them as an array in the order in which the
    keys were first set, an order that the registry of the embedding
    does not keep, so the event holds the entries as a finite map. *)
Definition on_connection (u : User.t) (socketId : string) (now : Z)
    (s : Server) : Server * list Emit :=
  let cu := <[User._id u := socketId]> (connectedUsers s) in
  let us := <[socketId := User._id u]> (userSockets s) in
  let rs := {[ ("general", socketId) ]}
            ∪ ({[ ("user_" +:+ User._id u, socketId) ]} ∪ rooms s) in
  (mkServer (db s) cu us rs,
   [ (ToOthers "general" socketId,
      ev_user_connected (User._id u) (User.name u) (User.avatar u) now);
     (ToSocket socketId, ev_online_users cu) ]).

(** A connection attempt: the transport runs the middleware and
    calls the [connection] handler only when it was passed. *)
Definition connect (h : Handshake) (socketId : string) (now : Z)
    (s : Server) : Server * Gate * list Emit :=
  match io_use h (db s) with
  | Refused e => (s, Refused e, [])
  | Accepted u =>
      let '(s', out) := on_connection u socketId now s in
      (s', Accepted u, out)
  end.

(** [socket.emit('error', { message }); return;] *)
Definition emit_error (socketId message : string) (s : Server)
  : Server * list Emit :=
  (s, [ (ToSocket socketId, ev_error message) ]).

(** [socket.on('send_message')]. *)
Definition send_message (u : User.t) (socketId : string)
    (data : SendRequest) (id : string) (now : Z) (s : Server)
  : Server * list Emit :=
  match check_content (content data) with
  | ContentRequired => emit_error socketId "Message content is required" s
  | ContentTooLong =>
      emit_error socketId "Message content cannot exceed 1000 characters" s
  | ContentOk c =>
      match create hook_cast_error_aborts_save id now
              (send_data (User._id u) c data) (db s) with
      | None => emit_error socketId "Failed to send message" s
      | Some (db', doc) =>
          match populate_user db' doc.2 with
          | None => emit_error socketId "Failed to send message" (set_db db' s)
          | Some sender =>
              let p := message_payload db' doc sender in
              if serialises p then
                (set_db db' s,
                 [ (ToRoom "general", ev_new_message p);
                   (ToSocket socketId, ev_message_sent doc.1) ])
              else emit_error socketId "Failed to send message" (set_db db' s)
          end
      end
  end.

(** [socket.on('edit_message')]. *)
Definition edit_message (u : User.t) (socketId messageId : string)
    (content : option string) (now : Z) (s : Server) : Server * list Emit :=
  match check_content content with
  | ContentRequired => emit_error socketId "Message content is required" s
  | ContentTooLong =>
      emit_error socketId "Message content cannot exceed 1000 characters" s
  | ContentOk c =>
      match Message_findById (db s) messageId with
      | None => emit_error socketId "Failed to edit message" s
      | Some None => emit_error socketId "Message not found" s
      | Some (Some doc) =>
          if forbidden doc u then
            emit_error socketId "You can only edit your own messages" s
          else
            match editMessage hook_cast_error_aborts_save (JS.trim c) now
                    doc (db s) with
            | None => emit_error socketId "Failed to edit message" s
            | Some (db', doc') =>
                match populate_user db' doc'.2 with
                | None => emit_error socketId "Failed to edit message" (set_db db' s)
                | Some sender =>
                    (set_db db' s,
                     [ (ToRoom "general",
                        ev_message_edited (edited_payload doc' sender)) ])
                end
            end
      end
  end.

(** [socket.on('delete_message')]. *)
Definition delete_message (u : User.t) (socketId messageId : string)
    (now : Z) (s : Server) : Server * list Emit :=
  match Message_findById (db s) messageId with
  | None => emit_error socketId "Failed to delete message" s
  | Some None => emit_error socketId "Message not found" s
  | Some (Some doc) =>
      if forbidden doc u then
        emit_error socketId "You can only delete your own messages" s
      else
        match softDelete now doc (db s) with
        | None => emit_error socketId "Failed to delete message" s
        | Some (db', _) =>
            (set_db db' s, [ (ToRoom "general", ev_message_deleted messageId) ])
        end
  end.

(** [socket.on('add_reaction')]. *)
Definition add_reaction (u : User.t) (socketId messageId : string)
    (emoji : option string) (now : Z) (s : Server) : Server * list Emit :=
  match (if JS.truthy emoji then emoji else None) with
  | None => emit_error socketId "Emoji is required" s
  | Some e =>
      match Message_findById (db s) messageId with
      | None => emit_error socketId "Failed to add reaction" s
      | Some None => emit_error socketId "Message not found" s
      | Some (Some doc) =>
          match addReaction (User._id u) e now doc (db s) with
          | None => emit_error socketId "Failed to add reaction" s
          | Some (db', doc') =>
              (set_db db' s,
               [ (ToRoom "general",
                  ev_reaction_added messageId (Message.reactions doc'.2)) ])
          end
      end
  end.

(** [socket.on('remove_reaction')]. *)
Definition remove_reaction (u : User.t) (socketId messageId : string)
    (s : Server) : Server * list Emit :=
  match Message_findById (db s) messageId with
  | None => emit_error socketId "Failed to remove reaction" s
  | Some None => emit_error socketId "Message not found" s
  | Some (Some doc) =>
      match removeReaction (User._id u) doc (db s) with
      | None => emit_error socketId "Failed to remove reaction" s
      | Some (db', doc') =>
          (set_db db' s,
           [ (ToRoom "general",
              ev_reaction_removed messageId (Message.reactions doc'.2)) ])
      end
  end.

(** [socket.on('typing_start')], [('typing_stop')], [('update_status')]. *)
Definition typing_start (u : User.t) (socketId : string) (now : Z)
    (s : Server) : Server * list Emit :=
  (s, [ (ToOthers "general" socketId,
         ev_user_typing (User._id u) (User.name u) now) ]).

Definition typing_stop (u : User.t) (socketId : string) (now : Z)
    (s : Server) : Server * list Emit :=
  (s, [ (ToOthers "general" socketId, ev_user_stopped_typing (User._id u) now) ]).

Definition update_status (u : User.t) (socketId : string)
    (status : option string) (now : Z) (s : Server) : Server * list Emit :=
  (s, [ (ToOthers "general" socketId,
         ev_user_status_update (User._id u) status now) ]).

(** [socket.on('private_message')]. *)
Definition private_message (u : User.t) (socketId : string)
    (recipientId content : option string) (id : string) (now : Z)
    (s : Server) : Server * list Emit :=
  match (if JS.truthy content then content else None) with
  | None => emit_error socketId "Message content is required" s
  | Some c =>
      if JS.is_empty (JS.trim c) then
        emit_error socketId "Message content is required" s
      else
        match create hook_cast_error_aborts_save id now
                (mkData (User._id u) (JS.trim c) "private" [] None) (db s) with
        | None => emit_error socketId "Failed to send private message" s
        | Some (db', doc) =>
            match populate_user db' doc.2 with
            | None =>
                emit_error socketId "Failed to send private message" (set_db db' s)
            | Some sender =>
                let payload :=
                  mkPrivate doc.1 (Message.content doc.2) sender
                    (Message.createdAt doc.2) in
                let target := recipientId ≫= λ r, connectedUsers s !! r in
                let delivery :=
                  match (if JS.truthy target then target else None) with
                  | Some rsid => [ (ToSocket rsid, ev_private_message payload) ]
                  | None => []
                  end in
                (set_db db' s,
                 (delivery ++ [ (ToSocket socketId, ev_private_message_sent doc.1) ])%list)
            end
        end
  end.

(** [socket.on('disconnect')]; the transport has removed the socket
    from its rooms. *)
Definition disconnect (u : User.t) (socketId : string) (now : Z)
    (s : Server) : Server * list Emit :=
  (mkServer (db s)
     (delete (User._id u) (connectedUsers s))
     (delete socketId (userSockets s))
     (filter (λ p, p.2 ≠ socketId) (rooms s)),
   [ (ToOthers "general" socketId,
      ev_user_disconnected (User._id u) (User.name u) now) ]).

End Handlers.

End Live.


(** ** Two lists that the operations compute *)

(** The stored messages that are not soft-deleted, newest first: the
    list that [getMessages] cuts its page from. *)
Definition timeline (d : Db) : list MessageDoc :=
  newest_first (filter (λ x, not_deleted x = true) (map_to_list (messages d))).

(** The reaction list that [addReaction] writes: the entries of the
    other users, then the new entry. *)
Definition replaced (uid e : string) (t0 : Z) (rs : list Reaction.t)
  : list Reaction.t :=
  filter (λ r, Reaction.user r ≠ uid) rs ++ [Reaction.mk uid e t0].

(** ** Sequences of add-reaction requests *)





(** ** Concrete users, messages and states used by the examples *)

Module Fixture.

Definition alice_id : string := "aaaaaaaaaaaaaaaaaaaaaaaa".
Definition bob_id : string := "bbbbbbbbbbbbbbbbbbbbbbbb".
Definition m1 : string := "111111111111111111111111".
Definition m2 : string := "222222222222222222222222".

Definition alice_fields : User.fields :=
  User.mkFields "Alice" None true User.RoleUser.
Definition bob_fields : User.fields :=
  User.mkFields "Bob" None true User.RoleUser.

Definition alice : User.t := User.load alice_id alice_fields.
Definition bob : User.t := User.load bob_id bob_fields.

Definition people : gmap string User.fields :=
  <[alice_id := alice_fields]> (<[bob_id := bob_fields]> ∅).

(** Alice's message "hello", created at time 1. *)
Definition hello : Message.t :=
  Message.mk alice_id "hello" "text" [] false None false None [] None [] 1.

(** A store without messages, and one holding [hello] under [m1]. *)
Definition db0 : Db := mkDb people ∅.
Definition db1 : Db := mkDb people (<[m1 := hello]> ∅).

Definition s0 : Live.Server := Live.mkServer db0 ∅ ∅ ∅.
Definition s1 : Live.Server := Live.mkServer db1 ∅ ∅ ∅.

Definition hex_digit (n : nat) : ascii :=
  ascii_of_nat (if (n <? 10)%nat then 48 + n else 87 + n).

(** The identifier whose last two digits spell [n] (below 256). *)
Definition nth_id (n : nat) : string :=
  "0000000000000000000000"
  +:+ String (hex_digit (n / 16)) (String (hex_digit (n mod 16)) "").

Definition nth_message (n : nat) : Message.t :=
  Message.mk alice_id "hello" "text" [] false None false None [] None []
    (Z.of_nat n).

(** A store of 120 messages that are not deleted, created at times
    0 to 119. *)
Definition db120 : Db :=
  mkDb people (list_to_map ((λ n, (nth_id n, nth_message n)) <$> seq 0 120)).

End Fixture.

(** ** server/middleware/auth.js: the REST middleware *)

Module Middleware.

(** Outcome of [jwt.verify(token, secret)], called without options by
    the REST middleware: the decoded payload, or the [name] of the error
    thrown. *)
Inductive Verdict :=
| Decoded (p : Auth.JwtPayload)
| Threw (name : string).

(** What a middleware does with a request: [next()] with [req.user]
    set, or an answer that ends the request. *)
Inductive Outcome :=
| Next (u : User.t)
| Stop (r : Rest.Response).

(** [authHeader && authHeader.split(' ')[1]]. *)
Definition bearer (authorization : option string) : option string :=
  match authorization with
  | None => None
  | Some a => if JS.is_empty a then Some a else JS.split_on " " a !! 1%nat
  end.

Section Verify.

Variable jwt_verify_plain : string → Verdict.

(** [authenticateToken].  An error that is neither of the two named
    ones (a cast error of the identifier included) falls through to the
    500 answer. *)
Definition authenticateToken (authorization : option string) (d : Db) : Outcome :=
  match (if JS.truthy (bearer authorization) then bearer authorization else None) with
  | None =>
      Stop (Rest.fail 401 "Access token required"
              "Please provide a valid authentication token")
  | Some token =>
      if negb (Auth.token_format token) then
        Stop (Rest.fail 401 "Invalid token format"
                "The provided token has an invalid format")
      else
        match jwt_verify_plain token with
        | Threw name =>
            if String.eqb name "JsonWebTokenError" then
              Stop (Rest.fail 401 "Invalid token" "The provided token is invalid")
            else if String.eqb name "TokenExpiredError" then
              Stop (Rest.fail 401 "Token expired"
                      "Your session has expired. Please login again")
            else
              Stop (Rest.fail 500 "Authentication error"
                      "An error occurred during authentication")
        | Decoded decoded =>
            match (if JS.truthy (Auth.userId decoded)
                   then Auth.userId decoded else None) with
            | None =>
                Stop (Rest.fail 401 "Invalid token payload"
                        "The token contains invalid data")
            | Some uid =>
                if negb (ObjectId.is_hex24 uid) then
                  Stop (Rest.fail 401 "Invalid user ID"
                          "The token contains an invalid user ID")
                else
                  match User_findById d uid with
                  | None =>
                      Stop (Rest.fail 500 "Authentication error"
                              "An error occurred during authentication")
                  | Some None => Stop (Rest.fail 401 "Invalid token" "User not found")
                  | Some (Some u) =>
                      if User.isActive u then Next u
                      else Stop (Rest.fail 401 "Account deactivated"
                                   "Your account has been deactivated")
                  end
            end
        end
  end.

(** [optionalAuth]: [req.user] after the middleware; it always calls
    [next()].  [findById(undefined)] answers [null]; a thrown error is
    swallowed. *)
Definition optionalAuth (authorization : option string) (d : Db) : option User.t :=
  match (if JS.truthy (bearer authorization) then bearer authorization else None) with
  | None => None
  | Some token =>
      if negb (Auth.token_format token) then None
      else
        match jwt_verify_plain token with
        | Threw _ => None
        | Decoded decoded =>
            match Auth.userId decoded with
            | None => None
            | Some uid =>
                match User_findById d uid with
                | Some (Some u) => if User.isActive u then Some u else None
                | _ => None
                end
            end
        end
  end.

End Verify.

(** [requireAdmin] and [requireModerator]: [None] is [next()]. *)
Definition requireAdmin (user : option User.t) : option Rest.Response :=
  match user with
  | None =>
      Some (Rest.fail 401 "Authentication required"
              "Please login to access this resource")
  | Some u =>
      if bool_decide (User.role u ≠ User.RoleAdmin) then
        Some (Rest.fail 403 "Access denied" "Admin privileges required")
      else None
  end.

Definition requireModerator (user : option User.t) : option Rest.Response :=
  match user with
  | None =>
      Some (Rest.fail 401 "Authentication required"
              "Please login to access this resource")
  | Some u =>
      if bool_decide (User.role u ∈ [User.RoleAdmin; User.RoleModerator]) then None
      else Some (Rest.fail 403 "Access denied" "Moderator privileges required")
  end.

Section Sign.

(** [jwt.sign({ userId, iat, type: 'access' }, secret, options)] as a
    function of the user identifier and of [iat]. *)
Variable jwt_sign : string → Z → string.

(** [generateToken]; [None] when it throws. *)
Definition generateToken (userId : string) (now : Z) : option string :=
  if JS.is_empty userId || negb (ObjectId.is_hex24 userId) then None
  else Some (jwt_sign userId (now / 1000)%Z).

End Sign.

End Middleware.

(** ** server/models/Message.js: the statistics aggregate *)

Module Stats.

(** The group of [getMessageStats].  [avgReactionsPerMessage] is the
    exact quotient of the two totals; the store answers with the double
    nearest to it. *)
Record t := mk {
  totalMessages : nat;
  totalReactions : nat;
  avgReactionsPerMessage : QArith_base.Q;
  messagesWithReactions : nat
}.

Definition reactionCount (x : MessageDoc) : nat := length (Message.reactions x.2).

(** [messageSchema.statics.getMessageStats]: one group over the messages
    that are not deleted, no group when there is none. *)
Definition getMessageStats (d : Db) : list t :=
  let live := filter (λ x, not_deleted x = true) (map_to_list (messages d)) in
  match live with
  | [] => []
  | _ :: _ =>
      let total := sum_list (reactionCount <$> live) in
      [ mk (length live) total
           (QArith_base.Qmake (Z.of_nat total) (Pos.of_nat (length live)))
           (length (filter (λ x, (0 < reactionCount x)%nat) live)) ]
  end.

(** The default of the route: [stats[0] || { ...zeros }]. *)
Definition zero : t := mk 0 0 (QArith_base.Qmake 0 1) 0.

Inductive Answer :=
| Granted (s : t)
| Denied (r : Rest.Response).

(** [GET /stats] of the chat routes: [authenticateToken], then
    [requireModerator], then the handler. *)
Definition get_stats (jwt_verify_plain : string → Middleware.Verdict)
    (authorization : option string) (d : Db) : Answer :=
  match Middleware.authenticateToken jwt_verify_plain authorization d with
  | Middleware.Stop r => Denied r
  | Middleware.Next u =>
      match Middleware.requireModerator (Some u) with
      | Some r => Denied r
      | None => Granted (default zero (head (getMessageStats d)))
      end
  end.

End Stats.

(** ** Numbers *)

(** A counter of a user is a JavaScript number.  The embedding keeps
    the integer values in [Z] and writes the rounding of an addition
    out: [round x] is the double nearest to the integer [x], ties to
    the even mantissa.  It is [x] itself up to 2^53 in absolute
    value. *)
Module Num.

Definition round (x : Z) : Z :=
  let a := Z.abs x in
  let e := (Z.log2 a - 52)%Z in
  if (e <=? 0)%Z then x
  else
    let q := Z.shiftr a e in
    let r := (a - Z.shiftl q e)%Z in
    let half := Z.shiftl 1 (e - 1) in
    let q' := if (r <? half)%Z then q
              else if (half <? r)%Z then (q + 1)%Z
              else if Z.even q then q else (q + 1)%Z in
    (Z.sgn x * Z.shiftl q' e)%Z.

(** [n += 1]. *)
Definition succ (n : Z) : Z := round (n + 1).

(** The validator [min: 0]. *)
Definition min0 (n : Z) : bool := (0 <=? n)%Z.

End Num.

(** ** server/models/User.js: the validators of a user document *)

Module UserDoc.

(** [name]: [required], [minlength: 2], [maxlength: 50]. *)
Definition valid_name (n : string) : bool :=
  (2 <=? String.length n)%nat && (String.length n <=? 50)%nat.

(** [.] of a regular expression without flags: any character but a
    line terminator (LF and CR below 256). *)
Definition is_dot (c : ascii) : bool :=
  negb (Ascii.eqb c "010" || Ascii.eqb c "013").

(** [s] without the prefix [p], when it starts with [p]. *)
Fixpoint strip_prefix (p s : string) : option string :=
  match p, s with
  | EmptyString, _ => Some s
  | String a p', String b s' => if Ascii.eqb a b then strip_prefix p' s' else None
  | String _ _, EmptyString => None
  end.

(** [/^https?:\/\/.+$/.test(url)]. *)
Definition is_url (url : string) : bool :=
  let tail (p : string) :=
    match strip_prefix p url with
    | Some r => negb (JS.is_empty r) && JS.all_chars is_dot r
    | None => false
    end in
  tail "http://" || tail "https://".

(** The validator of [avatar]: [if (!url) return true], then the
    regular expression. *)
Definition valid_avatar (a : option string) : bool :=
  match a with
  | None => true
  | Some url => JS.is_empty url || is_url url
  end.

Section Paths.

(** The validated paths of a stored user that the embedding of a user
    does not carry, by the key of the user: the two counters, and
    whether [email] and [preferences.theme] pass their validators. *)
Variable loginCount : string → Z.
Variable failedLoginAttempts : string → Z.
Variable others_valid : string → bool.

(** The validation that [save()] runs on the loaded user with key [k]
    and fields [f]: the validators of every loaded path.  The role of
    the embedding is always one of the enumeration. *)
Definition validate (k : string) (f : User.fields) : bool :=
  valid_name (User.f_name f)
  && valid_avatar (User.f_avatar f)
  && Num.min0 (loginCount k)
  && Num.min0 (failedLoginAttempts k)
  && others_valid k.

End Paths.

End UserDoc.

(** ** server/routes/auth.js: deactivation of the account *)

Definition set_users (us : gmap string User.fields) (d : Db) : Db :=
  mkDb us (messages d).

Definition deactivated (f : User.fields) : User.fields :=
  User.mkFields (User.f_name f) (User.f_avatar f) false (User.f_role f).

Section Deactivate.

Variable loginCount : string → Z.
Variable failedLoginAttempts : string → Z.
Variable others_valid : string → bool.

(** [POST /deactivate]: [authenticateToken], then [user.isActive =
    false; user.save()].  The save validates the document and fails
    when it is no longer stored. *)
Definition post_deactivate (jwt_verify_plain : string → Middleware.Verdict)
    (authorization : option string) (d : Db) : Db * Rest.Response :=
  match Middleware.authenticateToken jwt_verify_plain authorization d with
  | Middleware.Stop r => (d, r)
  | Middleware.Next u =>
      match users d !! User._id u with
      | None => (d, Rest.fail 500 "Server error" "Failed to deactivate account")
      | Some f =>
          if UserDoc.validate loginCount failedLoginAttempts others_valid
               (User._id u) (deactivated f)
          then
            (set_users (<[User._id u := deactivated f]> (users d)) d,
             Rest.mkResponse 200 (Rest.Notice "Account deactivated successfully"))
          else (d, Rest.fail 500 "Server error" "Failed to deactivate account")
      end
  end.

End Deactivate.

(** ** server/models/User.js: the login bookkeeping of a user *)

Module Account.

(** The paths of a user that the logins write.  The two counters are
    numbers with integer values, the times are time values. *)
Record t := mk {
  lastLogin : Z;
  loginCount : Z;
  failedLoginAttempts : Z;
  lockUntil : option Z
}.

(** The virtual [isLocked]: [!!(this.lockUntil && this.lockUntil >
    Date.now())]. *)
Definition isLocked (now : Z) (a : t) : bool :=
  match lockUntil a with
  | Some t0 => (now <? t0)%Z
  | None => false
  end.

Section Save.

(** Whether the loaded paths of the user beside the two counters
    (name, email, avatar, preferences) pass their validators. *)
Variable rest_valid : bool.

(** [save()] of the loaded user: the validators of every loaded path,
    [min: 0] of the two counters among them. *)
Definition save (a : t) : Thrown t :=
  if rest_valid && Num.min0 (loginCount a) && Num.min0 (failedLoginAttempts a)
  then Some a else None.

(** [userSchema.methods.updateLastLogin]. *)
Definition updateLastLogin (now : Z) (a : t) : Thrown t :=
  save (mk now (Num.succ (loginCount a)) 0 None).

(** [userSchema.methods.handleFailedLogin]; [now] is [Date.now()], a
    time value, and so is the end of the lock. *)
Definition handleFailedLogin (now : Z) (a : t) : Thrown t :=
  let n := Num.succ (failedLoginAttempts a) in
  save (mk (lastLogin a) (loginCount a) n
          (if (5 <=? n)%Z then Some (Num.round (now + 15 * 60 * 1000))
           else lockUntil a)).

(** Failed logins at the times of [ts], one after the other. *)
Fixpoint failures (ts : list Z) (a : t) : Thrown t :=
  match ts with
  | [] => Some a
  | t0 :: r => a' ← handleFailedLogin t0 a; failures r a'
  end.

End Save.

End Account.

(** ** The operations on messages as requests *)

Module Dispatch.

(** An event of the live channel with its payload; the first five are
    mirrored by a REST route. *)
Inductive Request :=
| Send (req : SendRequest) (id : string)
| Edit (messageId : string) (content : option string)
| Delete (messageId : string)
| React (messageId : string) (emoji : option string)
| Unreact (messageId : string)
| Private (recipientId content : option string) (id : string)
| TypingStart
| TypingStop
| UpdateStatus (status : option string).

Section Handle.

Variable hook_cast_error_aborts_save : bool.

(** The handler that the socket of [u] runs on a request. *)
Definition live (u : User.t) (socketId : string) (now : Z) (r : Request)
    (s : Live.Server) : Live.Server * list Live.Emit :=
  match r with
  | Send req id =>
      Live.send_message hook_cast_error_aborts_save u socketId req id now s
  | Edit messageId content =>
      Live.edit_message hook_cast_error_aborts_save u socketId messageId content now s
  | Delete messageId => Live.delete_message u socketId messageId now s
  | React messageId emoji => Live.add_reaction u socketId messageId emoji now s
  | Unreact messageId => Live.remove_reaction u socketId messageId s
  | Private recipientId content id =>
      Live.private_message hook_cast_error_aborts_save u socketId recipientId
        content id now s
  | TypingStart => Live.typing_start u socketId now s
  | TypingStop => Live.typing_stop u socketId now s
  | UpdateStatus status => Live.update_status u socketId status now s
  end.

(** The route of the REST mirror for a request of the authenticated
    user [u]; [None] when the request has no route. *)
Definition rest (u : User.t) (now : Z) (r : Request) (d : Db)
  : option (Db * Rest.Response) :=
  match r with
  | Send req id =>
      Some (Rest.post_messages hook_cast_error_aborts_save u req id now d)
  | Edit messageId content =>
      Some (Rest.put_message hook_cast_error_aborts_save u messageId content now d)
  | Delete messageId => Some (Rest.delete_message u messageId now d)
  | React messageId emoji => Some (Rest.post_reaction u messageId emoji now d)
  | Unreact messageId => Some (Rest.delete_reaction u messageId d)
  | _ => None
  end.

End Handle.

(** What happens on a running server: a socket of an accepted user is
    opened, a socket is closed, an open socket sends a request, or an
    authenticated user calls a route of the REST mirror. *)
Inductive Action :=
| Open (u : User.t) (socketId : string)
| Close (u : User.t) (socketId : string)
| Ask (u : User.t) (socketId : string) (r : Request)
| Call (u : User.t) (r : Request).

Definition act (hook : bool) (now : Z) (a : Action) (s : Live.Server)
  : Live.Server :=
  match a with
  | Open u socketId => (Live.on_connection u socketId now s).1
  | Close u socketId => (Live.disconnect u socketId now s).1
  | Ask u socketId r => (live hook u socketId now r s).1
  | Call u r =>
      match rest hook u now r (Live.db s) with
      | Some (d', _) => Live.set_db d' s
      | None => s
      end
  end.

(** Actions with their times, one after the other. *)
Definition run (hook : bool) (l : list (Z * Action)) (s : Live.Server)
  : Live.Server :=
  foldl (λ st x, act hook x.1 x.2 st) s l.

(** The transport gives every connection a socket identifier of its
    own, and closes only sockets that are open, each with the user it
    was opened for. *)
Definition allowed (a : Action) (s : Live.Server) : Prop :=
  match a with
  | Open _ socketId => Live.userSockets s !! socketId = None
  | Close u socketId => Live.userSockets s !! socketId = Some (User._id u)
  | Ask u socketId _ => Live.userSockets s !! socketId = Some (User._id u)
  | Call _ _ => True
  end.

(** The states reached from a server without connections. *)
Inductive reachable (hook : bool) : Live.Server → Prop :=
| reach_start (d : Db) : reachable hook (Live.mkServer d ∅ ∅ ∅)
| reach_step (s : Live.Server) (a : Action) (now : Z) :
    reachable hook s → allowed a s → reachable hook (act hook now a s).

End Dispatch.

(** ** Well-formed stored messages *)

(** What the schema and the methods maintain of a stored message: the
    content is trimmed, not empty and at most 1000 long; the kind and
    the attachment kinds are in their enumerations; every reaction has
    an emoji and no user has two reactions; the edited and deleted
    flags go with their timestamps. *)
Record well_formed (m : Message.t) : Prop := mkWellFormed {
  wf_content : Message.valid_content (Message.content m) = true;
  wf_trimmed : JS.trim (Message.content m) = Message.content m;
  wf_kind : Message.in_enum Message.messageType_enum (Message.messageType m) = true;
  wf_attachments : forallb Message.valid_attachment (Message.attachments m) = true;
  wf_reactions : Message.valid_reactions (Message.reactions m) = true;
  wf_one_reaction : NoDup (Reaction.user <$> Message.reactions m);
  wf_edited : Message.isEdited m = true ↔ is_Some (Message.editedAt m);
  wf_deleted : Message.isDeleted m = true ↔ is_Some (Message.deletedAt m)
}.

Definition store_ok (d : Db) : Prop :=
  ∀ k m, messages d !! k = Some m → well_formed m.

(** ** The changes that an operation makes to one stored message *)

(** [mutation now o m']: at time [now] the document [m'] is written
    under a key that held [o] before.  It is a new message, or the
    message that was there after an edit, a soft delete, or a change of
    the reactions of one user. *)
Inductive mutation (now : Z) : option Message.t → Message.t → Prop :=
| mut_create (uid c kind : string) (atts : list Attachment.t)
    (reply : option string) (ms : list string) :
    Message.valid_content c = true →
    JS.trim c = c →
    Message.in_enum Message.messageType_enum kind = true →
    forallb Message.valid_attachment atts = true →
    mutation now None
      (Message.mk uid c kind atts false None false None [] reply ms now)
| mut_edit (m : Message.t) (c : string) (ms : list string) :
    c = Message.content m ∨ Message.valid_content c = true →
    JS.trim c = c →
    mutation now (Some m)
      (Message.with_mentions ms (Message.with_content c true (Some now) m))
| mut_delete (m : Message.t) :
    mutation now (Some m) (Message.with_deleted true (Some now) m)
| mut_react (m : Message.t) (uid e : string) :
    Message.valid_reactions (replaced uid e now (Message.reactions m)) = true →
    mutation now (Some m)
      (Message.with_reactions (replaced uid e now (Message.reactions m)) m)
| mut_unreact (m : Message.t) (uid : string) :
    Message.valid_reactions
      (filter (λ r, Reaction.user r ≠ uid) (Message.reactions m)) = true →
    mutation now (Some m)
      (Message.with_reactions
         (filter (λ r, Reaction.user r ≠ uid) (Message.reactions m)) m).

(** [changed now d d']: the store [d'] is [d], or [d] with one
    document written by a [mutation]. *)
Definition changed (now : Z) (d d' : Db) : Prop :=
  d' = d
  ∨ ∃ k m', d' = set_messages (<[k := m']> (messages d)) d
            ∧ mutation now (messages d !! k) m'.

(** ** server/models/User.js and server/routes/auth.js: the statistics of the users *)

Module UserStats.

(** The group of [userSchema.statics.getStats].  [avgLoginCount] is the
    exact quotient; the store answers with the double nearest to it.
    [lockedUsers] is [None] where the object has no such field. *)
Record t := mk {
  totalUsers : nat;
  activeUsers : nat;
  verifiedUsers : nat;
  avgLoginCount : QArith_base.Q;
  lockedUsers : option nat
}.

Section Paths.

(** The paths of a stored user that the statistics read beside
    [isActive], by the key of the user: [isEmailVerified],
    [loginCount] and [lockUntil]. *)
Variable isEmailVerified : string → bool.
Variable loginCount : string → Z.
Variable lockUntil : string → option Z.

Definition active (x : string * User.fields) : Prop := User.f_isActive x.2 = true.

Definition verified (x : string * User.fields) : Prop := isEmailVerified x.1 = true.

(** [{ $gt: ['$lockUntil', new Date()] }]: [null] is below every date. *)
Definition locked (now : Z) (x : string * User.fields) : Prop :=
  match lockUntil x.1 with
  | Some t => (now < t)%Z
  | None => False
  end.

#[global] Instance locked_dec (now : Z) (x : string * User.fields) :
  Decision (locked now x).
Proof. unfold locked. destruct (lockUntil x.1); apply _. Defined.

Definition logins (all : list (string * User.fields)) : Z :=
  foldr Z.add 0%Z ((λ x, loginCount x.1) <$> all).

(** [userSchema.statics.getStats] at time [now]: one group over all
    users, no group when there is none. *)
Definition getStats (now : Z) (d : Db) : list t :=
  let all := map_to_list (users d) in
  match all with
  | [] => []
  | _ :: _ =>
      [ mk (length all)
           (length (filter active all))
           (length (filter verified all))
           (QArith_base.Qmake (logins all) (Pos.of_nat (length all)))
           (Some (length (filter (locked now) all))) ]
  end.

(** The default of the route: [stats[0] || { ...zeros }], an object
    without [lockedUsers]. *)
Definition zero : t := mk 0 0 0 (QArith_base.Qmake 0 1) None.

Inductive Answer :=
| Granted (s : t)
| Denied (r : Rest.Response).

(** [GET /stats] of the auth routes: [authenticateToken], then the
    check of the role in the handler. *)
Definition get_stats (jwt_verify_plain : string → Middleware.Verdict)
    (authorization : option string) (now : Z) (d : Db) : Answer :=
  match Middleware.authenticateToken jwt_verify_plain authorization d with
  | Middleware.Stop r => Denied r
  | Middleware.Next u =>
      if bool_decide (User.role u ≠ User.RoleAdmin) then
        Denied (Rest.fail 403 "Access denied" "Admin privileges required")
      else Granted (default zero (head (getStats now d)))
  end.

End Paths.

End UserStats.

(** ** server/config/passport.js and server/routes/auth.js: the sign-in with Google *)

Module Google.

(** Which branch of the verify callback of the strategy served the
    profile: a user with the [googleId] of the profile, a user with
    its email who gets the [googleId], or a new user. *)
Inductive Origin := Known | Linked | Created.

(** The verify callback of the strategy at time [now], on the login
    bookkeeping of the user.  [byGoogleId] and [byEmail] are the
    answers of the two [findOne] queries, [rest_valid] tells whether
    the other loaded paths of the user found pass their validators,
    [profile_ok] whether the document built from the profile passes
    the validators and the unique indexes of the collection.  [None]
    is [done(error)]. *)
Definition verify (rest_valid : bool) (now : Z)
    (byGoogleId byEmail : option Account.t) (profile_ok : bool)
  : Thrown (Origin * Account.t) :=
  let seen (o : Origin) (a : Account.t) :=
    a' ← Account.save rest_valid
           (Account.mk now (Num.succ (Account.loginCount a))
              (Account.failedLoginAttempts a) (Account.lockUntil a));
    Some (o, a') in
  match byGoogleId with
  | Some a => seen Known a
  | None =>
      match byEmail with
      | Some a => seen Linked a
      | None =>
          if profile_ok then Some (Created, Account.mk now 1 0 None) else None
      end
  end.

(** Where the callback route sends the browser. *)
Inductive Redirect := WithToken (token : string) | ServerError.

(** [GET /google/callback] once the strategy has passed the user with
    identifier [userId] and bookkeeping [a]: [updateLastLogin],
    [generateToken], redirect.  The first component is the bookkeeping
    that is stored afterwards. *)
Definition callback (jwt_sign : string → Z → string) (rest_valid : bool)
    (userId : string) (now : Z) (a : Account.t) : Account.t * Redirect :=
  match Account.updateLastLogin rest_valid now a with
  | None => (a, ServerError)
  | Some a' =>
      match Middleware.generateToken jwt_sign userId now with
      | Some token => (a', WithToken token)
      | None => (a', ServerError)
      end
  end.

(** A sign-in: the strategy at [t1], then the callback at [t2].  The
    other paths of a user that the strategy has just created have
    passed their validators. *)
Definition sign_in (jwt_sign : string → Z → string) (rest_valid : bool)
    (userId : string) (t1 t2 : Z) (byGoogleId byEmail : option Account.t)
    (profile_ok : bool) : Thrown (Origin * (Account.t * Redirect)) :=
  '(o, a) ← verify rest_valid t1 byGoogleId byEmail profile_ok;
  let valid := match o with Created => true | _ => rest_valid end in
  Some (o, callback jwt_sign valid userId t2 a).

(** The user that the two queries find, if any. *)
Definition found (byGoogleId byEmail : option Account.t) : option Account.t :=
  match byGoogleId with
  | Some a => Some a
  | None => byEmail
  end.

End Google.

(** ** server/socket/socketHandlers.js: the helpers on the registry *)

(** [getOnlineUsersCount]. *)
Definition getOnlineUsersCount (s : Live.Server) : nat :=
  size (Live.connectedUsers s).

(** ** Stores that differ in the flags of the users only *)

(** [same_profiles d d']: the two stores hold the same messages, and
    the same users with the same names and avatars; the active flags
    and the roles may differ. *)
Definition profile (f : User.fields) : string * option string :=
  (User.f_name f, User.f_avatar f).

Definition same_profiles (d d' : Db) : Prop :=
  messages d' = messages d
  ∧ ∀ k, profile <$> users d' !! k = profile <$> users d !! k.

(** ** Further concrete values used by the examples *)

Module Sample.

Definition carol_id : string := "cccccccccccccccccccccccc".
Definition dave_id : string := "dddddddddddddddddddddddd".

(** Carol is an admin, Dave a moderator. *)
Definition carol_fields : User.fields :=
  User.mkFields "Carol" None true User.RoleAdmin.
Definition dave_fields : User.fields :=
  User.mkFields "Dave" None true User.RoleModerator.

Definition carol : User.t := User.load carol_id carol_fields.
Definition dave : User.t := User.load dave_id dave_fields.

Definition staff : gmap string User.fields :=
  <[carol_id := carol_fields]> (<[dave_id := dave_fields]> Fixture.people).

(** Alice's message "hello" with a reaction of Bob and one of Carol. *)
Definition liked : Message.t :=
  Message.with_reactions
    [Reaction.mk Fixture.bob_id ":)" 2; Reaction.mk carol_id "+1" 3]
    Fixture.hello.

Definition db2 : Db := mkDb staff (<[Fixture.m1 := liked]> ∅).
Definition s2 : Live.Server := Live.mkServer db2 ∅ ∅ ∅.

(** A verification that decodes every token to the user named by its
    first segment: "a" for Alice, "c" for Carol, "d" for Dave. *)
Definition decode (token : string) : Middleware.Verdict :=
  match JS.split_on "." token with
  | "a" :: _ => Middleware.Decoded (Auth.mkJwt (Some Fixture.alice_id))
  | "c" :: _ => Middleware.Decoded (Auth.mkJwt (Some carol_id))
  | "d" :: _ => Middleware.Decoded (Auth.mkJwt (Some dave_id))
  | _ => Middleware.Threw "JsonWebTokenError"
  end.

Definition decode_live (token : string) : option Auth.JwtPayload :=
  match decode token with
  | Middleware.Decoded p => Some p
  | Middleware.Threw _ => None
  end.

(** A signature that yields the token of [decode] for Alice. *)
Definition sign (userId : string) (iat : Z) : string := "a.b.c".

Definition fresh_account : Account.t := Account.mk 0 3 0 None.

End Sample.

(** * Properties *)

(** In the statements below [hook] stands for the parameter
    [hook_cast_error_aborts_save] of the model, [jwt_verify] for the
    verification of jsonwebtoken and [regex_test] for the regular
    expression match of the store; a statement that binds one of them
    holds for each of its values. *)

(** ** The string primitives on small inputs *)

Example trim_inner_space : JS.trim "  a b  " = "a b".
Proof. reflexivity. Qed.

Example split_bearer : JS.split_on " " "Bearer aa.bb.cc" !! 1%nat = Some "aa.bb.cc".
Proof. reflexivity. Qed.

Example token_format_three_segments :
  Auth.token_format "aa.b-b.c_c" = true
  ∧ Auth.token_format "aa.bb." = true
  ∧ Auth.token_format "aa..cc" = false
  ∧ Auth.token_format "aa.bb" = false
  ∧ Auth.token_format "aa.bb.cc.dd" = false.
Proof. repeat split. Qed.

Example extract_mentions_two :
  Message.extract_mentions "hi @bob, cc @@al_1 a@b@c @ x" = ["bob"; "al_1"; "b"; "c"].
Proof. reflexivity. Qed.

Example cast_upper_case :
  ObjectId.cast "AAAAAAAAAAAAAAAAAAAAAAAA" = Some "aaaaaaaaaaaaaaaaaaaaaaaa"
  ∧ ObjectId.cast "bob" = None.
Proof. split; reflexivity. Qed.

(** ** Content validation *)

Lemma is_empty_true (s : string) : JS.is_empty s = true ↔ s = "".
Proof. destruct s; simpl; split; congruence. Qed.

Lemma is_empty_false (s : string) : JS.is_empty s = false ↔ s ≠ "".
Proof. destruct s; simpl; split; congruence. Qed.

(** Content that is blank after trimming, or longer than 1000, never
    passes the two checks, whatever else the request carries. *)
Lemma check_content_rejects (c : string) :
  JS.trim c = "" ∨ (1000 < String.length c)%nat →
  check_content (Some c) = ContentRequired
  ∨ check_content (Some c) = ContentTooLong.
Proof.
  intros H. unfold check_content.
  destruct (JS.is_empty c || JS.is_empty (JS.trim c)) eqn:E; [by left|].
  right. apply orb_false_iff in E as [_ E]. apply is_empty_false in E.
  destruct H as [H|H]; [done|].
  apply Nat.ltb_lt in H. by rewrite H.
Qed.

Lemma check_content_accepts (c : string) :
  JS.trim c ≠ "" → (String.length c ≤ 1000)%nat →
  check_content (Some c) = ContentOk c.
Proof.
  intros Ht Hl. unfold check_content.
  assert (JS.is_empty c = false) as ->.
  { apply is_empty_false. intros ->. by apply Ht. }
  apply is_empty_false in Ht. rewrite Ht. simpl.
  destruct (1000 <? String.length c)%nat eqn:E; [|done].
  apply Nat.ltb_lt in E. lia.
Qed.

(** A check of content yields [ContentOk] only on the content itself. *)
Lemma check_content_ok_inv (o : option string) (c : string) :
  check_content o = ContentOk c →
  o = Some c ∧ JS.trim c ≠ "" ∧ (String.length c ≤ 1000)%nat.
Proof.
  unfold check_content. destruct o as [c'|]; [|done].
  destruct (JS.is_empty c' || JS.is_empty (JS.trim c')) eqn:E; [done|].
  destruct (1000 <? String.length c')%nat eqn:L; [done|].
  intros [= <-]. apply orb_false_iff in E as [_ E].
  apply is_empty_false in E. apply Nat.ltb_ge in L. done.
Qed.

(** ** Ownership *)


(** ** C4: invalid content *)

(** C4.  For every content string that is empty after trimming or longer
    than 1000 characters, Send and Edit, on the live channel and on the
    REST mirror, fail with a validation error: the store and the rest of
    the server state are exactly as before (no message created, no
    message changed), the REST answer is a 400 "Validation error", and
    the only event emitted on the live channel is an [error] to the
    originating socket (nothing goes to the room). *)
Theorem C4_invalid_content_rejected :
  ∀ (hook : bool) (u : User.t) (socketId messageId id : string)
    (req : SendRequest) (c : string) (now : Z) (s : Live.Server),
    JS.trim c = "" ∨ (1000 < String.length c)%nat →
    content req = Some c →
    ∃ msg,
      (msg = "Message content is required"
       ∨ msg = "Message content cannot exceed 1000 characters")
      ∧ Live.send_message hook u socketId req id now s
        = (s, [(Live.ToSocket socketId, Live.ev_error msg)])
      ∧ Rest.post_messages hook u req id now (Live.db s)
        = (Live.db s, Rest.fail 400 "Validation error" msg)
      ∧ Live.edit_message hook u socketId messageId (Some c) now s
        = (s, [(Live.ToSocket socketId, Live.ev_error msg)])
      ∧ Rest.put_message hook u messageId (Some c) now (Live.db s)
        = (Live.db s, Rest.fail 400 "Validation error" msg).
Proof.
  intros hook u sid mid id req c now s Hbad Hc.
  unfold Live.send_message, Rest.post_messages, Live.edit_message,
    Rest.put_message. rewrite Hc.
  destruct (check_content_rejects c Hbad) as [-> | ->]; eexists;
    (split; [|done]); auto.
Qed.

Lemma C4_witness :
  ∃ msg,
    (msg = "Message content is required"
     ∨ msg = "Message content cannot exceed 1000 characters")
    ∧ Live.send_message false Fixture.bob "sock-b"
        (mkSend (Some "   ") None None None) Fixture.m2 7 Fixture.s1
      = (Fixture.s1, [(Live.ToSocket "sock-b", Live.ev_error msg)])
    ∧ Rest.post_messages false Fixture.bob
        (mkSend (Some "   ") None None None) Fixture.m2 7 (Live.db Fixture.s1)
      = (Live.db Fixture.s1, Rest.fail 400 "Validation error" msg)
    ∧ Live.edit_message false Fixture.bob "sock-b" Fixture.m1 (Some "   ") 7
        Fixture.s1
      = (Fixture.s1, [(Live.ToSocket "sock-b", Live.ev_error msg)])
    ∧ Rest.put_message false Fixture.bob Fixture.m1 (Some "   ") 7
        (Live.db Fixture.s1)
      = (Live.db Fixture.s1, Rest.fail 400 "Validation error" msg).
Proof.
  apply (C4_invalid_content_rejected false Fixture.bob "sock-b" Fixture.m1
           Fixture.m2 (mkSend (Some "   ") None None None) "   " 7 Fixture.s1).
  - left. reflexivity.
  - reflexivity.
Defined.

(** ** C1: edit and delete by a user who is neither owner nor admin *)




(** ** C2: the connection gate *)

(** A verified token is not empty. *)
Lemma verifyToken_nonempty (jwt_verify : string → option Auth.JwtPayload)
    (token : string) (decoded : Auth.JwtPayload) :
  Auth.verifyToken jwt_verify token = Some decoded → JS.truthy (Some token) = true.
Proof. unfold Auth.verifyToken. by destruct token. Qed.

(** A refused connection attempt leaves the whole server state as it
    was and emits nothing, whatever the reason of the refusal. *)
Lemma connect_refused_inert (jwt_verify : string → option Auth.JwtPayload)
    (h : Live.Handshake) (socketId : string) (now : Z) (s s' : Live.Server)
    (e : string) (out : list Live.Emit) :
  Live.connect jwt_verify h socketId now s = (s', Live.Refused e, out) →
  s' = s ∧ out = [].
Proof.
  unfold Live.connect. destruct (Live.io_use jwt_verify h (Live.db s)).
  - by intros [= -> _ <-].
  - destruct (Live.on_connection _ _ _ _). by intros [=].
Qed.

(** C2.  A connection attempt whose credential verifies and whose
    subject resolves to no user, or to a user whose active flag is
    false, is refused; the server state after the attempt is the state
    before it (no entry in either registry map, no room joined) and no
    event is emitted (no presence broadcast). *)
Theorem C2_inactive_or_missing_user_refused :
  ∀ (jwt_verify : string → option Auth.JwtPayload) (h : Live.Handshake)
    (socketId token uid : string) (decoded : Auth.JwtPayload) (now : Z)
    (s : Live.Server),
    Live.handshake_token h = Some token →
    Auth.verifyToken jwt_verify token = Some decoded →
    Auth.userId decoded = Some uid →
    (User_findById (Live.db s) uid = Some None
     ∨ ∃ u, User_findById (Live.db s) uid = Some (Some u)
            ∧ User.isActive u = false) →
    let r := Live.connect jwt_verify h socketId now s in
    r = (s, Live.Refused "User not found or inactive", [])
    ∧ Live.connectedUsers r.1.1 = Live.connectedUsers s
    ∧ Live.userSockets r.1.1 = Live.userSockets s
    ∧ Live.rooms r.1.1 = Live.rooms s
    ∧ r.2 = [].
Proof.
  intros jwt h sid token uid decoded now s Htok Hver Huid Huser r.
  assert (r = (s, Live.Refused "User not found or inactive", [])) as ->.
  { subst r. unfold Live.connect, Live.io_use. rewrite Htok.
    rewrite (verifyToken_nonempty _ _ _ Hver), Hver, Huid. simpl.
    destruct Huser as [-> | (u & -> & Hact)]; [done|]. by rewrite Hact. }
  done.
Qed.

Lemma C2_witness :
  let jwt := λ _ : string, Some (Auth.mkJwt (Some "cccccccccccccccccccccccc")) in
  let r := Live.connect jwt (Live.mkHandshake (Some "aa.bb.cc") None) "sock-c" 7
             Fixture.s1 in
  r = (Fixture.s1, Live.Refused "User not found or inactive", [])
  ∧ Live.connectedUsers r.1.1 = Live.connectedUsers Fixture.s1
  ∧ Live.userSockets r.1.1 = Live.userSockets Fixture.s1
  ∧ Live.rooms r.1.1 = Live.rooms Fixture.s1
  ∧ r.2 = [].
Proof.
  intros jwt.
  apply (C2_inactive_or_missing_user_refused jwt
           (Live.mkHandshake (Some "aa.bb.cc") None) "sock-c" "aa.bb.cc"
           "cccccccccccccccccccccccc"
           (Auth.mkJwt (Some "cccccccccccccccccccccccc")) 7 Fixture.s1).
  - reflexivity.
  - reflexivity.
  - reflexivity.
  - left. reflexivity.
Defined.

(** ** C3: private messages *)

(** No document of kind "private" passes the schema: the kind is not in
    the enumeration of [messageType]. *)
Lemma create_private_fails (hook : bool) (id user c : string) (now : Z) (d : Db) :
  create hook id now (mkData user c "private" [] None) d = None.
Proof.
  unfold create. simpl.
  replace (Message.in_enum Message.messageType_enum "private") with false
    by reflexivity.
  by rewrite andb_false_r.
Qed.

(** C3 (the code departs from the claim).  "private" is not one of the
    kinds that the schema of a message admits, so no private message is
    ever stored or delivered: whatever the sender, the recipient and
    the content, the handler leaves the state as it was and emits a
    single [error] to the sender. *)
Theorem C3_private_message_never_stored :
  ∀ (hook : bool) (u : User.t) (socketId id : string)
    (recipientId content : option string) (now : Z) (s : Live.Server),
    Message.in_enum Message.messageType_enum "private" = false
    ∧ ∃ msg,
        (msg = "Message content is required"
         ∨ msg = "Failed to send private message")
        ∧ Live.private_message hook u socketId recipientId content id now s
          = (s, [(Live.ToSocket socketId, Live.ev_error msg)]).
Proof.
  intros hook u sid id rcpt content now s. split; [reflexivity|].
  unfold Live.private_message, Live.emit_error.
  destruct (if JS.truthy content then content else None) as [c|]; [|eauto].
  destruct (JS.is_empty (JS.trim c)); [eauto|].
  rewrite create_private_fails. eauto.
Qed.

(** The handler on an accepted private message, from Alice to Bob who
    is connected: nothing is stored, Bob receives nothing. *)
Example private_message_hi :
  let s := (Live.on_connection Fixture.bob "sock-b" 1 Fixture.s0).1 in
  Live.private_message false Fixture.alice "sock-a" (Some Fixture.bob_id)
    (Some "hi") Fixture.m1 7 s
  = (s, [(Live.ToSocket "sock-a", Live.ev_error "Failed to send private message")]).
Proof. reflexivity. Qed.

(** ** C10: the registry is keyed by user *)

(** C10.  After [u] connects on [c1] and then on [c2], the registry maps
    [u] to [c2]; the disconnect of the stale connection [c1] then
    deletes the entry of [u]: the lookup of [u] returns nothing although
    [c2] is still bound to [u] in the reverse map and still in the
    room. *)
Theorem C10_stale_disconnect_unbinds_user :
  ∀ (u : User.t) (c1 c2 : string) (t1 t2 t3 : Z) (s : Live.Server),
    c1 ≠ c2 →
    let s1 := (Live.on_connection u c1 t1 s).1 in
    let s2 := (Live.on_connection u c2 t2 s1).1 in
    let s3 := (Live.disconnect u c1 t3 s2).1 in
    Live.connectedUsers s1 !! User._id u = Some c1
    ∧ Live.connectedUsers s2 !! User._id u = Some c2
    ∧ Live.connectedUsers s3 !! User._id u = None
    ∧ Live.userSockets s3 !! c2 = Some (User._id u)
    ∧ Live.userSockets s3 !! c1 = None
    ∧ ("general", c2) ∈ Live.rooms s3.
Proof.
  intros u c1 c2 t1 t2 t3 s Hne. simpl.
  repeat split.
  - apply lookup_insert_eq.
  - apply lookup_insert_eq.
  - apply lookup_delete_eq.
  - rewrite lookup_delete_ne by done. apply lookup_insert_eq.
  - apply lookup_delete_eq.
  - apply elem_of_filter. split; [simpl; congruence|]. set_solver.
Qed.

Lemma C10_witness :
  let s1 := (Live.on_connection Fixture.alice "sock-1" 1 Fixture.s0).1 in
  let s2 := (Live.on_connection Fixture.alice "sock-2" 2 s1).1 in
  let s3 := (Live.disconnect Fixture.alice "sock-1" 3 s2).1 in
  Live.connectedUsers s1 !! User._id Fixture.alice = Some "sock-1"
  ∧ Live.connectedUsers s2 !! User._id Fixture.alice = Some "sock-2"
  ∧ Live.connectedUsers s3 !! User._id Fixture.alice = None
  ∧ Live.userSockets s3 !! "sock-2" = Some (User._id Fixture.alice)
  ∧ Live.userSockets s3 !! "sock-1" = None
  ∧ ("general", "sock-2") ∈ Live.rooms s3.
Proof.
  apply (C10_stale_disconnect_unbinds_user Fixture.alice "sock-1" "sock-2"
           1 2 3 Fixture.s0).
  intros H. discriminate H.
Defined.

(** ** Queries over the message collection *)

Lemma findById_inv (d : Db) (messageId : string) (doc : MessageDoc) :
  Message_findById d messageId = Some (Some doc) →
  ObjectId.cast messageId = Some doc.1 ∧ messages d !! doc.1 = Some doc.2.
Proof.
  unfold Message_findById. destruct (ObjectId.cast messageId) as [k|]; [|done].
  simpl. destruct (messages d !! k) as [m|] eqn:E; [|done].
  by intros [= <-].
Qed.

Lemma newest_first_elem (ds : list MessageDoc) (d : MessageDoc) :
  d ∈ newest_first ds ↔ d ∈ ds.
Proof. unfold newest_first. by rewrite merge_sort_Permutation. Qed.

Lemma cursor_limit_subseteq (n : Z) (ds : list MessageDoc) :
  cursor_limit n ds ⊆ ds.
Proof.
  unfold cursor_limit. destruct (n =? 0)%Z; [done|]. apply subseteq_take.
Qed.

(** Every document returned by [getMessages] is a stored document that
    is not soft-deleted. *)
Lemma getMessages_sound (page limit : Z) (d : Db) (ms : list MessageDoc)
    (doc : MessageDoc) :
  getMessages page limit d = Some ms → doc ∈ ms →
  messages d !! doc.1 = Some doc.2 ∧ Message.isDeleted doc.2 = false.
Proof.
  unfold getMessages. destruct (_ <? 0)%Z; [done|]. intros [= <-] Hin.
  apply cursor_limit_subseteq, subseteq_drop in Hin.
  rewrite newest_first_elem in Hin.
  apply list_elem_of_filter in Hin as [Hnd Hin].
  destruct doc as [k m]. apply elem_of_map_to_list in Hin.
  split; [done|]. unfold not_deleted in Hnd. simpl in *.
  by destruct (Message.isDeleted m).
Qed.

(** Likewise for [searchMessages], whatever the regular expression
    engine answers. *)
Lemma searchMessages_sound (regex_test : string → string → bool)
    (q : string) (userId : option string) (d : Db) (ms : list MessageDoc)
    (doc : MessageDoc) :
  searchMessages regex_test q userId d = Some ms → doc ∈ ms →
  messages d !! doc.1 = Some doc.2 ∧ Message.isDeleted doc.2 = false.
Proof.
  unfold searchMessages.
  destruct (if JS.truthy userId then _ else _) as [owner|]; [|done].
  simpl. intros [= <-] Hin.
  apply subseteq_take in Hin. rewrite newest_first_elem in Hin.
  apply list_elem_of_filter in Hin as [Hm Hin].
  destruct doc as [k m]. apply elem_of_map_to_list in Hin.
  split; [done|].
  apply andb_true_iff in Hm as [Hm _]. apply andb_true_iff in Hm as [Hm _].
  unfold not_deleted in Hm. simpl in *. by destruct (Message.isDeleted m).
Qed.

(** What the two routes that list messages answer with. *)
Lemma listed_sound (regex_test : string → string → bool) (d : Db)
    (doc : MessageDoc) :
  (∀ qpage qlimit search,
     doc ∈ Rest.listed (Rest.get_messages regex_test qpage qlimit search d) →
     messages d !! doc.1 = Some doc.2 ∧ Message.isDeleted doc.2 = false)
  ∧ (∀ q userId,
       doc ∈ Rest.listed (Rest.get_search regex_test q userId d) →
       messages d !! doc.1 = Some doc.2 ∧ Message.isDeleted doc.2 = false).
Proof.
  split.
  - intros qp ql search. unfold Rest.get_messages.
    destruct (if JS.truthy search then search else None) as [q|].
    + destruct (searchMessages _ _ _ _) as [ms|] eqn:E; unfold Rest.listed; simpl.
      * rewrite elem_of_reverse. by apply searchMessages_sound with (1 := E).
      * by intros ?%elem_of_nil.
    + destruct (getMessages _ _ _) as [ms|] eqn:E; unfold Rest.listed; simpl.
      * rewrite elem_of_reverse. by apply getMessages_sound with (1 := E).
      * by intros ?%elem_of_nil.
  - intros q userId. unfold Rest.get_search.
    destruct (if JS.truthy q then q else None) as [query|]; [|unfold Rest.listed; simpl].
    + destruct (searchMessages _ _ _ _) as [ms|] eqn:E; unfold Rest.listed; simpl.
      * by apply searchMessages_sound with (1 := E).
      * by intros ?%elem_of_nil.
    + by intros ?%elem_of_nil.
Qed.

(** ** C5: soft delete *)

(** The owner deletes her message at time 10 and again at time 20: the
    second delete overwrites the deleted-timestamp. *)
Lemma C5_counterexample :
  let db10 := (Rest.delete_message Fixture.alice Fixture.m1 10 Fixture.db1).1 in
  let db20 := (Rest.delete_message Fixture.alice Fixture.m1 20 db10).1 in
  Message.deletedAt <$> messages db10 !! Fixture.m1 = Some (Some 10%Z)
  ∧ Message.deletedAt <$> messages db20 !! Fixture.m1 = Some (Some 20%Z)
  ∧ Message.deletedAt <$> messages db20 !! Fixture.m1
    ≠ Message.deletedAt <$> messages db10 !! Fixture.m1.
Proof. repeat split. intros H. discriminate H. Qed.

Lemma forbidden_with_deleted (k : string) (m : Message.t) (b : bool)
    (t0 : option Z) (u : User.t) :
  forbidden (k, Message.with_deleted b t0 m) u = forbidden (k, m) u.
Proof. reflexivity. Qed.

(** The soft delete of a document that passes the validation. *)
Lemma softDelete_valid (now : Z) (doc : MessageDoc) (d : Db) :
  Message.valid_document doc.2 = true →
  softDelete now doc d
  = Some (store (doc.1, Message.with_deleted true (Some now) doc.2) d,
          (doc.1, Message.with_deleted true (Some now) doc.2)).
Proof.
  intros Hv. unfold softDelete. cbn [fst snd].
  change (Message.valid_document (Message.with_deleted true (Some now) doc.2))
    with (Message.valid_document doc.2).
  by rewrite Hv.
Qed.

(** C5 (amended).  Let [doc] be the stored message found under
    [messageId], a document that passes the validation of the schema,
    and [u] a user allowed to delete it (the owner or an admin).
    After the soft delete by [u] at time [now], on either transport:
    - the message is still stored, with the soft-deleted flag set, the
      deleted-timestamp equal to [now] and every other field as before,
      and no other message is touched;
    - it is still found by a lookup by identifier;
    - it is in no answer of the listing route and of the search route;
    - a further delete by [u] at time [later] keeps the flag set and
      overwrites the deleted-timestamp with [later]. *)
Theorem C5_soft_delete :
  ∀ (regex_test : string → string → bool) (u : User.t)
    (socketId messageId : string) (doc : MessageDoc) (now : Z)
    (s : Live.Server),
    Message_findById (Live.db s) messageId = Some (Some doc) →
    Message.valid_document doc.2 = true →
    forbidden doc u = false →
    let gone := Message.with_deleted true (Some now) doc.2 in
    let db' := (Rest.delete_message u messageId now (Live.db s)).1 in
    (Live.delete_message u socketId messageId now s).1 = Live.set_db db' s
    ∧ messages db' = <[doc.1 := gone]> (messages (Live.db s))
    ∧ Message.isDeleted gone = true
    ∧ Message.deletedAt gone = Some now
    ∧ Message_findById db' messageId = Some (Some (doc.1, gone))
    ∧ (∀ qpage qlimit search,
         doc.1 ∉ (Rest.listed
                    (Rest.get_messages regex_test qpage qlimit search db')).*1)
    ∧ (∀ q userId,
         doc.1 ∉ (Rest.listed (Rest.get_search regex_test q userId db')).*1)
    ∧ (∀ later,
         Message_findById (Rest.delete_message u messageId later db').1 messageId
         = Some (Some (doc.1, Message.with_deleted true (Some later) doc.2))).
Proof.
  intros regex u sid mid [k m] now s Hfind Hvalid Hallowed gone db'.
  destruct (findById_inv _ _ _ Hfind) as [Hcast Hm]. simpl in Hcast, Hm.
  pose proof (softDelete_valid now (k, m) (Live.db s) Hvalid) as Hdel.
  cbn [fst snd] in Hdel.
  assert (db' = set_messages (<[k := gone]> (messages (Live.db s))) (Live.db s))
    as Hdb.
  { subst db'. unfold Rest.delete_message. by rewrite Hfind, Hallowed, Hdel. }
  assert (Message_findById db' mid = Some (Some (k, gone))) as Hfound.
  { rewrite Hdb. unfold Message_findById. rewrite Hcast. simpl.
    by rewrite lookup_insert_eq. }
  assert (∀ d : MessageDoc,
            messages db' !! d.1 = Some d.2 ∧ Message.isDeleted d.2 = false →
            d.1 ≠ k) as Hlive.
  { intros [k' m'] [Hl Hd] Hk. simpl in *. subst k'. rewrite Hdb in Hl.
    simpl in Hl. rewrite lookup_insert_eq in Hl. by injection Hl as <-. }
  simpl. repeat split.
  - unfold Live.delete_message. rewrite Hfind, Hallowed, Hdel. simpl.
    by rewrite Hdb.
  - by rewrite Hdb.
  - done.
  - intros qp ql search [d [Hk Hin]]%list_elem_of_fmap.
    apply (Hlive d); [|done].
    by apply (proj1 (listed_sound regex db' d) qp ql search).
  - intros q userId [d [Hk Hin]]%list_elem_of_fmap.
    apply (Hlive d); [|done].
    by apply (proj2 (listed_sound regex db' d) q userId).
  - intros later. unfold Rest.delete_message at 1. rewrite Hfound.
    subst gone. cbn [fst snd]. rewrite forbidden_with_deleted, Hallowed.
    rewrite (softDelete_valid later (k, Message.with_deleted true (Some now) m) db')
      by exact Hvalid.
    cbn [fst snd]. unfold Message_findById. rewrite Hcast. simpl.
    by rewrite lookup_insert_eq.
Qed.

Lemma C5_witness :
  let gone := Message.with_deleted true (Some 10%Z) Fixture.hello in
  let db' := (Rest.delete_message Fixture.alice Fixture.m1 10 Fixture.db1).1 in
  Message_findById db' Fixture.m1 = Some (Some (Fixture.m1, gone))
  ∧ (Fixture.m1 ∉ (Rest.listed
                     (Rest.get_messages (λ _ _, true) None None None db')).*1)
  ∧ (Fixture.m1 ∉ (Rest.listed
                     (Rest.get_search (λ _ _, true) (Some "hello") None db')).*1).
Proof.
  destruct (C5_soft_delete (λ _ _, true) Fixture.alice "sock-a" Fixture.m1
              (Fixture.m1, Fixture.hello) 10 Fixture.s1)
    as (_ & _ & _ & _ & Hfound & Hlist & Hsearch & _).
  - reflexivity.
  - reflexivity.
  - reflexivity.
  - split; [exact Hfound|]. split; [apply Hlist | apply Hsearch].
Defined.

(** ** C6: one reaction per user *)


Section Reactions.

Variable uid : string.





Abbreviation replaced := (replaced uid).




End Reactions.

(** The validation of a document with other reactions. *)
Lemma valid_document_reactions (m : Message.t) :
  Message.valid_document m = true →
  Message.valid_reactions (Message.reactions m) = true.
Proof. unfold Message.valid_document. by intros [_ ?]%andb_true_iff. Qed.







(** ** Trimming *)

Lemma trim_start_length (s : string) :
  (String.length (JS.trim_start s) ≤ String.length s)%nat.
Proof.
  induction s as [|c r IH]; simpl; [done|].
  destruct (JS.is_ws c); simpl; lia.
Qed.

Lemma trim_end_length (s : string) :
  (String.length (JS.trim_end s) ≤ String.length s)%nat.
Proof.
  induction s as [|c r IH]; simpl; [done|].
  destruct (JS.trim_end r); [destruct (JS.is_ws c)|]; simpl in *; lia.
Qed.

Lemma trim_length (s : string) :
  (String.length (JS.trim s) ≤ String.length s)%nat.
Proof.
  unfold JS.trim. etrans; [apply trim_end_length | apply trim_start_length].
Qed.

Lemma trim_end_idem (s : string) : JS.trim_end (JS.trim_end s) = JS.trim_end s.
Proof.
  induction s as [|c r IH]; simpl; [done|].
  destruct (JS.trim_end r) as [|c' r'] eqn:E.
  - destruct (JS.is_ws c) eqn:W; simpl; [done|]. by rewrite W.
  - simpl. simpl in IH. by rewrite IH.
Qed.

(** A trimmed string does not start with white space. *)
Lemma trim_start_head (s : string) :
  match JS.trim_start s with
  | EmptyString => True
  | String c _ => JS.is_ws c = false
  end.
Proof.
  induction s as [|c r IH]; simpl; [done|].
  destruct (JS.is_ws c) eqn:W; [done|]. simpl. done.
Qed.

Lemma trim_end_head (c : ascii) (r : string) :
  JS.is_ws c = false → ∃ r', JS.trim_end (String c r) = String c r'.
Proof.
  intros W. simpl. destruct (JS.trim_end r); rewrite ?W; eauto.
Qed.

Lemma trim_idem (s : string) : JS.trim (JS.trim s) = JS.trim s.
Proof.
  unfold JS.trim. pose proof (trim_start_head s) as H.
  destruct (JS.trim_start s) as [|c r]; [done|].
  destruct (trim_end_head c r H) as [r' E].
  rewrite E at 1. simpl JS.trim_start at 1. rewrite H, <- E.
  apply trim_end_idem.
Qed.

Lemma valid_content_trim (c : string) :
  JS.trim c ≠ "" → (String.length c ≤ 1000)%nat →
  Message.valid_content (JS.trim c) = true.
Proof.
  intros Ht Hl. unfold Message.valid_content.
  apply is_empty_false in Ht. rewrite Ht. simpl.
  apply Nat.leb_le. pose proof (trim_length c). lia.
Qed.

(** ** Identifiers *)

Lemma cast_hex24 (r : string) :
  ObjectId.is_hex24 r = true →
  ObjectId.cast r = Some (JS.to_lower r) ∧ JS.truthy (Some r) = true.
Proof.
  intros H. unfold ObjectId.cast. rewrite H. split; [done|].
  destruct r; [discriminate H | done].
Qed.

(** ** C7: the reply-target of a Send *)

(** A Send whose reply-target references no message: the store holds no
    message at all, yet the Send is answered 201 and the new message is
    stored with the dangling reference, whatever the document mapper
    does on a failed cast. *)
Lemma C7_counterexample :
  let req := mkSend (Some "hello") None None (Some Fixture.m2) in
  let r0 := Rest.post_messages false Fixture.alice req Fixture.m1 100 Fixture.db0 in
  let r1 := Rest.post_messages true Fixture.alice req Fixture.m1 100 Fixture.db0 in
  Message_findById Fixture.db0 Fixture.m2 = Some None
  ∧ Rest.status r0.2 = 201%nat
  ∧ Message.replyTo <$> messages r0.1 !! Fixture.m1 = Some (Some Fixture.m2)
  ∧ Rest.status r1.2 = 201%nat
  ∧ Message.replyTo <$> messages r1.1 !! Fixture.m1 = Some (Some Fixture.m2)
  ∧ (Live.send_message false Fixture.alice "sock-a" req Fixture.m1 100 Fixture.s0).2
    = [ (Live.ToRoom "general",
         Live.ev_new_message
           (mkPayload Fixture.m1 "hello" "text" []
              (mkSender Fixture.alice_id "Alice" None) None 100));
        (Live.ToSocket "sock-a", Live.ev_message_sent Fixture.m1) ].
Proof. repeat split. Qed.

(** The document stored by a Send with valid content, kind and
    attachments, a well-formed reply-target [r] and a fresh key. *)
Lemma create_with_reply (hook : bool) (uid id c r : string) (req : SendRequest)
    (now : Z) (d : Db) :
  JS.trim c ≠ "" → (String.length c ≤ 1000)%nat →
  replyTo req = Some r → ObjectId.is_hex24 r = true →
  Message.in_enum Message.messageType_enum (default "text" (messageType req)) = true →
  forallb Message.valid_attachment (default [] (attachments req)) = true →
  hook = false
  ∨ is_Some (mapM ObjectId.cast (Message.extract_mentions (JS.trim c))) →
  messages d !! id = None →
  ∃ ms,
    create hook id now (send_data uid c req) d
    = let m := Message.mk uid (JS.trim c) (default "text" (messageType req))
                 (default [] (attachments req)) false None false None []
                 (Some (JS.to_lower r)) ms now in
      Some (set_messages (<[id := m]> (messages d)) d, (id, m)).
Proof.
  intros Ht Hl Hr Hhex Henum Hatt Hhook Hfresh.
  destruct (cast_hex24 r Hhex) as [Hcast Htruthy].
  unfold create, send_data. rewrite Hr, Htruthy. cbn [d_replyTo d_content
    d_messageType d_attachments d_user]. rewrite Hcast. simpl.
  rewrite trim_idem, (valid_content_trim c Ht Hl), Henum, Hatt. simpl.
  destruct (mapM ObjectId.cast (Message.extract_mentions (JS.trim c)))
    as [ids|] eqn:E.
  - exists ids. simpl. by rewrite Hfresh.
  - exists []. destruct Hhook as [-> | [? ?]]; [|done]. simpl. by rewrite Hfresh.
Qed.

(** A Send whose reply-target is not a well-formed identifier stores
    nothing. *)
Lemma create_bad_reply (hook : bool) (uid id c r : string) (req : SendRequest)
    (now : Z) (d : Db) :
  replyTo req = Some r → r ≠ "" → ObjectId.is_hex24 r = false →
  create hook id now (send_data uid c req) d = None.
Proof.
  intros Hr Hne Hhex. unfold create, send_data. rewrite Hr.
  assert (JS.truthy (Some r) = true) as -> by (by destruct r).
  cbn [d_replyTo]. unfold ObjectId.cast. by rewrite Hhex.
Qed.

(** C7 (amended).  Consider a Send, on either transport, by a user who
    is in the store, with valid content, kind and attachments, a fresh
    key, and a reply-target [r].
    - If [r] is a well-formed identifier the message is stored with
      reply-target [r], whether or not [r] references a stored message:
      no lookup of [r] precedes the write.  When [r] references no
      message the Send succeeds, and the payload that is broadcast and
      returned carries a null reply-target.
    - If [r] is not a well-formed identifier the Send fails and nothing
      is stored. *)
Theorem C7_reply_target_not_checked :
  ∀ (hook : bool) (u : User.t) (socketId id c r : string) (req : SendRequest)
    (now : Z) (s : Live.Server) (f : User.fields),
    content req = Some c →
    JS.trim c ≠ "" → (String.length c ≤ 1000)%nat →
    replyTo req = Some r →
    Message.in_enum Message.messageType_enum (default "text" (messageType req)) = true →
    forallb Message.valid_attachment (default [] (attachments req)) = true →
    hook = false
    ∨ is_Some (mapM ObjectId.cast (Message.extract_mentions (JS.trim c))) →
    messages (Live.db s) !! id = None →
    users (Live.db s) !! User._id u = Some f →
    (ObjectId.is_hex24 r = true →
     ∃ m,
       Message.replyTo m = Some (JS.to_lower r)
       ∧ Message.content m = JS.trim c
       ∧ let db' := set_messages (<[id := m]> (messages (Live.db s))) (Live.db s) in
         (Rest.post_messages hook u req id now (Live.db s)).1 = db'
         ∧ (Live.send_message hook u socketId req id now s).1 = Live.set_db db' s
         ∧ (messages (Live.db s) !! JS.to_lower r = None →
            id ≠ JS.to_lower r →
            let p := message_payload db' (id, m)
                       (mkSender (User._id u) (User.f_name f) (User.f_avatar f)) in
            p_replyTo p = None
            ∧ Rest.post_messages hook u req id now (Live.db s)
              = (db', Rest.mkResponse 201 (Rest.Sent p))
            ∧ Live.send_message hook u socketId req id now s
              = (Live.set_db db' s,
                 [ (Live.ToRoom "general", Live.ev_new_message p);
                   (Live.ToSocket socketId, Live.ev_message_sent id) ])))
    ∧ (r ≠ "" → ObjectId.is_hex24 r = false →
       Rest.post_messages hook u req id now (Live.db s)
       = (Live.db s, Rest.fail 500 "Server error" "Failed to send message")
       ∧ Live.send_message hook u socketId req id now s
         = (s, [(Live.ToSocket socketId, Live.ev_error "Failed to send message")])).
Proof.
  intros hook u sid id c r req now s f Hc Ht Hl Hr Henum Hatt Hhook Hfresh Hu.
  pose proof (check_content_accepts c Ht Hl) as Hcheck.
  split.
  - intros Hhex.
    destruct (create_with_reply hook (User._id u) id c r req now (Live.db s)
                Ht Hl Hr Hhex Henum Hatt Hhook Hfresh) as [ms Hcreate].
    cbv zeta in Hcreate.
    set (m := Message.mk (User._id u) (JS.trim c)
                (default "text" (messageType req))
                (default [] (attachments req)) false None false None []
                (Some (JS.to_lower r)) ms now) in *.
    exists m. split; [done|]. split; [done|]. intros db'.
    assert (populate_user db' m
            = Some (mkSender (User._id u) (User.f_name f) (User.f_avatar f)))
      as Hpop.
    { unfold populate_user. subst db'. simpl. by rewrite Hu. }
    split; [|split].
    + unfold Rest.post_messages. rewrite Hc, Hcheck, Hcreate.
      fold db'. cbn [snd]. rewrite Hpop. cbv zeta.
      by destruct (serialises _).
    + unfold Live.send_message. rewrite Hc, Hcheck, Hcreate.
      fold db'. cbn [snd fst]. rewrite Hpop. cbv zeta.
      by destruct (serialises _).
    + intros Hdangling Hself p.
      assert (p_replyTo p = None) as Hnull.
      { subst p db'. unfold message_payload, populate_replyTo. simpl.
        rewrite lookup_insert_ne by done. by rewrite Hdangling. }
      assert (serialises p = true) as Hser.
      { unfold serialises. by rewrite Hnull. }
      split; [exact Hnull|]. split.
      * unfold Rest.post_messages. rewrite Hc, Hcheck, Hcreate.
        fold db'. cbn [snd]. rewrite Hpop. cbv zeta. fold p. by rewrite Hser.
      * unfold Live.send_message. rewrite Hc, Hcheck, Hcreate.
        fold db'. cbn [snd fst]. rewrite Hpop. cbv zeta. fold p. by rewrite Hser.
  - intros Hne Hhex.
    pose proof (create_bad_reply hook (User._id u) id c r req now (Live.db s)
                  Hr Hne Hhex) as Hcreate.
    split.
    + unfold Rest.post_messages. by rewrite Hc, Hcheck, Hcreate.
    + unfold Live.send_message. by rewrite Hc, Hcheck, Hcreate.
Qed.

Lemma C7_witness :
  ∃ m,
    Message.replyTo m = Some Fixture.m2
    ∧ Message_findById Fixture.db0 Fixture.m2 = Some None
    ∧ (Rest.post_messages false Fixture.alice
         (mkSend (Some "hello") None None (Some Fixture.m2)) Fixture.m1 100
         Fixture.db0).1
      = set_messages (<[Fixture.m1 := m]> (messages Fixture.db0)) Fixture.db0.
Proof.
  destruct (C7_reply_target_not_checked false Fixture.alice "sock-a" Fixture.m1
              "hello" Fixture.m2
              (mkSend (Some "hello") None None (Some Fixture.m2)) 100
              Fixture.s0 Fixture.alice_fields) as [Hok _].
  - reflexivity.
  - simpl. intros H. discriminate H.
  - simpl. lia.
  - reflexivity.
  - reflexivity.
  - reflexivity.
  - left. reflexivity.
  - reflexivity.
  - reflexivity.
  - destruct Hok as (m & Hreply & _ & Hpost & _); [reflexivity|].
    exists m. split; [exact Hreply|]. split; [reflexivity|].
    exact Hpost.
Defined.

(** A Send whose reply-target references a stored message: the new
    message is stored with the reference, but the payload carries the
    populated reply-target and does not serialise, so the route answers
    500 and the live handler emits the error to the sender alone. *)
Example reply_to_stored_message :
  let req := mkSend (Some "re: hello") None None (Some Fixture.m1) in
  let r := Rest.post_messages false Fixture.bob req Fixture.m2 100 Fixture.db1 in
  Message.replyTo <$> messages r.1 !! Fixture.m2 = Some (Some Fixture.m1)
  ∧ r.2 = Rest.fail 500 "Server error" "Failed to send message"
  ∧ (Live.send_message false Fixture.bob "sock-b" req Fixture.m2 100 Fixture.s1).2
    = [(Live.ToSocket "sock-b", Live.ev_error "Failed to send message")].
Proof. repeat split. Qed.

(** ** C8: listing by pages *)

#[local] Instance newer_eq_trans : Transitive newer_eq.
Proof. intros x y z. unfold newer_eq. lia. Qed.

#[local] Instance newer_eq_total : Total newer_eq.
Proof. intros x y. unfold newer_eq. lia. Qed.

Section Listing.

Variable d : Db.

Abbreviation timeline := (timeline d).

Lemma timeline_sorted : StronglySorted newer_eq timeline.
Proof. apply StronglySorted_merge_sort; apply _. Qed.

Lemma timeline_elem (x : MessageDoc) :
  x ∈ timeline ↔ messages d !! x.1 = Some x.2 ∧ Message.isDeleted x.2 = false.
Proof.
  unfold timeline. rewrite newest_first_elem, list_elem_of_filter.
  destruct x as [k m]. unfold not_deleted. simpl. split.
  - intros [Hnd Hin]. apply elem_of_map_to_list in Hin.
    split; [done|]. by destruct (Message.isDeleted m).
  - intros [Hs Hd]. rewrite Hd. split; [done|]. by apply elem_of_map_to_list.
Qed.

Lemma timeline_keys_NoDup : NoDup timeline.*1.
Proof.
  unfold timeline, newest_first. rewrite merge_sort_Permutation.
  apply (sublist_NoDup _ (map_to_list (messages d)).*1).
  - apply NoDup_fst_map_to_list.
  - apply fmap_sublist, sublist_filter.
Qed.

Lemma timeline_length :
  length timeline
  = length (filter (λ x, not_deleted x = true) (map_to_list (messages d))).
Proof. unfold timeline, newest_first. by rewrite merge_sort_Permutation. Qed.

(** A page of [getMessages] for a positive page number and limit. *)
Lemma getMessages_page (page limit : nat) :
  getMessages (Z.of_nat (S page)) (Z.of_nat (S limit)) d
  = Some (take (S limit) (drop (page * S limit) timeline)).
Proof.
  unfold getMessages, cursor_limit.
  replace ((Z.of_nat (S page) - 1) * Z.of_nat (S limit))%Z
    with (Z.of_nat (page * S limit)) by lia.
  rewrite (proj2 (Z.ltb_ge _ _)) by lia.
  rewrite (proj2 (Z.eqb_neq _ _)) by lia.
  rewrite Nat2Z.id. replace (Z.to_nat (Z.abs (Z.of_nat (S limit)))) with (S limit) by lia.
  done.
Qed.

(** The first [n] pages of size [limit], each reversed as the route
    returns it and stitched last page first, are the [n * limit] newest
    messages, oldest first. *)
Lemma older_pages_prefix (limit n : nat) :
  (reverse (take limit (drop (n * limit) timeline))
   ++ reverse (take (n * limit) timeline))%list
  = reverse (take (S n * limit) timeline).
Proof.
  rewrite <- reverse_app, take_take_drop. f_equal. f_equal. lia.
Qed.

Lemma prefix_keys_NoDup (n : nat) : NoDup (reverse (take n timeline)).*1.
Proof.
  rewrite fmap_reverse, reverse_Permutation, fmap_take.
  eapply sublist_NoDup; [apply timeline_keys_NoDup | apply sublist_take].
Qed.

Lemma prefix_oldest_first (n : nat) :
  StronglySorted (flip newer_eq) (reverse (take n timeline)).
Proof.
  apply Sorted_StronglySorted; [apply _|]. apply Sorted_reverse.
  apply StronglySorted_Sorted.
  pose proof timeline_sorted as H. rewrite <- (take_drop n timeline) in H.
  by apply StronglySorted_app_1_l in H.
Qed.

(** No stored, not deleted message outside the prefix is newer than a
    message of the prefix. *)
Lemma prefix_newest (n : nat) (x y : MessageDoc) :
  x ∈ timeline → x ∉ take n timeline → y ∈ take n timeline → newer_eq y x.
Proof.
  intros Hx Hout Hy. pose proof timeline_sorted as H.
  rewrite <- (take_drop n timeline) in H, Hx.
  apply elem_of_app in Hx as [Hx|Hx]; [done|].
  by apply (StronglySorted_app_1_elem_of _ _ _ _ _ H).
Qed.

End Listing.

Lemma StronglySorted_weaken {A} (R S : relation A) (l : list A) :
  (∀ x y, R x y → S x y) → StronglySorted R l → StronglySorted S l.
Proof.
  intros HRS. induction 1 as [|x l Hl IH Hx]; constructor; [done|].
  eapply Forall_impl; [exact Hx|]. auto.
Qed.

(** C8.  Over a fixed store holding 120 messages that are not deleted,
    the listing route answers page 1 and page 2 of limit 50 with 50
    messages each.  Each page is the newest-first page of the model
    reversed; page 2 followed by page 1 is the list of the 100 newest
    messages in oldest-first order: its keys are pairwise distinct (no
    duplicate), every entry is a stored message that is not deleted, it
    is ordered by creation timestamp, and no stored, not deleted message
    outside it is newer than one of its entries (no gap). *)
Theorem C8_two_pages_partition_newest :
  ∀ (regex_test : string → string → bool) (d : Db),
    length (filter (λ x, not_deleted x = true) (map_to_list (messages d)))
    = 120%nat →
    ∃ p1 p2 : list MessageDoc,
      Rest.get_messages regex_test (Some 1%Z) (Some 50%Z) None d
      = Rest.mkResponse 200 (Rest.Listing p1 1 50 true)
      ∧ Rest.get_messages regex_test (Some 2%Z) (Some 50%Z) None d
        = Rest.mkResponse 200 (Rest.Listing p2 2 50 true)
      ∧ getMessages 1 50 d = Some (reverse p1)
      ∧ getMessages 2 50 d = Some (reverse p2)
      ∧ length p1 = 50%nat ∧ length p2 = 50%nat
      ∧ (p2 ++ p1)%list = reverse (take 100 (timeline d))
      ∧ NoDup ((p2 ++ p1)%list).*1
      ∧ (∀ x, x ∈ (p2 ++ p1)%list →
              messages d !! x.1 = Some x.2 ∧ Message.isDeleted x.2 = false)
      ∧ StronglySorted
          (λ x y, (Message.createdAt x.2 ≤ Message.createdAt y.2)%Z)
          (p2 ++ p1)%list
      ∧ (∀ x y, messages d !! x.1 = Some x.2 → Message.isDeleted x.2 = false →
                x ∉ (p2 ++ p1)%list → y ∈ (p2 ++ p1)%list →
                (Message.createdAt x.2 ≤ Message.createdAt y.2)%Z).
Proof.
  intros regex d Hlen. rewrite <- timeline_length in Hlen.
  pose proof (getMessages_page d 0 49) as H1.
  pose proof (getMessages_page d 1 49) as H2.
  change (Z.of_nat 1) with 1%Z in H1. change (Z.of_nat 2) with 2%Z in H2.
  change (Z.of_nat 50) with 50%Z in H1, H2.
  change (0 * 50)%nat with 0%nat in H1. change (1 * 50)%nat with 50%nat in H2.
  rewrite drop_0 in H1.
  assert (length (take 50 (timeline d)) = 50%nat) as L1.
  { rewrite length_take. lia. }
  assert (length (take 50 (drop 50 (timeline d))) = 50%nat) as L2.
  { rewrite length_take, length_drop. lia. }
  pose proof (older_pages_prefix d 50 1) as Hstitch.
  change (1 * 50)%nat with 50%nat in Hstitch.
  change (2 * 50)%nat with 100%nat in Hstitch.
  exists (reverse (take 50 (timeline d))),
         (reverse (take 50 (drop 50 (timeline d)))).
  rewrite !reverse_involutive, !length_reverse, Hstitch.
  split; [|split; [|split; [|split; [|split; [|split; [|split]]]]]];
    try done.
  - unfold Rest.get_messages. cbn [JS.truthy Rest.int_or Z.eqb].
    rewrite H1. rewrite L1. by rewrite bool_decide_eq_true_2.
  - unfold Rest.get_messages. cbn [JS.truthy Rest.int_or Z.eqb].
    rewrite H2. rewrite L2. by rewrite bool_decide_eq_true_2.
  - split; [apply prefix_keys_NoDup|]. split; [|split].
    + intros x. rewrite elem_of_reverse. intros Hx. apply timeline_elem.
      by apply (subseteq_take 100 (timeline d) x).
    + eapply StronglySorted_weaken; [|apply prefix_oldest_first].
      intros x y. unfold flip, newer_eq. lia.
    + intros x y Hs Hd Hout Hin.
      rewrite elem_of_reverse in Hout, Hin.
      pose proof (prefix_newest d 100 x y) as Hn. unfold newer_eq in Hn.
      apply Z.ge_le, Hn; [|done..]. by apply timeline_elem.
Qed.

Lemma C8_witness :
  ∃ p1 p2 : list MessageDoc,
    Rest.get_messages (λ _ _, true) (Some 1%Z) (Some 50%Z) None Fixture.db120
    = Rest.mkResponse 200 (Rest.Listing p1 1 50 true)
    ∧ Rest.get_messages (λ _ _, true) (Some 2%Z) (Some 50%Z) None Fixture.db120
      = Rest.mkResponse 200 (Rest.Listing p2 2 50 true)
    ∧ length p1 = 50%nat ∧ length p2 = 50%nat
    ∧ NoDup ((p2 ++ p1)%list).*1.
Proof.
  destruct (C8_two_pages_partition_newest (λ _ _, true) Fixture.db120)
    as (p1 & p2 & Hp1 & Hp2 & _ & _ & Hl1 & Hl2 & _ & Hnd & _).
  - vm_compute. reflexivity.
  - exists p1, p2. repeat split; assumption.
Defined.

(** ** C9: the derived mention list *)

(** A mention token is stored only through a cast to ObjectId: what
    [create] stores as mentions is either the cast of every token or,
    when a token is not an identifier, nothing. *)
Lemma pre_save_mentions (hook : bool) (m m' : Message.t) :
  pre_save hook true m = Some m' →
  mapM ObjectId.cast (Message.extract_mentions (Message.content m))
  = Some (Message.mentions m')
  ∨ (mapM ObjectId.cast (Message.extract_mentions (Message.content m)) = None
     ∧ hook = false ∧ m' = m).
Proof.
  unfold pre_save.
  destruct (mapM ObjectId.cast _) as [ids|]; [intros [= <-]; by left|].
  destruct hook; [done|]. intros [= <-]. by right.
Qed.

(** C9 (the code departs from the claim).  The pre-save hook extracts
    the token "bob" from the content "hi @bob" and assigns it to
    [mentions], an array of ObjectId; "bob" is not an identifier, so the
    assignment fails to cast.  If the document mapper drops the failed
    assignment, the Send is answered 201 and the stored message has an
    empty mention list; if it rejects the save, the Send is answered
    500 and nothing is stored.  In neither case is the mention stored
    with the message. *)
Theorem C9_mention_token_not_stored :
  let req := mkSend (Some "hi @bob") None None None in
  let kept := Rest.post_messages false Fixture.alice req Fixture.m1 100 Fixture.db0 in
  let lost := Rest.post_messages true Fixture.alice req Fixture.m1 100 Fixture.db0 in
  Message.extract_mentions "hi @bob" = ["bob"]
  ∧ mapM ObjectId.cast ["bob"] = None
  ∧ Rest.status kept.2 = 201%nat
  ∧ Message.content <$> messages kept.1 !! Fixture.m1 = Some "hi @bob"
  ∧ Message.mentions <$> messages kept.1 !! Fixture.m1 = Some []
  ∧ lost = (Fixture.db0, Rest.fail 500 "Server error" "Failed to send message")
  ∧ (Live.send_message true Fixture.alice "sock-a" req Fixture.m1 100 Fixture.s0)
    = (Fixture.s0, [(Live.ToSocket "sock-a", Live.ev_error "Failed to send message")]).
Proof. repeat split. Qed.

(** A Send without any mention stores an empty mention list; a Send
    whose only mention is a 24-digit hexadecimal token stores it. *)
Example send_without_mention :
  Message.mentions
  <$> messages (Rest.post_messages true Fixture.alice
                  (mkSend (Some "hello") None None None) Fixture.m1 100
                  Fixture.db0).1 !! Fixture.m1
  = Some [].
Proof. reflexivity. Qed.

Example send_with_hex_mention :
  Message.mentions
  <$> messages (Rest.post_messages true Fixture.alice
                  (mkSend (Some "hi @BBBBBBBBBBBBBBBBBBBBBBBB") None None None)
                  Fixture.m1 100 Fixture.db0).1 !! Fixture.m1
  = Some [Fixture.bob_id].
Proof. reflexivity. Qed.

(** ** A run of the live channel *)

(** Alice sends "hello" and edits it to "hello world"; Bob, neither
    owner nor admin, fails to delete it; Alice deletes it. *)
Example owner_lifecycle :
  let sender := mkSender Fixture.alice_id "Alice" None in
  let '(s1, out1) :=
    Live.send_message false Fixture.alice "sock-a"
      (mkSend (Some "hello") None None None) Fixture.m1 100 Fixture.s0 in
  let '(s2, out2) :=
    Live.edit_message false Fixture.alice "sock-a" Fixture.m1
      (Some "hello world") 200 s1 in
  let '(s3, out3) := Live.delete_message Fixture.bob "sock-b" Fixture.m1 300 s2 in
  let '(s4, out4) := Live.delete_message Fixture.alice "sock-a" Fixture.m1 400 s3 in
  out1 = [ (Live.ToRoom "general",
            Live.ev_new_message
              (mkPayload Fixture.m1 "hello" "text" [] sender None 100));
           (Live.ToSocket "sock-a", Live.ev_message_sent Fixture.m1) ]
  ∧ out2 = [ (Live.ToRoom "general",
              Live.ev_message_edited
                (mkEdited Fixture.m1 "hello world" true (Some 200%Z) sender 100)) ]
  ∧ out3 = [ (Live.ToSocket "sock-b",
              Live.ev_error "You can only delete your own messages") ]
  ∧ s3 = s2
  ∧ Message.isDeleted <$> messages (Live.db s3) !! Fixture.m1 = Some false
  ∧ out4 = [ (Live.ToRoom "general", Live.ev_message_deleted Fixture.m1) ]
  ∧ Message.isDeleted <$> messages (Live.db s4) !! Fixture.m1 = Some true.
Proof. vm_compute. repeat split. Qed.

(** A connection attempt without a token, and one of a deactivated
    user, are refused without a trace; the attempt of an active user
    binds her and joins the rooms. *)
Example gate_outcomes :
  let jwt := λ _ : string, Some (Auth.mkJwt (Some Fixture.alice_id)) in
  let asleep :=
    Live.mkServer
      (mkDb (<[Fixture.alice_id := User.mkFields "Alice" None false User.RoleUser]> ∅) ∅)
      ∅ ∅ ∅ in
  Live.connect jwt (Live.mkHandshake None None) "sock-a" 1 Fixture.s0
  = (Fixture.s0, Live.Refused "Authentication token required", [])
  ∧ Live.connect jwt (Live.mkHandshake None (Some "Bearer aa.bb.cc")) "sock-a" 1 asleep
    = (asleep, Live.Refused "User not found or inactive", [])
  ∧ Live.connect (λ _, None) (Live.mkHandshake (Some "aa.bb.cc") None) "sock-a" 1
      Fixture.s0
    = (Fixture.s0, Live.Refused "Invalid token", [])
  ∧ (Live.connect jwt (Live.mkHandshake (Some "aa.bb.cc") None) "sock-a" 1
       Fixture.s0).1.2
    = Live.Accepted Fixture.alice
  ∧ Live.connectedUsers
      (Live.connect jwt (Live.mkHandshake (Some "aa.bb.cc") None) "sock-a" 1
         Fixture.s0).1.1 !! Fixture.alice_id
    = Some "sock-a".
Proof. vm_compute. repeat split. Qed.

(** Content of 1001 characters is refused by the length check. *)
Example long_content_rejected :
  let long := string_of_list_ascii (replicate 1001 "a"%char) in
  Rest.post_messages false Fixture.alice (mkSend (Some long) None None None)
    Fixture.m1 100 Fixture.db0
  = (Fixture.db0,
     Rest.fail 400 "Validation error"
       "Message content cannot exceed 1000 characters").
Proof. vm_compute. reflexivity. Qed.

(** * Further properties of the code *)

(** ** The effect of the methods of a message on the store *)

Lemma create_effect (hook : bool) (id : string) (now : Z) (data : MessageData)
    (d d' : Db) (doc : MessageDoc) :
  create hook id now data d = Some (d', doc) →
  doc.1 = id
  ∧ d' = set_messages (<[id := doc.2]> (messages d)) d
  ∧ messages d !! id = None
  ∧ mutation now None doc.2.
Proof.
  unfold create.
  destruct (d_replyTo data) as [r|]; [destruct (ObjectId.cast r)|];
    cbn [fmap option_fmap option_map mbind option_bind]; [|done|].
  all: destruct (Message.valid_content (JS.trim (d_content data))) eqn:Hc;
    [|done].
  all: destruct (Message.in_enum Message.messageType_enum (d_messageType data))
    eqn:Hk; [|done].
  all: destruct (forallb Message.valid_attachment (d_attachments data)) eqn:Ha;
    [|done].
  all: cbn [andb].
  all: set (m0 := Message.mk _ _ _ _ _ _ _ _ _ _ _ _).
  all: assert (∀ ms, mutation now None (Message.with_mentions ms m0)) as Hmut
    by (intros ms; apply mut_create; [done|apply trim_idem|done|done]).
  all: unfold pre_save.
  all: destruct (mapM ObjectId.cast (Message.extract_mentions (Message.content m0)))
    as [ids|]; [|destruct hook; [done|]]; cbn [mbind option_bind];
    (destruct (messages d !! id) eqn:Hid; [done|]);
    intros [= <- <-]; repeat split; first [done | apply Hmut | apply (Hmut [])].
Qed.

(** What a document that passes the validation satisfies. *)
Lemma valid_document_inv (m : Message.t) :
  Message.valid_document m = true →
  Message.valid_content (Message.content m) = true
  ∧ Message.in_enum Message.messageType_enum (Message.messageType m) = true
  ∧ forallb Message.valid_attachment (Message.attachments m) = true
  ∧ Message.valid_reactions (Message.reactions m) = true.
Proof.
  unfold Message.valid_document.
  intros [[[H1 H2]%andb_true_iff H3]%andb_true_iff H4]%andb_true_iff. done.
Qed.

Lemma editMessage_effect (hook : bool) (newContent : string) (now : Z)
    (k : string) (m : Message.t) (d d' : Db) (doc' : MessageDoc) :
  editMessage hook newContent now (k, m) d = Some (d', doc') →
  doc'.1 = k
  ∧ d' = set_messages (<[k := doc'.2]> (messages d)) d
  ∧ mutation now (Some m) doc'.2
  ∧ Message.content doc'.2 = JS.trim newContent.
Proof.
  unfold editMessage. cbn [fst snd].
  set (c := JS.trim newContent).
  destruct (Message.valid_document (Message.with_content c true (Some now) m))
    eqn:Hv; [|done].
  apply valid_document_inv in Hv as (Hv & _).
  assert (∀ ms, mutation now (Some m)
                  (Message.with_mentions ms
                     (Message.with_content c true (Some now) m))) as Hmut.
  { intros ms. apply mut_edit; [by right | apply trim_idem]. }
  destruct (String.eqb c (Message.content m)) eqn:Heq; cbn [negb].
  - unfold pre_save. cbn [mbind option_bind].
    intros [= <- <-]. repeat split. apply (Hmut (Message.mentions m)).
  - unfold pre_save.
    destruct (mapM ObjectId.cast _) as [ids|].
    + cbn [mbind option_bind]. intros [= <- <-]. repeat split. apply Hmut.
    + destruct hook; [done|]. cbn [mbind option_bind].
      intros [= <- <-]. repeat split. apply (Hmut (Message.mentions m)).
Qed.

Lemma softDelete_effect (now : Z) (k : string) (m : Message.t) (d d' : Db)
    (doc' : MessageDoc) :
  softDelete now (k, m) d = Some (d', doc') →
  doc' = (k, Message.with_deleted true (Some now) m)
  ∧ d' = set_messages (<[k := doc'.2]> (messages d)) d
  ∧ mutation now (Some m) doc'.2.
Proof.
  unfold softDelete. cbn [fst snd].
  destruct (Message.valid_document _); [|done].
  intros [= <- <-]. repeat split. apply mut_delete.
Qed.

Lemma addReaction_effect (uid e : string) (now : Z) (k : string)
    (m : Message.t) (d d' : Db) (doc' : MessageDoc) :
  addReaction uid e now (k, m) d = Some (d', doc') →
  doc' = (k, Message.with_reactions (replaced uid e now (Message.reactions m)) m)
  ∧ d' = set_messages (<[k := doc'.2]> (messages d)) d
  ∧ mutation now (Some m) doc'.2.
Proof.
  unfold addReaction. cbn [fst snd].
  fold (replaced uid e now (Message.reactions m)).
  destruct (Message.valid_document _) eqn:Hv; [|done].
  apply valid_document_reactions in Hv.
  intros [= <- <-]. repeat split. by apply mut_react.
Qed.

Lemma removeReaction_effect (uid : string) (now : Z) (k : string)
    (m : Message.t) (d d' : Db) (doc' : MessageDoc) :
  removeReaction uid (k, m) d = Some (d', doc') →
  doc' = (k, Message.with_reactions
               (filter (λ r, Reaction.user r ≠ uid) (Message.reactions m)) m)
  ∧ d' = set_messages (<[k := doc'.2]> (messages d)) d
  ∧ mutation now (Some m) doc'.2.
Proof.
  unfold removeReaction. cbn [fst snd].
  destruct (Message.valid_document _) eqn:Hv; [|done].
  apply valid_document_reactions in Hv.
  intros [= <- <-]. repeat split. by apply mut_unreact.
Qed.

(** ** The REST mirror and the live channel *)

Lemma set_db_same (s : Live.Server) : Live.set_db (Live.db s) s = s.
Proof. by destruct s. Qed.

Ltac mirror_leaf :=
  cbn [fst snd Rest.status Rest.fail];
  rewrite ?set_db_same;
  split; [reflexivity|];
  split;
    [ intros H; first [ by eexists | exfalso; clear -H; lia ]
    | intros [msg H]; first [ lia | discriminate H ] ].

(** On each of the five operations that have a REST route (send,
    edit, delete, add reaction, remove reaction), the live handler and
    the route, given the same user, request, clock and fresh key, leave
    the same store; the live handler leaves the registry and the rooms
    alone; and the route answers with an error status exactly when the
    live handler emits a single [error] event to the requesting socket
    and nothing else. *)
Lemma mirror_store_and_status :
  ∀ (hook : bool) (u : User.t) (socketId : string) (now : Z)
    (r : Dispatch.Request) (s : Live.Server) (d' : Db) (resp : Rest.Response),
    Dispatch.rest hook u now r (Live.db s) = Some (d', resp) →
    (Dispatch.live hook u socketId now r s).1 = Live.set_db d' s
    ∧ ((400 ≤ Rest.status resp)%nat
       ↔ ∃ msg, (Dispatch.live hook u socketId now r s).2
                = [(Live.ToSocket socketId, Live.ev_error msg)]).
Proof.
  intros hook u sid now r s d' resp.
  destruct r as [req id|mid c|mid|mid e|mid| | | |];
    cbn [Dispatch.rest Dispatch.live]; try discriminate.
  - unfold Rest.post_messages, Live.send_message, Live.emit_error.
    destruct (check_content (content req)); [intros [= <- <-]; mirror_leaf..|].
    destruct (create _ _ _ _ _) as [[db1 doc]|]; [|intros [= <- <-]; mirror_leaf].
    destruct (populate_user _ _); [cbv zeta; destruct (serialises _)|];
      intros [= <- <-]; mirror_leaf.
  - unfold Rest.put_message, Live.edit_message, Live.emit_error.
    destruct (check_content c); [intros [= <- <-]; mirror_leaf..|].
    destruct (Message_findById _ _) as [[doc|]|]; [|intros [= <- <-]; mirror_leaf..].
    destruct (forbidden _ _); [intros [= <- <-]; mirror_leaf|].
    destruct (editMessage _ _ _ _ _) as [[db1 doc']|];
      [|intros [= <- <-]; mirror_leaf].
    destruct (populate_user _ _); intros [= <- <-]; mirror_leaf.
  - unfold Rest.delete_message, Live.delete_message, Live.emit_error.
    destruct (Message_findById _ _) as [[doc|]|]; [|intros [= <- <-]; mirror_leaf..].
    destruct (forbidden _ _); [intros [= <- <-]; mirror_leaf|].
    destruct (softDelete _ _ _) as [[db1 doc']|]; intros [= <- <-]; mirror_leaf.
  - unfold Rest.post_reaction, Live.add_reaction, Live.emit_error.
    destruct (if JS.truthy e then e else None); [|intros [= <- <-]; mirror_leaf].
    destruct (Message_findById _ _) as [[doc|]|]; [|intros [= <- <-]; mirror_leaf..].
    destruct (addReaction _ _ _ _ _) as [[db1 doc']|];
      intros [= <- <-]; mirror_leaf.
  - unfold Rest.delete_reaction, Live.remove_reaction, Live.emit_error.
    destruct (Message_findById _ _) as [[doc|]|]; [|intros [= <- <-]; mirror_leaf..].
    destruct (removeReaction _ _ _) as [[db1 doc']|];
      intros [= <- <-]; mirror_leaf.
Qed.

(** ** What the operations change in the store *)

Lemma changed_refl (now : Z) (d : Db) : changed now d d.
Proof. by left. Qed.

Lemma changed_write (now : Z) (d : Db) (k : string) (m m' : Message.t) :
  messages d !! k = Some m → mutation now (Some m) m' →
  changed now d (set_messages (<[k := m']> (messages d)) d).
Proof. intros Hk Hm. right. exists k, m'. by rewrite Hk. Qed.

Lemma rest_changed (hook : bool) (u : User.t) (now : Z) (r : Dispatch.Request)
    (d d' : Db) (resp : Rest.Response) :
  Dispatch.rest hook u now r d = Some (d', resp) → changed now d d'.
Proof.
  destruct r as [req id|mid c|mid|mid e|mid| | | |];
    cbn [Dispatch.rest]; try discriminate.
  - unfold Rest.post_messages.
    destruct (check_content (content req));
      [intros [= <- <-]; apply changed_refl..|].
    destruct (create _ _ _ _ _) as [[db1 doc]|] eqn:E;
      [|intros [= <- <-]; apply changed_refl].
    apply create_effect in E as (_ & -> & Hfresh & Hmut).
    assert (changed now d (set_messages (<[id := doc.2]> (messages d)) d)).
    { right. exists id, doc.2. by rewrite Hfresh. }
    by destruct (populate_user _ _); [cbv zeta; destruct (serialises _)|];
      intros [= <- <-].
  - unfold Rest.put_message.
    destruct (check_content c); [intros [= <- <-]; apply changed_refl..|].
    destruct (Message_findById _ _) as [[[k m]|]|] eqn:F;
      [|intros [= <- <-]; apply changed_refl..].
    apply findById_inv in F as [_ Hk]. cbn [fst snd] in Hk.
    destruct (forbidden _ _); [intros [= <- <-]; apply changed_refl|].
    destruct (editMessage _ _ _ _ _) as [[db1 doc']|] eqn:E;
      [|intros [= <- <-]; apply changed_refl].
    apply editMessage_effect in E as (_ & -> & Hmut & _).
    pose proof (changed_write now d k m doc'.2 Hk Hmut).
    by destruct (populate_user _ _); intros [= <- <-].
  - unfold Rest.delete_message.
    destruct (Message_findById _ _) as [[[k m]|]|] eqn:F;
      [|intros [= <- <-]; apply changed_refl..].
    apply findById_inv in F as [_ Hk]. cbn [fst snd] in Hk.
    destruct (forbidden _ _); [intros [= <- <-]; apply changed_refl|].
    destruct (softDelete _ _ _) as [[db1 doc']|] eqn:E;
      [|intros [= <- <-]; apply changed_refl].
    apply softDelete_effect in E as (_ & -> & Hmut).
    intros [= <- <-]. by apply (changed_write now d k m).
  - unfold Rest.post_reaction.
    destruct (if JS.truthy e then e else None);
      [|intros [= <- <-]; apply changed_refl].
    destruct (Message_findById _ _) as [[[k m]|]|] eqn:F;
      [|intros [= <- <-]; apply changed_refl..].
    apply findById_inv in F as [_ Hk]. cbn [fst snd] in Hk.
    destruct (addReaction _ _ _ _ _) as [[db1 doc']|] eqn:E;
      [|intros [= <- <-]; apply changed_refl].
    apply addReaction_effect in E as (_ & -> & Hmut).
    intros [= <- <-]. by apply (changed_write now d k m).
  - unfold Rest.delete_reaction.
    destruct (Message_findById _ _) as [[[k m]|]|] eqn:F;
      [|intros [= <- <-]; apply changed_refl..].
    apply findById_inv in F as [_ Hk]. cbn [fst snd] in Hk.
    destruct (removeReaction _ _ _) as [[db1 doc']|] eqn:E;
      [|intros [= <- <-]; apply changed_refl].
    apply (removeReaction_effect _ now) in E as (_ & -> & Hmut).
    intros [= <- <-]. by apply (changed_write now d k m).
Qed.

(** A request on the live channel changes the store by at most one
    [mutation] and nothing else of the server state. *)
Lemma live_changed (hook : bool) (u : User.t) (socketId : string) (now : Z)
    (r : Dispatch.Request) (s : Live.Server) :
  ∃ d', (Dispatch.live hook u socketId now r s).1 = Live.set_db d' s
        ∧ changed now (Live.db s) d'.
Proof.
  destruct (Dispatch.rest hook u now r (Live.db s)) as [[d' resp]|] eqn:E.
  - exists d'. split.
    + by apply (mirror_store_and_status hook u socketId now r s d' resp).
    + by apply rest_changed in E.
  - exists (Live.db s). split; [|apply changed_refl]. rewrite set_db_same.
    destruct r as [| | | | |rcpt body id| | |]; try discriminate;
      try reflexivity.
    cbn [Dispatch.live]. unfold Live.private_message, Live.emit_error.
    destruct (if JS.truthy body then body else None) as [c|]; [|done].
    destruct (JS.is_empty (JS.trim c)); [done|].
    by rewrite create_private_fails.
Qed.

(** ** Invariants of the store *)

Lemma mutation_keeps (now : Z) (m m' : Message.t) :
  mutation now (Some m) m' →
  Message.user m' = Message.user m
  ∧ Message.createdAt m' = Message.createdAt m
  ∧ Message.messageType m' = Message.messageType m
  ∧ Message.attachments m' = Message.attachments m
  ∧ Message.replyTo m' = Message.replyTo m.
Proof. by inversion 1. Qed.

Lemma users_of_filter_NoDup (uid : string) (rs : list Reaction.t) :
  NoDup (Reaction.user <$> rs) →
  NoDup (Reaction.user <$> filter (λ r, Reaction.user r ≠ uid) rs)
  ∧ uid ∉ Reaction.user <$> filter (λ r, Reaction.user r ≠ uid) rs.
Proof.
  intros Hnd. split.
  - eapply sublist_NoDup; [exact Hnd|]. apply fmap_sublist, sublist_filter.
  - intros [r [Hu Hin]]%list_elem_of_fmap.
    apply list_elem_of_filter in Hin as [Hne _]. by apply Hne.
Qed.

Lemma mutation_well_formed (now : Z) (o : option Message.t) (m' : Message.t) :
  mutation now o m' → (∀ m, o = Some m → well_formed m) → well_formed m'.
Proof.
  destruct 1 as [uid c kind atts reply ms Hc Ht Hk Ha
                |m c ms Hc Ht|m|m uid e Hv|m uid Hv]; intros Hwf.
  - constructor; cbn; try done;
      try (split; [done|by intros [? ?]]); apply NoDup_nil_2.
  - destruct (Hwf m eq_refl) as [W1 W2 W3 W4 W5 W6 W7 W8]. constructor; cbn; try done;
      try (split; [by eexists|done]); try by destruct Hc as [-> | Hc].
  - destruct (Hwf m eq_refl) as [W1 W2 W3 W4 W5 W6 W7 W8]. constructor; cbn; try done;
      try (split; [by eexists|done]).
  - destruct (Hwf m eq_refl) as [W1 W2 W3 W4 W5 W6 W7 W8]. constructor; cbn; try done.
    unfold replaced. rewrite fmap_app. cbn.
    destruct (users_of_filter_NoDup uid _ W6) as [Hnd Hout].
    apply NoDup_app. split; [done|]. split; [|apply NoDup_singleton].
    intros x Hx ->%list_elem_of_singleton. by apply Hout.
  - destruct (Hwf m eq_refl) as [W1 W2 W3 W4 W5 W6 W7 W8]. constructor; cbn; try done.
    by apply users_of_filter_NoDup.
Qed.

Lemma changed_keeps (now : Z) (d d' : Db) (k : string) (m : Message.t) :
  changed now d d' → messages d !! k = Some m →
  users d' = users d
  ∧ ∃ m', messages d' !! k = Some m'
          ∧ Message.user m' = Message.user m
          ∧ Message.createdAt m' = Message.createdAt m
          ∧ Message.messageType m' = Message.messageType m
          ∧ Message.attachments m' = Message.attachments m
          ∧ Message.replyTo m' = Message.replyTo m.
Proof.
  intros [-> | (k' & m' & -> & Hmut)] Hk; [by eauto 10|].
  split; [done|]. cbn. destruct (decide (k' = k)) as [->|Hne].
  - rewrite Hk in Hmut. exists m'. rewrite lookup_insert_eq.
    split; [done|]. by apply (mutation_keeps now).
  - exists m. by rewrite lookup_insert_ne.
Qed.

Lemma changed_store_ok (now : Z) (d d' : Db) :
  changed now d d' → store_ok d → store_ok d'.
Proof.
  intros [-> | (k' & m' & -> & Hmut)] Hok; [done|].
  intros k m. cbn. destruct (decide (k' = k)) as [->|Hne].
  - rewrite lookup_insert_eq. intros [= <-].
    apply (mutation_well_formed now _ _ Hmut).
    intros m0 Hm0. by apply (Hok k).
  - rewrite lookup_insert_ne by done. apply Hok.
Qed.

(** An action changes the store by at most one [mutation]. *)
Lemma act_changed (hook : bool) (now : Z) (a : Dispatch.Action)
    (s : Live.Server) :
  changed now (Live.db s) (Live.db (Dispatch.act hook now a s)).
Proof.
  destruct a as [u c|u c|u c r|u r]; cbn [Dispatch.act];
    try apply changed_refl.
  - destruct (live_changed hook u c now r s) as (d' & -> & H). by destruct s.
  - destruct (Dispatch.rest hook u now r (Live.db s)) as [[d' resp]|] eqn:E;
      [|apply changed_refl].
    apply rest_changed in E. by destruct s.
Qed.

Lemma run_cons (hook : bool) (x : Z * Dispatch.Action)
    (l : list (Z * Dispatch.Action)) (s : Live.Server) :
  Dispatch.run hook (x :: l) s = Dispatch.run hook l (Dispatch.act hook x.1 x.2 s).
Proof. reflexivity. Qed.

Lemma run_keeps (hook : bool) (l : list (Z * Dispatch.Action)) (s : Live.Server)
    (k : string) (m : Message.t) :
  messages (Live.db s) !! k = Some m →
  users (Live.db (Dispatch.run hook l s)) = users (Live.db s)
  ∧ ∃ m', messages (Live.db (Dispatch.run hook l s)) !! k = Some m'
          ∧ Message.user m' = Message.user m
          ∧ Message.createdAt m' = Message.createdAt m
          ∧ Message.messageType m' = Message.messageType m
          ∧ Message.attachments m' = Message.attachments m
          ∧ Message.replyTo m' = Message.replyTo m.
Proof.
  revert s m. induction l as [|[now a] l IH]; intros s m Hk; [by eauto 10|].
  rewrite run_cons. cbn [fst snd].
  destruct (changed_keeps now _ _ k m (act_changed hook now a s) Hk)
    as (Hu & m1 & Hk1 & E1 & E2 & E3 & E4 & E5).
  destruct (IH _ _ Hk1) as (Hu' & m2 & Hk2 & F1 & F2 & F3 & F4 & F5).
  split; [congruence|]. exists m2. split; [done|].
  repeat split; congruence.
Qed.

Lemma run_store_ok (hook : bool) (l : list (Z * Dispatch.Action))
    (s : Live.Server) :
  store_ok (Live.db s) → store_ok (Live.db (Dispatch.run hook l s)).
Proof.
  revert s. induction l as [|[now a] l IH]; intros s Hok; [done|].
  rewrite run_cons. apply IH. cbn [fst snd].
  by apply (changed_store_ok now _ _ (act_changed hook now a s)).
Qed.

(** ** The registry on a running server *)

Lemma general_is_not_personal (uid c c' : string) :
  ("general", c') ≠ ("user_" +:+ uid, c).
Proof. intros H. cbn in H. discriminate H. Qed.

Lemma registry_step (hook : bool) (now : Z) (a : Dispatch.Action)
    (s : Live.Server) :
  Dispatch.allowed a s →
  (∀ u c, Live.connectedUsers s !! u = Some c → Live.userSockets s !! c = Some u) →
  (∀ c, ("general", c) ∈ Live.rooms s ↔ is_Some (Live.userSockets s !! c)) →
  let s' := Dispatch.act hook now a s in
  (∀ u c, Live.connectedUsers s' !! u = Some c → Live.userSockets s' !! c = Some u)
  ∧ (∀ c, ("general", c) ∈ Live.rooms s' ↔ is_Some (Live.userSockets s' !! c)).
Proof.
  intros Hallowed I1 I2.
  destruct a as [u c|u c|u c r|u r]; cbn [Dispatch.act Dispatch.allowed] in *.
  - cbn. split.
    + intros u' c'. destruct (decide (User._id u = u')) as [<-|Hne].
      * rewrite lookup_insert_eq. intros [= <-]. apply lookup_insert_eq.
      * rewrite lookup_insert_ne by done. intros Hc'.
        apply I1 in Hc'. rewrite lookup_insert_ne; [done|].
        intros ->. congruence.
    + intros c'. rewrite !elem_of_union, !elem_of_singleton, I2.
      destruct (decide (c = c')) as [<-|Hne].
      * rewrite lookup_insert_eq. split; [by eexists | by left].
      * rewrite lookup_insert_ne by done. split; [|by auto].
        intros [[= ->] | [H | H]]; [done| |done].
        by apply general_is_not_personal in H.
  - cbn. split.
    + intros u' c'. destruct (decide (User._id u = u')) as [<-|Hne].
      * by rewrite lookup_delete_eq.
      * rewrite lookup_delete_ne by done. intros Hc'. apply I1 in Hc'.
        rewrite lookup_delete_ne; [done|]. intros ->. congruence.
    + intros c'. rewrite elem_of_filter, I2. cbn.
      destruct (decide (c = c')) as [<-|Hne].
      * rewrite lookup_delete_eq. split; [by intros [? _] | by intros [? ?]].
      * rewrite lookup_delete_ne by done. split; [by intros [_ ?] | by auto].
  - destruct (live_changed hook u c now r s) as (d' & -> & _). by cbn.
  - by destruct (Dispatch.rest hook u now r (Live.db s)) as [[d' resp]|].
Qed.

Lemma reachable_bound (hook : bool) (s : Live.Server) :
  Dispatch.reachable hook s →
  (∀ u c, Live.connectedUsers s !! u = Some c → Live.userSockets s !! c = Some u)
  ∧ (∀ c, ("general", c) ∈ Live.rooms s ↔ is_Some (Live.userSockets s !! c)).
Proof.
  induction 1 as [d|s a now Hs [I1 I2] Hallowed].
  - cbn. split; [by intros u c ?%lookup_empty_Some|].
    intros c. rewrite lookup_empty. split; [by intros ?%elem_of_empty|].
    by intros [? ?].
  - by apply registry_step.
Qed.

(** Closing a socket twice is closing it once. *)
Lemma disconnect_twice (u : User.t) (c : string) (t1 t2 : Z) (s : Live.Server) :
  (Live.disconnect u c t2 (Live.disconnect u c t1 s).1).1
  = (Live.disconnect u c t1 s).1.
Proof.
  unfold Live.disconnect. cbn. f_equal.
  - apply delete_id, lookup_delete_eq.
  - apply delete_id, lookup_delete_eq.
  - apply set_eq. intros p. rewrite !elem_of_filter. tauto.
Qed.

(** ** The REST middleware *)

Lemma findById_user_inv (d : Db) (uid : string) (u : User.t) :
  User_findById d uid = Some (Some u) →
  ∃ f, ObjectId.is_hex24 uid = true
       ∧ users d !! JS.to_lower uid = Some f
       ∧ u = User.load (JS.to_lower uid) f.
Proof.
  unfold User_findById, ObjectId.cast.
  destruct (ObjectId.is_hex24 uid); [|done]. cbn.
  destruct (users d !! JS.to_lower uid) as [f|]; [|done].
  intros [= <-]. by exists f.
Qed.

Lemma findById_user_hex (d : Db) (uid : string) :
  ObjectId.is_hex24 uid = true → User_findById d uid ≠ None.
Proof. unfold User_findById, ObjectId.cast. by intros ->. Qed.

(** What [authenticateToken] has checked when it calls [next()]. *)
Lemma authenticate_next (jv : string → Middleware.Verdict)
    (h : option string) (d : Db) (u : User.t) :
  Middleware.authenticateToken jv h d = Middleware.Next u →
  ∃ token decoded uid,
    Middleware.bearer h = Some token
    ∧ Auth.token_format token = true
    ∧ jv token = Middleware.Decoded decoded
    ∧ Auth.userId decoded = Some uid
    ∧ User_findById d uid = Some (Some u)
    ∧ User.isActive u = true.
Proof.
  unfold Middleware.authenticateToken.
  destruct (Middleware.bearer h) as [token|]; [|done].
  destruct (JS.truthy (Some token)); [|done].
  destruct (Auth.token_format token) eqn:Hf; [|done]. cbn [negb].
  destruct (jv token) as [decoded|name] eqn:Hjv.
  2: { by destruct (String.eqb name _); [|destruct (String.eqb name _)]. }
  destruct (Auth.userId decoded) as [uid|] eqn:Hu; [|done].
  destruct (JS.truthy (Some uid)); [|done].
  destruct (ObjectId.is_hex24 uid); [|done]. cbn [negb].
  destruct (User_findById d uid) as [[u'|]|] eqn:Hfind; [|done..].
  destruct (User.isActive u') eqn:Hact; [|done].
  intros [= <-]. by exists token, decoded, uid.
Qed.

(** The answers with which [authenticateToken] ends a request. *)
Lemma authenticate_stop (jv : string → Middleware.Verdict)
    (h : option string) (d : Db) (r : Rest.Response) :
  Middleware.authenticateToken jv h d = Middleware.Stop r →
  Rest.status r = 401%nat
  ∨ (Rest.status r = 500%nat
     ∧ ∃ token name, Middleware.bearer h = Some token
                     ∧ jv token = Middleware.Threw name
                     ∧ name ≠ "JsonWebTokenError"
                     ∧ name ≠ "TokenExpiredError").
Proof.
  unfold Middleware.authenticateToken.
  destruct (Middleware.bearer h) as [token|]; [|intros [= <-]; by left].
  destruct (JS.truthy (Some token)); [|intros [= <-]; by left].
  destruct (Auth.token_format token); [|intros [= <-]; by left]. cbn [negb].
  destruct (jv token) as [decoded|name] eqn:Hjv.
  - destruct (Auth.userId decoded) as [uid|]; [|intros [= <-]; by left].
    destruct (JS.truthy (Some uid)); [|intros [= <-]; by left].
    destruct (ObjectId.is_hex24 uid) eqn:Hhex; [|intros [= <-]; by left].
    cbn [negb].
    pose proof (findById_user_hex d uid Hhex) as Hne.
    destruct (User_findById d uid) as [[u'|]|]; [| |done].
    + destruct (User.isActive u'); [done|]. intros [= <-]. by left.
    + intros [= <-]. by left.
  - destruct (String.eqb name "JsonWebTokenError") eqn:E1;
      [intros [= <-]; by left|].
    destruct (String.eqb name "TokenExpiredError") eqn:E2;
      [intros [= <-]; by left|].
    intros [= <-]. right. split; [done|]. exists token, name.
    apply String.eqb_neq in E1, E2. done.
Qed.

Lemma authenticate_optional (jv : string → Middleware.Verdict)
    (h : option string) (d : Db) (u : User.t) :
  Middleware.authenticateToken jv h d = Middleware.Next u →
  Middleware.optionalAuth jv h d = Some u.
Proof.
  intros (token & decoded & uid & Hb & Hf & Hjv & Hu & Hfind & Hact)%authenticate_next.
  unfold Middleware.optionalAuth. rewrite Hb.
  assert (JS.truthy (Some token) = true) as ->.
  { destruct token; [discriminate Hf | done]. }
  by rewrite Hf, Hjv, Hu, Hfind, Hact.
Qed.

Lemma optional_sound (jv : string → Middleware.Verdict)
    (h : option string) (d : Db) (u : User.t) :
  Middleware.optionalAuth jv h d = Some u →
  ∃ f, users d !! User._id u = Some f ∧ User.f_isActive f = true
       ∧ u = User.load (User._id u) f.
Proof.
  unfold Middleware.optionalAuth.
  destruct (Middleware.bearer h) as [token|]; [|done].
  destruct (JS.truthy (Some token)); [|done].
  destruct (Auth.token_format token); [|done]. cbn [negb].
  destruct (jv token) as [decoded|name]; [|done].
  destruct (Auth.userId decoded) as [uid|]; [|done].
  destruct (User_findById d uid) as [[u'|]|] eqn:Hfind; [|done..].
  destruct (User.isActive u') eqn:Hact; [|done]. intros [= <-].
  apply findById_user_inv in Hfind as (f & _ & Hf & ->). by exists f.
Qed.

Lemma moderator_gate (u : User.t) :
  Middleware.requireModerator (Some u)
  = if bool_decide (User.role u = User.RoleUser)
    then Some (Rest.fail 403 "Access denied" "Moderator privileges required")
    else None.
Proof. unfold Middleware.requireModerator. by destruct (User.role u). Qed.

Lemma admin_gate_implies_moderator_gate (o : option User.t) :
  Middleware.requireAdmin o = None → Middleware.requireModerator o = None.
Proof.
  destruct o as [u|]; [|done].
  unfold Middleware.requireAdmin, Middleware.requireModerator.
  by destruct (User.role u).
Qed.

(** ** Deactivation *)

Lemma validate_deactivated (lc fl : string → Z) (ov : string → bool)
    (k : string) (f : User.fields) :
  UserDoc.validate lc fl ov k (deactivated f) = UserDoc.validate lc fl ov k f.
Proof. reflexivity. Qed.

Lemma deactivate_effect (lc fl : string → Z) (ov : string → bool)
    (jv : string → Middleware.Verdict) (h : option string) (d : Db) (u : User.t) :
  Middleware.authenticateToken jv h d = Middleware.Next u →
  ∃ f, users d !! User._id u = Some f
       ∧ User.f_isActive f = true
       ∧ post_deactivate lc fl ov jv h d
         = if UserDoc.validate lc fl ov (User._id u) f
           then (set_users (<[User._id u := deactivated f]> (users d)) d,
                 Rest.mkResponse 200
                   (Rest.Notice "Account deactivated successfully"))
           else (d, Rest.fail 500 "Server error" "Failed to deactivate account").
Proof.
  intros Hauth. unfold post_deactivate. rewrite Hauth.
  apply authenticate_next in Hauth
    as (token & decoded & uid & _ & _ & _ & _ & Hfind & Hact).
  apply findById_user_inv in Hfind as (f & _ & Hf & ->).
  cbn [User._id User.load User.isActive] in *.
  exists f. rewrite Hf, validate_deactivated. done.
Qed.

Lemma findById_deactivated (d : Db) (uid k : string) (f : User.fields) :
  ObjectId.is_hex24 uid = true → JS.to_lower uid = k →
  User_findById (set_users (<[k := deactivated f]> (users d)) d) uid
  = Some (Some (User.load k (deactivated f))).
Proof.
  intros Hhex <-. unfold User_findById, ObjectId.cast. rewrite Hhex. cbn.
  by rewrite lookup_insert_eq.
Qed.

Lemma verifyToken_inv (jwt : string → option Auth.JwtPayload)
    (token : string) (decoded : Auth.JwtPayload) :
  Auth.verifyToken jwt token = Some decoded →
  Auth.token_format token = true
  ∧ jwt token = Some decoded
  ∧ ∃ uid, Auth.userId decoded = Some uid ∧ ObjectId.is_hex24 uid = true.
Proof.
  unfold Auth.verifyToken. destruct (JS.is_empty token); [done|].
  destruct (Auth.token_format token); [|done]. cbn.
  destruct (jwt token) as [p|]; [|done].
  destruct (Auth.userId p) as [uid|] eqn:Hu; [|done].
  destruct (JS.is_empty uid); [done|].
  destruct (ObjectId.is_hex24 uid) eqn:Hhex; [|done]. cbn.
  intros [= <-]. repeat split. by exists uid.
Qed.

(** ** The connection gate *)

Lemma io_use_accepted (jwt : string → option Auth.JwtPayload)
    (h : Live.Handshake) (d : Db) (u : User.t) :
  Live.io_use jwt h d = Live.Accepted u →
  ∃ token decoded uid f,
    Live.handshake_token h = Some token
    ∧ Auth.verifyToken jwt token = Some decoded
    ∧ Auth.userId decoded = Some uid
    ∧ users d !! JS.to_lower uid = Some f
    ∧ User.f_isActive f = true
    ∧ u = User.load (JS.to_lower uid) f.
Proof.
  unfold Live.io_use.
  destruct (Live.handshake_token h) as [token|]; [|done].
  destruct (JS.truthy (Some token)); [|done].
  destruct (Auth.verifyToken jwt token) as [decoded|] eqn:Hv; [|done].
  destruct (Auth.userId decoded) as [uid|] eqn:Hu; [|done]. cbn.
  destruct (User_findById d uid) as [[u'|]|] eqn:Hfind; [|done..].
  destruct (User.isActive u') eqn:Hact; [|done]. intros [= <-].
  apply findById_user_inv in Hfind as (f & _ & Hf & ->).
  by exists token, decoded, uid, f.
Qed.

(** The gate never answers "Authentication failed": a verified subject
    is always a well-formed identifier. *)
Lemma io_use_refusals (jwt : string → option Auth.JwtPayload)
    (h : Live.Handshake) (d : Db) (e : string) :
  Live.io_use jwt h d = Live.Refused e →
  e = "Authentication token required" ∨ e = "Invalid token"
  ∨ e = "User not found or inactive".
Proof.
  unfold Live.io_use.
  destruct (Live.handshake_token h) as [token|]; [|intros [= <-]; by left].
  destruct (JS.truthy (Some token)); [|intros [= <-]; by left].
  destruct (Auth.verifyToken jwt token) as [decoded|] eqn:Hv;
    [|intros [= <-]; by right; left].
  apply verifyToken_inv in Hv as (_ & _ & uid & -> & Hhex). cbn.
  pose proof (findById_user_hex d uid Hhex).
  destruct (User_findById d uid) as [[u'|]|]; [| |done].
  - destruct (User.isActive u'); [done|]. intros [= <-]. by right; right.
  - intros [= <-]. by right; right.
Qed.

(** ** Removing a reaction *)





(** ** Pages of the listing *)

Lemma timeline_NoDup (d : Db) : NoDup (timeline d).
Proof. apply (NoDup_fmap_1 fst), timeline_keys_NoDup. Qed.

Lemma page_elem (l : list MessageDoc) (p n : nat) (x : MessageDoc) :
  x ∈ take n (drop (p * n) l)
  ↔ ∃ i, l !! i = Some x ∧ (p * n ≤ i < S p * n)%nat.
Proof.
  rewrite elem_of_take. split.
  - intros (j & Hj & Hlt). rewrite lookup_drop in Hj.
    exists (p * n + j)%nat. split; [done|lia].
  - intros (i & Hi & Hr). exists (i - p * n)%nat. rewrite lookup_drop.
    replace (p * n + (i - p * n))%nat with i by lia. split; [done|lia].
Qed.

(** Every stored message that is not deleted is on one page, and on one
    page only. *)
Lemma one_page (d : Db) (limit : nat) (x : MessageDoc) :
  x ∈ timeline d →
  ∃ page, x ∈ take (S limit) (drop (page * S limit) (timeline d))
          ∧ ∀ page', x ∈ take (S limit) (drop (page' * S limit) (timeline d)) →
                     page' = page.
Proof.
  intros [i Hi]%list_elem_of_lookup.
  exists (i / S limit)%nat. split.
  - apply page_elem. exists i. split; [done|].
    pose proof (Nat.div_mod_eq i (S limit)).
    pose proof (Nat.mod_upper_bound i (S limit)). lia.
  - intros p' (j & Hj & Hr)%page_elem.
    assert (j = i) as -> by (eapply NoDup_lookup; eauto using timeline_NoDup).
    apply Nat.div_unique with (i - p' * S limit)%nat; lia.
Qed.

Lemma page_length (d : Db) (p l : nat) :
  length (take (S l) (drop (p * S l) (timeline d)))
  = (S l `min` (length (timeline d) - p * S l))%nat.
Proof. by rewrite length_take, length_drop. Qed.

(** ** Search *)

Lemma search_result (regex_test : string → string → bool) (q : string)
    (userId : option string) (d : Db) (ms : list MessageDoc) :
  searchMessages regex_test q userId d = Some ms →
  ∃ (owner : option string) (found : list MessageDoc),
    (if JS.truthy userId then Some <$> (userId ≫= ObjectId.cast) else Some None)
    = Some owner
    ∧ ms = take 20 (newest_first found)
    ∧ NoDup found.*1
    ∧ ∀ x, x ∈ found
           ↔ messages d !! x.1 = Some x.2
             ∧ Message.isDeleted x.2 = false
             ∧ regex_test q (Message.content x.2) = true
             ∧ ∀ o, owner = Some o → Message.user x.2 = o.
Proof.
  unfold searchMessages.
  destruct (if JS.truthy userId then _ else _) as [owner|]; [|done].
  cbn [mbind option_bind]. intros [= <-].
  eexists owner, _. split; [done|]. split; [reflexivity|]. split.
  { apply (sublist_NoDup _ (map_to_list (messages d)).*1).
    - apply NoDup_fst_map_to_list.
    - apply fmap_sublist, sublist_filter. }
  intros [k m]. rewrite list_elem_of_filter. cbn [fst snd].
  unfold not_deleted. cbn [snd]. split.
  - intros [Hm Hin]. apply elem_of_map_to_list in Hin.
    apply andb_true_iff in Hm as [Hm Ho].
    apply andb_true_iff in Hm as [Hd Hr].
    split; [done|]. split; [by destruct (Message.isDeleted m)|].
    split; [done|]. intros o ->. by apply bool_decide_eq_true in Ho.
  - intros (Hs & Hd & Hr & Ho). split; [|by apply elem_of_map_to_list].
    rewrite Hd, Hr. cbn. destruct owner as [o|]; [|done].
    apply bool_decide_eq_true. by apply Ho.
Qed.

(** ** Statistics *)

Abbreviation live_docs d :=
  (filter (λ x : MessageDoc, not_deleted x = true) (map_to_list (messages d))).

(** The group that the route reports, in terms of the messages that are
    not deleted. *)
Lemma stats_totals (d : Db) :
  let st := default Stats.zero (head (Stats.getMessageStats d)) in
  Stats.totalMessages st = length (live_docs d)
  ∧ Stats.totalReactions st = sum_list (Stats.reactionCount <$> live_docs d)
  ∧ Stats.messagesWithReactions st
    = length (filter (λ x, (0 < Stats.reactionCount x)%nat) (live_docs d)).
Proof.
  unfold Stats.getMessageStats. by destruct (live_docs d).
Qed.

Lemma reacted_le_sum (l : list MessageDoc) :
  (length (filter (λ x, (0 < Stats.reactionCount x)%nat) l)
   ≤ sum_list (Stats.reactionCount <$> l))%nat.
Proof.
  induction l as [|x l IH]; [done|].
  rewrite filter_cons, fmap_cons. simpl sum_list_with.
  destruct (decide (0 < Stats.reactionCount x)%nat); simpl length; lia.
Qed.

Lemma live_docs_deleted (d : Db) (k : string) (m m' : Message.t) :
  messages d !! k = Some m →
  Message.isDeleted m = false → Message.isDeleted m' = true →
  (k, m) :: live_docs (set_messages (<[k := m']> (messages d)) d)
  ≡ₚ live_docs d.
Proof.
  intros Hk Hlive Hgone. cbn [messages set_messages].
  rewrite <- (insert_delete_eq (messages d) k m').
  rewrite map_to_list_insert by apply lookup_delete_eq.
  rewrite <- (map_to_list_delete (messages d) k m Hk).
  rewrite !filter_cons. unfold not_deleted. cbn [snd].
  rewrite Hlive, Hgone. cbn [negb].
  destruct (decide (true = true)); [|done].
  by destruct (decide (false = true)).
Qed.

(** ** Editing *)



(** ** Numbers *)

(** Up to 2^53 in absolute value an integer is a double. *)
Lemma round_exact (x : Z) :
  (Z.abs x ≤ 9007199254740992)%Z → Num.round x = x.
Proof.
  intros H. destruct (decide (Z.abs x = 9007199254740992%Z)) as [E|E].
  - assert (x = 9007199254740992 ∨ x = -9007199254740992)%Z as [-> | ->] by lia;
      vm_compute; reflexivity.
  - unfold Num.round.
    assert (Z.log2 (Z.abs x) - 52 ≤ 0)%Z as Hlog.
    { destruct (decide (Z.abs x = 0%Z)) as [E0|E0]; [rewrite E0; cbn; lia|].
      assert (Z.log2 (Z.abs x) < 53)%Z; [|lia].
      apply Z.log2_lt_pow2; [lia|]. change (2 ^ 53)%Z with 9007199254740992%Z.
      lia. }
    by rewrite (proj2 (Z.leb_le _ _) Hlog).
Qed.

Lemma succ_exact (n : Z) :
  (0 ≤ n < 9007199254740992)%Z → Num.succ n = (n + 1)%Z.
Proof. intros H. unfold Num.succ. apply round_exact. lia. Qed.

(** ** Failed logins *)

Lemma failures_app (v : bool) (ts1 ts2 : list Z) (a : Account.t) :
  Account.failures v (ts1 ++ ts2) a
  = Account.failures v ts1 a ≫= Account.failures v ts2.
Proof.
  revert a. induction ts1 as [|t0 ts1 IH]; intros a; [done|].
  cbn [app Account.failures].
  destruct (Account.handleFailedLogin v t0 a) as [a'|]; [|done]. cbn. apply IH.
Qed.

Lemma save_valid (a : Account.t) :
  (0 ≤ Account.loginCount a)%Z → (0 ≤ Account.failedLoginAttempts a)%Z →
  Account.save true a = Some a.
Proof.
  intros H1 H2. unfold Account.save, Num.min0.
  by rewrite !(proj2 (Z.leb_le 0 _)) by done.
Qed.

Lemma failed_login_step (t0 : Z) (a : Account.t) :
  (0 ≤ Account.loginCount a)%Z →
  (0 ≤ Account.failedLoginAttempts a < 9007199254740992)%Z →
  Account.handleFailedLogin true t0 a
  = Some (Account.mk (Account.lastLogin a) (Account.loginCount a)
            (Account.failedLoginAttempts a + 1)
            (if (5 <=? Account.failedLoginAttempts a + 1)%Z
             then Some (Num.round (t0 + 900000)) else Account.lockUntil a)).
Proof.
  intros H1 H2. unfold Account.handleFailedLogin.
  rewrite (succ_exact _ H2). apply save_valid; cbn; lia.
Qed.

Lemma failures_below_threshold (ts : list Z) (a : Account.t) :
  (0 ≤ Account.loginCount a)%Z → (0 ≤ Account.failedLoginAttempts a)%Z →
  (Account.failedLoginAttempts a + Z.of_nat (length ts) ≤ 9007199254740992)%Z →
  ∃ a', Account.failures true ts a = Some a'
        ∧ Account.failedLoginAttempts a'
          = (Account.failedLoginAttempts a + Z.of_nat (length ts))%Z
        ∧ Account.loginCount a' = Account.loginCount a
        ∧ Account.lastLogin a' = Account.lastLogin a
        ∧ ((Account.failedLoginAttempts a + Z.of_nat (length ts) < 5)%Z →
           Account.lockUntil a' = Account.lockUntil a).
Proof.
  revert a. induction ts as [|t0 ts IH]; intros a H1 H2 H3.
  - exists a. split; [done|]. split; [cbn; lia|]. by repeat split.
  - cbn [length] in H3. cbn [Account.failures].
    rewrite (failed_login_step t0 a H1) by lia. cbn.
    destruct (IH (Account.mk (Account.lastLogin a) (Account.loginCount a)
                    (Account.failedLoginAttempts a + 1)
                    (if (5 <=? Account.failedLoginAttempts a + 1)%Z
                     then Some (Num.round (t0 + 900000))
                     else Account.lockUntil a)))
      as (a' & -> & Hf & Hc & Hl & Hlock); [done|cbn; lia|cbn; lia|].
    cbn in Hf, Hc, Hl, Hlock. exists a'. split; [done|].
    split; [rewrite Hf; cbn [length]; lia|]. split; [done|]. split; [done|].
    intros Hlt. rewrite Hlock by (cbn [length] in Hlt; lia).
    rewrite (proj2 (Z.leb_gt _ _)); [done|]. cbn [length] in Hlt. lia.
Qed.

(** A login that fails validation: a negative counter, or another
    path that does not pass, stops every save. *)
Lemma save_invalid (v : bool) (a : Account.t) :
  v = false ∨ (Account.loginCount a < 0)%Z ∨ (Account.failedLoginAttempts a < 0)%Z →
  Account.save v a = None.
Proof.
  unfold Account.save, Num.min0. intros [-> | [H | H]]; [done| |].
  - rewrite (proj2 (Z.leb_gt 0 _)) by done. by rewrite andb_false_r.
  - rewrite (proj2 (Z.leb_gt 0 (Account.failedLoginAttempts a))) by done.
    by rewrite andb_false_r.
Qed.

(** * Further properties: statements *)

(** ** X1: the two transports *)

(** X1.  On each of the five operations that have a REST route (send,
    edit, delete, add reaction, remove reaction), the live handler and
    the route, given the same user, request, clock and fresh key, leave
    the same store; the live handler leaves the registry and the rooms
    alone; and the route answers with an error status (400 or above)
    exactly when the live handler emits a single [error] event to the
    requesting socket and nothing else. *)
Theorem X1_rest_mirrors_live :
  ∀ (hook : bool) (u : User.t) (socketId : string) (now : Z)
    (r : Dispatch.Request) (s : Live.Server) (d' : Db) (resp : Rest.Response),
    Dispatch.rest hook u now r (Live.db s) = Some (d', resp) →
    (Dispatch.live hook u socketId now r s).1 = Live.set_db d' s
    ∧ ((400 ≤ Rest.status resp)%nat
       ↔ ∃ msg, (Dispatch.live hook u socketId now r s).2
                = [(Live.ToSocket socketId, Live.ev_error msg)]).
Proof. apply mirror_store_and_status. Qed.

Lemma X1_witness :
  let r := Dispatch.Edit Fixture.m1 (Some "hello again") in
  let d' := (Rest.put_message false Fixture.alice Fixture.m1
               (Some "hello again") 7 Fixture.db1).1 in
  (Dispatch.live false Fixture.alice "sock-a" 7 r Fixture.s1).1
  = Live.set_db d' Fixture.s1
  ∧ Message.content <$> messages d' !! Fixture.m1 = Some "hello again".
Proof.
  intros r d'.
  destruct (X1_rest_mirrors_live false Fixture.alice "sock-a" 7 r Fixture.s1 d'
              (Rest.put_message false Fixture.alice Fixture.m1
                 (Some "hello again") 7 Fixture.db1).2) as [Hstore _].
  - vm_compute. reflexivity.
  - split; [exact Hstore|]. vm_compute. reflexivity.
Defined.

(** ** X2, X3: what every stored message keeps *)

(** X2.  No sequence of connections, disconnections, requests of the
    live channel and calls of the REST mirror erases a stored message
    or changes its owner, its creation timestamp, its kind, its
    attachments or its reply-target; the collection of users is not
    touched either. *)
Theorem X2_stored_messages_persist :
  ∀ (hook : bool) (l : list (Z * Dispatch.Action)) (s : Live.Server)
    (k : string) (m : Message.t),
    messages (Live.db s) !! k = Some m →
    users (Live.db (Dispatch.run hook l s)) = users (Live.db s)
    ∧ ∃ m', messages (Live.db (Dispatch.run hook l s)) !! k = Some m'
            ∧ Message.user m' = Message.user m
            ∧ Message.createdAt m' = Message.createdAt m
            ∧ Message.messageType m' = Message.messageType m
            ∧ Message.attachments m' = Message.attachments m
            ∧ Message.replyTo m' = Message.replyTo m.
Proof. intros hook l s k m. apply run_keeps. Qed.

Lemma X2_witness :
  let l := [ (5%Z, Dispatch.Ask Sample.carol "sock-c"
                     (Dispatch.Edit Fixture.m1 (Some "rewritten")));
             (6%Z, Dispatch.Call Fixture.alice (Dispatch.Delete Fixture.m1)) ] in
  ∃ m', messages (Live.db (Dispatch.run false l Sample.s2)) !! Fixture.m1 = Some m'
        ∧ Message.user m' = Fixture.alice_id
        ∧ Message.createdAt m' = 1%Z.
Proof.
  intros l.
  destruct (X2_stored_messages_persist false l Sample.s2 Fixture.m1 Sample.liked)
    as (_ & m' & Hm' & Hu & Hc & _).
  - reflexivity.
  - exists m'. repeat split; assumption.
Defined.

(** X3.  If every stored message is well formed (content trimmed, not
    empty and at most 1000 long; kind and attachment kinds in their
    enumerations; every reaction with an emoji; at most one reaction
    per user; edited and deleted flags set exactly when their
    timestamps are), then so is every stored message after any
    sequence of connections, disconnections, requests of the live
    channel and calls of the REST mirror. *)
Theorem X3_store_stays_well_formed :
  ∀ (hook : bool) (l : list (Z * Dispatch.Action)) (s : Live.Server),
    store_ok (Live.db s) → store_ok (Live.db (Dispatch.run hook l s)).
Proof. intros hook l s. apply run_store_ok. Qed.

Lemma X3_witness :
  store_ok
    (Live.db
       (Dispatch.run false
          [ (5%Z, Dispatch.Ask Fixture.alice "sock-a"
                    (Dispatch.Send (mkSend (Some " hi ") None None None) Fixture.m1));
            (6%Z, Dispatch.Call Fixture.bob
                    (Dispatch.React Fixture.m1 (Some ":)"))) ]
          Fixture.s0)).
Proof.
  apply (X3_store_stays_well_formed false _ Fixture.s0).
  intros k m H. vm_compute in H. discriminate H.
Defined.

(** ** X4, X5: the registry *)

(** X4.  On every state reached from a server without connections,
    where each connection gets a socket identifier of its own and only
    open sockets are closed: an entry of the registry that maps a user
    to a socket goes with the reverse entry that maps this socket to
    this user, and the members of the room "general" are exactly the
    sockets of the reverse map. *)
Theorem X4_registry_consistent :
  ∀ (hook : bool) (s : Live.Server),
    Dispatch.reachable hook s →
    (∀ u c, Live.connectedUsers s !! u = Some c →
            Live.userSockets s !! c = Some u)
    ∧ (∀ c, ("general", c) ∈ Live.rooms s
            ↔ is_Some (Live.userSockets s !! c)).
Proof. apply reachable_bound. Qed.

Lemma X4_witness :
  let s := Dispatch.act false 2 (Dispatch.Open Fixture.alice "sock-2")
             (Dispatch.act false 1 (Dispatch.Open Fixture.alice "sock-1")
                Fixture.s0) in
  Live.userSockets s !! "sock-2" = Some Fixture.alice_id.
Proof.
  intros s.
  destruct (X4_registry_consistent false s) as [Hbound _].
  - apply Dispatch.reach_step; [apply Dispatch.reach_step|].
    + apply (Dispatch.reach_start false Fixture.db0).
    + reflexivity.
    + reflexivity.
  - apply Hbound. reflexivity.
Defined.

(** X5.  Unbinding is idempotent: a second [disconnect] of the same
    socket leaves the registry, the rooms and the store as the first
    one left them. *)
Theorem X5_disconnect_idempotent :
  ∀ (u : User.t) (c : string) (t1 t2 : Z) (s : Live.Server),
    (Live.disconnect u c t2 (Live.disconnect u c t1 s).1).1
    = (Live.disconnect u c t1 s).1.
Proof. apply disconnect_twice. Qed.

(** ** X6: removing a reaction *)



(** ** X7, X8, X9: the REST middleware *)

(** X7.  [authenticateToken] lets a request through only with a stored,
    active user whose identifier is the subject of a token of the
    expected shape; every request that it ends is answered 401, except
    that an error of [jwt.verify] other than [JsonWebTokenError] and
    [TokenExpiredError] is answered 500. *)
Theorem X7_authenticate_token :
  ∀ (jv : string → Middleware.Verdict) (h : option string) (d : Db),
    match Middleware.authenticateToken jv h d with
    | Middleware.Next u =>
        ∃ token decoded uid f,
          Middleware.bearer h = Some token
          ∧ Auth.token_format token = true
          ∧ jv token = Middleware.Decoded decoded
          ∧ Auth.userId decoded = Some uid
          ∧ users d !! User._id u = Some f
          ∧ User.f_isActive f = true
          ∧ u = User.load (JS.to_lower uid) f
    | Middleware.Stop r =>
        Rest.status r = 401%nat
        ∨ (Rest.status r = 500%nat
           ∧ ∃ token name, Middleware.bearer h = Some token
                           ∧ jv token = Middleware.Threw name
                           ∧ name ≠ "JsonWebTokenError"
                           ∧ name ≠ "TokenExpiredError")
    end.
Proof.
  intros jv h d.
  destruct (Middleware.authenticateToken jv h d) as [u|r] eqn:E.
  - apply authenticate_next in E
      as (token & decoded & uid & Hb & Hf & Hjv & Hu & Hfind & Hact).
    apply findById_user_inv in Hfind as (f & _ & Hs & ->).
    exists token, decoded, uid, f. by repeat split.
  - by apply authenticate_stop in E.
Qed.

(** X8.  [optionalAuth] attaches the user that [authenticateToken]
    would let through on the same request, and whatever user it
    attaches is a stored, active user. *)
Theorem X8_optional_auth :
  ∀ (jv : string → Middleware.Verdict) (h : option string) (d : Db) (u : User.t),
    (Middleware.authenticateToken jv h d = Middleware.Next u →
     Middleware.optionalAuth jv h d = Some u)
    ∧ (Middleware.optionalAuth jv h d = Some u →
       ∃ f, users d !! User._id u = Some f ∧ User.f_isActive f = true
            ∧ u = User.load (User._id u) f).
Proof.
  intros jv h d u. split; [apply authenticate_optional | apply optional_sound].
Qed.

Lemma X8_witness :
  Middleware.optionalAuth Sample.decode (Some "Bearer c.x.y") Sample.db2
  = Some Sample.carol.
Proof.
  apply (X8_optional_auth Sample.decode (Some "Bearer c.x.y") Sample.db2 Sample.carol).
  reflexivity.
Defined.

(** X9.  The statistics route answers with statistics exactly to the
    requests that [authenticateToken] lets through with an admin or a
    moderator; a user of role "user" is answered 403, and a request
    that is not authenticated gets the answer of [authenticateToken]. *)
Theorem X9_stats_need_moderator :
  ∀ (jv : string → Middleware.Verdict) (h : option string) (d : Db),
    match Middleware.authenticateToken jv h d with
    | Middleware.Next u =>
        Stats.get_stats jv h d
        = if bool_decide (User.role u = User.RoleUser)
          then Stats.Denied
                 (Rest.fail 403 "Access denied" "Moderator privileges required")
          else Stats.Granted
                 (default Stats.zero (head (Stats.getMessageStats d)))
    | Middleware.Stop r => Stats.get_stats jv h d = Stats.Denied r
    end.
Proof.
  intros jv h d. unfold Stats.get_stats.
  destruct (Middleware.authenticateToken jv h d) as [u|r]; [|done].
  rewrite moderator_gate. by destruct (bool_decide _).
Qed.

(** ** X10, X11: the statistics *)

(** X10.  The statistics count the messages that are not deleted: the
    total of messages is their number, the total of reactions is the
    sum of their reaction counts, and the number of messages with a
    reaction is at most either total; without such a message the
    route reports zeros. *)
Theorem X10_stats_totals :
  ∀ (d : Db),
    let live := filter (λ x : MessageDoc, not_deleted x = true)
                  (map_to_list (messages d)) in
    let st := default Stats.zero (head (Stats.getMessageStats d)) in
    Stats.totalMessages st = length live
    ∧ Stats.totalReactions st = sum_list (Stats.reactionCount <$> live)
    ∧ (Stats.messagesWithReactions st ≤ Stats.totalMessages st)%nat
    ∧ (Stats.messagesWithReactions st ≤ Stats.totalReactions st)%nat
    ∧ (Stats.getMessageStats d = [] ↔ live = []).
Proof.
  intros d live st.
  pose proof (stats_totals d) as H. cbv zeta in H. destruct H as (H1 & H2 & H3).
  fold live st in H1, H2, H3.
  split; [done|]. split; [done|]. rewrite H1, H2, H3.
  split; [apply length_filter|]. split; [apply reacted_le_sum|].
  unfold Stats.getMessageStats. fold live. by destruct live.
Qed.

(** X11.  A soft delete, by a user allowed to delete it, of a stored
    message that was not deleted and passes the validation of the
    schema lowers the reported total of messages by one and the
    reported total of reactions by the number of reactions of that
    message. *)
Theorem X11_delete_leaves_stats :
  ∀ (u : User.t) (messageId : string) (doc : MessageDoc) (now : Z) (d : Db),
    Message_findById d messageId = Some (Some doc) →
    Message.valid_document doc.2 = true →
    forbidden doc u = false →
    Message.isDeleted doc.2 = false →
    let before := default Stats.zero (head (Stats.getMessageStats d)) in
    let after :=
      default Stats.zero
        (head (Stats.getMessageStats (Rest.delete_message u messageId now d).1)) in
    Stats.totalMessages before = S (Stats.totalMessages after)
    ∧ Stats.totalReactions before
      = (length (Message.reactions doc.2) + Stats.totalReactions after)%nat.
Proof.
  intros u mid [k m] now d Hfind Hvalid Hallowed Hlive before after.
  destruct (findById_inv _ _ _ Hfind) as [_ Hk]. cbn [fst snd] in *.
  assert ((Rest.delete_message u mid now d).1
          = set_messages
              (<[k := Message.with_deleted true (Some now) m]> (messages d)) d)
    as Hd.
  { unfold Rest.delete_message.
    by rewrite Hfind, Hallowed, (softDelete_valid now (k, m) d Hvalid). }
  pose proof (stats_totals d) as B. cbv zeta in B. destruct B as (B1 & B2 & _).
  pose proof (stats_totals (Rest.delete_message u mid now d).1) as A.
  cbv zeta in A. destruct A as (A1 & A2 & _).
  fold before in B1, B2. fold after in A1, A2.
  rewrite B1, B2, A1, A2, Hd.
  rewrite <- (live_docs_deleted d k m (Message.with_deleted true (Some now) m))
    by done.
  split; reflexivity.
Qed.

Lemma X11_witness :
  let before := default Stats.zero (head (Stats.getMessageStats Sample.db2)) in
  let after :=
    default Stats.zero
      (head (Stats.getMessageStats
               (Rest.delete_message Fixture.alice Fixture.m1 9 Sample.db2).1)) in
  Stats.totalMessages before = S (Stats.totalMessages after)
  ∧ Stats.totalReactions before = (2 + Stats.totalReactions after)%nat.
Proof.
  apply (X11_delete_leaves_stats Fixture.alice Fixture.m1
           (Fixture.m1, Sample.liked) 9 Sample.db2); reflexivity.
Defined.

(** ** X12, X13: edit and delete by an authorized user *)



(** X13.  Whether a delete of a stored message goes through is decided
    by the owner-or-admin test and then by the validation of the
    document.  For the owner and for an admin, a message that passes
    the validation of the schema is soft-deleted at the time of the
    request (the route answers 200, the room "general" is told the
    identifier that the client sent), and for a message that does not
    pass it the save is rejected: the answer is the server error and
    nothing changes.  For anyone else, a moderator included, nothing
    changes and the answer is the authorization error. *)
Theorem X13_delete_needs_owner_or_admin :
  ∀ (u : User.t) (socketId messageId : string) (doc : MessageDoc) (now : Z)
    (s : Live.Server),
    Message_findById (Live.db s) messageId = Some (Some doc) →
    let d' := set_messages
                (<[doc.1 := Message.with_deleted true (Some now) doc.2]>
                   (messages (Live.db s))) (Live.db s) in
    if bool_decide (Message.user doc.2 = User._id u ∨ User.role u = User.RoleAdmin)
    then
      if Message.valid_document doc.2 then
        Rest.delete_message u messageId now (Live.db s)
        = (d', Rest.mkResponse 200 (Rest.Notice "Message deleted successfully"))
        ∧ Live.delete_message u socketId messageId now s
          = (Live.set_db d' s,
             [(Live.ToRoom "general", Live.ev_message_deleted messageId)])
      else
        Rest.delete_message u messageId now (Live.db s)
        = (Live.db s, Rest.fail 500 "Server error" "Failed to delete message")
        ∧ Live.delete_message u socketId messageId now s
          = (s, [(Live.ToSocket socketId,
                  Live.ev_error "Failed to delete message")])
    else
      Rest.delete_message u messageId now (Live.db s)
      = (Live.db s,
         Rest.fail 403 "Access denied" "You can only delete your own messages")
      ∧ Live.delete_message u socketId messageId now s
        = (s, [(Live.ToSocket socketId,
                Live.ev_error "You can only delete your own messages")]).
Proof.
  intros u sid mid doc now s Hfind d'.
  unfold Rest.delete_message, Live.delete_message. rewrite Hfind.
  assert (forbidden doc u
          = negb (bool_decide (Message.user doc.2 = User._id u
                               ∨ User.role u = User.RoleAdmin))) as ->.
  { unfold forbidden.
    destruct (decide (Message.user doc.2 = User._id u)) as [Ho|Ho];
      destruct (decide (User.role u = User.RoleAdmin)) as [Hr|Hr];
      repeat (first [ rewrite bool_decide_eq_true_2 by tauto
                    | rewrite bool_decide_eq_false_2 by tauto ]);
      reflexivity. }
  destruct (bool_decide _); [|done]. cbn [negb].
  unfold softDelete, Live.emit_error. cbn [fst snd].
  change (Message.valid_document (Message.with_deleted true (Some now) doc.2))
    with (Message.valid_document doc.2).
  by destruct (Message.valid_document doc.2).
Qed.

Lemma X13_witness :
  Rest.delete_message Sample.dave Fixture.m1 9 (Live.db Sample.s2)
  = (Live.db Sample.s2,
     Rest.fail 403 "Access denied" "You can only delete your own messages")
  ∧ Message.isDeleted
    <$> messages (Rest.delete_message Sample.carol Fixture.m1 9 Sample.db2).1
        !! Fixture.m1
    = Some true.
Proof.
  pose proof (X13_delete_needs_owner_or_admin Sample.dave "sock-d" Fixture.m1
                (Fixture.m1, Sample.liked) 9 Sample.s2 eq_refl) as Hd.
  cbv zeta in Hd.
  rewrite bool_decide_eq_false_2 in Hd.
  - split; [exact (proj1 Hd)|]. vm_compute. reflexivity.
  - cbn. intros [H|H]; discriminate H.
Defined.

(** ** X14: search *)

(** X14.  A search that answers returns at most 20 messages, with
    distinct keys, newest first; each of them is stored, not deleted,
    matched by the query and, when a user identifier is given, owned
    by that user; and when fewer than 20 are returned, every stored
    message with these properties is among them. *)
Theorem X14_search_results :
  ∀ (regex_test : string → string → bool) (q : string)
    (userId : option string) (d : Db) (ms : list MessageDoc),
    searchMessages regex_test q userId d = Some ms →
    ∃ owner : option string,
      (if JS.truthy userId then Some <$> (userId ≫= ObjectId.cast) else Some None)
      = Some owner
      ∧ (length ms ≤ 20)%nat
      ∧ NoDup ms.*1
      ∧ StronglySorted newer_eq ms
      ∧ (∀ x, x ∈ ms →
              messages d !! x.1 = Some x.2
              ∧ Message.isDeleted x.2 = false
              ∧ regex_test q (Message.content x.2) = true
              ∧ ∀ o, owner = Some o → Message.user x.2 = o)
      ∧ ((length ms < 20)%nat →
         ∀ x, messages d !! x.1 = Some x.2 →
              Message.isDeleted x.2 = false →
              regex_test q (Message.content x.2) = true →
              (∀ o, owner = Some o → Message.user x.2 = o) →
              x ∈ ms).
Proof.
  intros regex q userId d ms Hs.
  destruct (search_result regex q userId d ms Hs)
    as (owner & found & Ho & -> & Hnd & Hfound).
  exists owner. split; [done|].
  split; [rewrite length_take; lia|]. split; [|split; [|split]].
  - rewrite fmap_take.
    eapply sublist_NoDup; [|apply sublist_take].
    unfold newest_first. by rewrite merge_sort_Permutation.
  - assert (StronglySorted newer_eq (newest_first found)) as Hsorted
      by (apply StronglySorted_merge_sort; apply _).
    rewrite <- (take_drop 20 (newest_first found)) in Hsorted.
    by apply StronglySorted_app_1_l in Hsorted.
  - intros x Hx. apply Hfound. apply newest_first_elem.
    by apply (subseteq_take 20 _ x).
  - intros Hlt x H1 H2 H3 H4.
    rewrite take_ge; [apply newest_first_elem; by apply Hfound|].
    rewrite length_take in Hlt. lia.
Qed.

Lemma X14_witness :
  ∃ ms, searchMessages (λ _ _, true) "hel" (Some Fixture.alice_id) Sample.db2 = Some ms
        ∧ (length ms ≤ 20)%nat ∧ NoDup ms.*1.
Proof.
  eexists. split; [reflexivity|].
  destruct (X14_search_results (λ _ _, true) "hel" (Some Fixture.alice_id)
              Sample.db2 _ eq_refl) as (owner & _ & Hlen & Hnd & _).
  split; [exact Hlen | exact Hnd].
Defined.

(** ** X15, X16: pages *)

(** X15.  For every positive limit, every stored message that is not
    deleted is returned on exactly one page of the listing. *)
Theorem X15_each_message_on_one_page :
  ∀ (d : Db) (limit : nat) (x : MessageDoc),
    messages d !! x.1 = Some x.2 →
    Message.isDeleted x.2 = false →
    ∃ page : nat,
      (∃ ms, getMessages (Z.of_nat (S page)) (Z.of_nat (S limit)) d = Some ms
             ∧ x ∈ ms)
      ∧ ∀ (page' : nat) (ms' : list MessageDoc),
          getMessages (Z.of_nat (S page')) (Z.of_nat (S limit)) d = Some ms' →
          x ∈ ms' → page' = page.
Proof.
  intros d limit x Hs Hd.
  destruct (one_page d limit x) as (page & Hin & Huniq).
  { by apply timeline_elem. }
  exists page. split.
  - eexists. split; [apply getMessages_page|done].
  - intros page' ms'. rewrite getMessages_page. intros [= <-]. apply Huniq.
Qed.

Lemma X15_witness :
  ∃ page : nat,
    ∃ ms, getMessages (Z.of_nat (S page)) (Z.of_nat 50) Fixture.db120 = Some ms
          ∧ (Fixture.nth_id 7, Fixture.nth_message 7) ∈ ms.
Proof.
  destruct (X15_each_message_on_one_page Fixture.db120 49
              (Fixture.nth_id 7, Fixture.nth_message 7))
    as (page & Hin & _).
  - vm_compute. reflexivity.
  - reflexivity.
  - exists page. exact Hin.
Defined.

(** X16.  With [n] stored messages that are not deleted, page [p + 1]
    of positive limit [l] holds [min l (n - p * l)] messages and is
    answered with [hasMore] true exactly when [(p + 1) * l ≤ n]: a
    full last page announces more although the next page is empty. *)
Theorem X16_page_size_and_hasMore :
  ∀ (regex_test : string → string → bool) (d : Db) (p l : nat),
    ∃ ms,
      Rest.get_messages regex_test (Some (Z.of_nat (S p)))
        (Some (Z.of_nat (S l))) None d
      = Rest.mkResponse 200
          (Rest.Listing ms (Z.of_nat (S p)) (Z.of_nat (S l))
             (bool_decide (S p * S l ≤ length (timeline d))%nat))
      ∧ length ms = (S l `min` (length (timeline d) - p * S l))%nat.
Proof.
  intros regex d p l.
  exists (reverse (take (S l) (drop (p * S l) (timeline d)))).
  rewrite length_reverse, page_length. split; [|done].
  unfold Rest.get_messages, Rest.int_or.
  rewrite !(proj2 (Z.eqb_neq _ 0)) by lia. cbn [JS.truthy].
  rewrite getMessages_page, page_length. do 3 f_equal.
  apply bool_decide_ext. lia.
Qed.

(** ** X17: deactivation *)

(** X17.  The deactivation route is called with a request that
    [authenticateToken] lets through as [u], stored with the fields
    [f].  If the stored document of [u] passes the validation of the
    schema, the route answers 200 and clears the active flag of [u];
    the messages and the other users are as before; afterwards every
    request that [authenticateToken] let through as [u] is answered
    401 "Account deactivated", and every connection attempt whose
    verified token names [u] is refused without a trace.  If the
    document does not pass the validation, the save is rejected: the
    route answers 500 and the store is as before.  [lc], [fl] and [ov]
    give the login count, the failed attempts and the validity of the
    other paths of the stored users. *)
Theorem X17_deactivation_locks_out :
  ∀ (lc fl : string → Z) (ov : string → bool)
    (jv : string → Middleware.Verdict) (h : option string) (d : Db) (u : User.t)
    (f : User.fields),
    Middleware.authenticateToken jv h d = Middleware.Next u →
    users d !! User._id u = Some f →
    (UserDoc.validate lc fl ov (User._id u) f = true →
     let d' := (post_deactivate lc fl ov jv h d).1 in
     (post_deactivate lc fl ov jv h d).2
     = Rest.mkResponse 200 (Rest.Notice "Account deactivated successfully")
     ∧ messages d' = messages d
     ∧ User.f_isActive <$> users d' !! User._id u = Some false
     ∧ (∀ k, k ≠ User._id u → users d' !! k = users d !! k)
     ∧ (∀ h', Middleware.authenticateToken jv h' d = Middleware.Next u →
              Middleware.authenticateToken jv h' d'
              = Middleware.Stop
                  (Rest.fail 401 "Account deactivated"
                     "Your account has been deactivated"))
     ∧ (∀ (jwt : string → option Auth.JwtPayload) (hs : Live.Handshake)
          (socketId token uid : string) (decoded : Auth.JwtPayload) (now : Z)
          (s : Live.Server),
          Live.db s = d' →
          Live.handshake_token hs = Some token →
          Auth.verifyToken jwt token = Some decoded →
          Auth.userId decoded = Some uid →
          JS.to_lower uid = User._id u →
          Live.connect jwt hs socketId now s
          = (s, Live.Refused "User not found or inactive", [])))
    ∧ (UserDoc.validate lc fl ov (User._id u) f = false →
       post_deactivate lc fl ov jv h d
       = (d, Rest.fail 500 "Server error" "Failed to deactivate account")).
Proof.
  intros lc fl ov jv h d u f Hauth Hf.
  destruct (deactivate_effect lc fl ov jv h d u Hauth) as (f0 & Hf0 & _ & Hpost).
  rewrite Hf in Hf0. injection Hf0 as <-.
  split; [|by intros Hbad; rewrite Hpost, Hbad].
  intros Hvalid d'. rewrite Hvalid in Hpost.
  assert (d' = set_users (<[User._id u := deactivated f]> (users d)) d) as Hd'
    by (subst d'; by rewrite Hpost).
  split; [by rewrite Hpost|]. rewrite Hd'. cbn [messages users set_users].
  split; [done|]. split; [by rewrite lookup_insert_eq|].
  split; [by intros k Hk; rewrite lookup_insert_ne|]. split.
  - intros h' Hauth'.
    apply authenticate_next in Hauth'
      as (token & decoded & uid & Hb & Hfmt & Hjv & Hu & Hfind & Hact).
    apply findById_user_inv in Hfind as (f' & Hhex & Hs & ->).
    cbn [User._id User.load] in *.
    unfold Middleware.authenticateToken. rewrite Hb.
    assert (JS.truthy (Some token) = true) as ->.
    { destruct token; [discriminate Hfmt | done]. }
    rewrite Hfmt, Hjv, Hu. cbn [negb].
    assert (JS.truthy (Some uid) = true) as ->.
    { destruct uid; [discriminate Hhex | done]. }
    rewrite Hhex. cbn [negb].
    by rewrite (findById_deactivated d uid (JS.to_lower uid) f Hhex eq_refl).
  - intros jwt hs sid token uid decoded now s Hdb Htok Hver Hu Hlow.
    pose proof (verifyToken_inv jwt token decoded Hver)
      as (Hfmt & _ & uid' & Hu' & Hhex).
    rewrite Hu in Hu'. injection Hu' as <-.
    unfold Live.connect, Live.io_use. rewrite Htok.
    assert (JS.truthy (Some token) = true) as ->.
    { destruct token; [discriminate Hfmt | done]. }
    rewrite Hver, Hu, Hdb. cbn [mbind option_bind].
    by rewrite (findById_deactivated d uid (User._id u) f Hhex Hlow).
Qed.

Lemma X17_witness :
  let d' := (post_deactivate (λ _, 0%Z) (λ _, 0%Z) (λ _, true) Sample.decode
               (Some "Bearer a.b.c") Sample.db2).1 in
  Middleware.authenticateToken Sample.decode (Some "Bearer a.x.y") d'
  = Middleware.Stop
      (Rest.fail 401 "Account deactivated" "Your account has been deactivated")
  ∧ users d' !! Sample.carol_id = users Sample.db2 !! Sample.carol_id.
Proof.
  intros d'.
  destruct (X17_deactivation_locks_out (λ _, 0%Z) (λ _, 0%Z) (λ _, true)
              Sample.decode (Some "Bearer a.b.c") Sample.db2 Fixture.alice
              Fixture.alice_fields)
    as [Hok _].
  - reflexivity.
  - reflexivity.
  - destruct Hok as (_ & _ & _ & Hothers & Hrest & _); [reflexivity|].
    split.
    + apply Hrest. reflexivity.
    + apply Hothers. intros H. discriminate H.
Defined.

(** ** X18: what an accepted connection has passed *)

(** X18.  A connection is accepted only for a stored, active user that
    a verified token names; once accepted, the user is bound to the
    socket in both registry maps, the socket is in the room "general"
    and in the room of the user, the store is untouched, the presence
    event goes to the other members of the room only, and the new
    socket is sent the entries of the registry after the write, its
    own among them.  A refusal leaves the server as it was, emits
    nothing and bears one of three messages. *)
Theorem X18_accepted_connection :
  ∀ (jwt : string → option Auth.JwtPayload) (h : Live.Handshake)
    (socketId : string) (now : Z) (s : Live.Server),
    match Live.connect jwt h socketId now s with
    | (s', Live.Accepted u, out) =>
        (∃ f, users (Live.db s) !! User._id u = Some f
              ∧ User.f_isActive f = true
              ∧ u = User.load (User._id u) f)
        ∧ Live.connectedUsers s' !! User._id u = Some socketId
        ∧ Live.userSockets s' !! socketId = Some (User._id u)
        ∧ ("general", socketId) ∈ Live.rooms s'
        ∧ ("user_" +:+ User._id u, socketId) ∈ Live.rooms s'
        ∧ Live.db s' = Live.db s
        ∧ out = [ (Live.ToOthers "general" socketId,
                   Live.ev_user_connected (User._id u) (User.name u)
                     (User.avatar u) now);
                  (Live.ToSocket socketId,
                   Live.ev_online_users (Live.connectedUsers s')) ]
    | (s', Live.Refused e, out) =>
        s' = s ∧ out = []
        ∧ (e = "Authentication token required" ∨ e = "Invalid token"
           ∨ e = "User not found or inactive")
    end.
Proof.
  intros jwt h sid now s. unfold Live.connect.
  destruct (Live.io_use jwt h (Live.db s)) as [e|u] eqn:E.
  - split; [done|]. split; [done|]. by apply io_use_refusals in E.
  - apply io_use_accepted in E as (token & decoded & uid & f & _ & _ & _ & Hf & Hact & ->).
    cbn. split; [by exists f|].
    split; [apply lookup_insert_eq|]. split; [apply lookup_insert_eq|].
    split; [set_solver|]. split; [set_solver|]. done.
Qed.

(** ** X19: failed logins *)

(** X19.  Take the account of a user whose other paths pass the
    validation of the schema, with counters that are not negative and
    stay within the integers that a number holds exactly (up to 2^53),
    and let [t] be a time value that is followed by 15 minutes of
    time values (a time value is at most 8.64e15 in absolute value).
    After failed logins at the times [ts] and then at [t]: the counter
    of failed attempts has grown by their number; if it has reached 5
    the account is locked until 15 minutes after [t] (each further
    failure moves the end of the lock), otherwise the lock is as it
    was; and a successful login then clears the counter and the lock
    and counts the login. *)
Theorem X19_lock_after_five_failures :
  ∀ (a : Account.t) (ts : list Z) (t now : Z),
    (0 ≤ Account.loginCount a < 9007199254740992)%Z →
    (0 ≤ Account.failedLoginAttempts a)%Z →
    (Account.failedLoginAttempts a + Z.of_nat (length ts) + 1
     ≤ 9007199254740992)%Z →
    (0 ≤ t ≤ 8640000000000000 - 900000)%Z →
    ∃ a',
      Account.failures true (ts ++ [t]) a = Some a'
      ∧ Account.failedLoginAttempts a'
        = (Account.failedLoginAttempts a + Z.of_nat (length ts) + 1)%Z
      ∧ Account.lockUntil a'
        = (if (5 <=? Account.failedLoginAttempts a')%Z
           then Some (t + 900000)%Z else Account.lockUntil a)
      ∧ ((5 ≤ Account.failedLoginAttempts a')%Z →
         ∀ t', Account.isLocked t' a' = bool_decide (t' < t + 900000)%Z)
      ∧ Account.updateLastLogin true now a'
        = Some (Account.mk now (Account.loginCount a + 1) 0 None).
Proof.
  intros a ts t now H1 H2 H3 H4.
  destruct (failures_below_threshold ts a) as (a1 & Hrun & Hf & Hc & Hl & Hlock);
    [lia..|].
  rewrite failures_app, Hrun. cbn [mbind option_bind Account.failures].
  rewrite (failed_login_step t a1) by lia. cbn [mbind option_bind].
  rewrite (round_exact (t + 900000)) by lia.
  eexists. split; [reflexivity|].
  cbn [Account.failedLoginAttempts Account.lockUntil Account.loginCount].
  split; [lia|]. split; [|split].
  - destruct (5 <=? Account.failedLoginAttempts a1 + 1)%Z eqn:E; [done|].
    apply Hlock. apply Z.leb_gt in E. lia.
  - intros Hge. unfold Account.isLocked. cbn [Account.lockUntil].
    rewrite (proj2 (Z.leb_le _ _) Hge). intros t'.
    destruct (Z.ltb_spec t' (t + 900000));
      [by rewrite bool_decide_eq_true_2 | by rewrite bool_decide_eq_false_2 by lia].
  - unfold Account.updateLastLogin. cbn [Account.loginCount].
    rewrite succ_exact by lia. rewrite Hc. apply save_valid; cbn; lia.
Qed.

Lemma X19_witness :
  ∃ a',
    Account.failures true ([10; 20; 30; 40] ++ [50])%list%Z Sample.fresh_account
    = Some a'
    ∧ Account.lockUntil a' = Some 900050%Z
    ∧ Account.isLocked 900049 a' = true
    ∧ Account.isLocked 900050 a' = false.
Proof.
  destruct (X19_lock_after_five_failures Sample.fresh_account
              [10; 20; 30; 40]%Z 50 60) as (a' & Hrun & Hf & Hlock & Hl & _).
  - vm_compute. split; [discriminate|reflexivity].
  - vm_compute. discriminate.
  - vm_compute. discriminate.
  - vm_compute. split; discriminate.
  - exists a'. split; [exact Hrun|].
    assert (5 ≤ Account.failedLoginAttempts a')%Z as Hge
      by (rewrite Hf; vm_compute; discriminate).
    split.
    + rewrite Hlock. by rewrite (proj2 (Z.leb_le _ _) Hge).
    + rewrite !(Hl Hge). split; reflexivity.
Defined.

(** ** X20: a generated token at the gate *)

(** X20.  [generateToken] refuses exactly the identifiers that are not
    24 hexadecimal digits.  For a stored, active user, if the signing
    library yields a token of three segments that its verification
    decodes to the same subject, then the token that [generateToken]
    makes for the identifier of the user is accepted at the connection
    gate as that user. *)
Theorem X20_generated_token_accepted :
  ∀ (jwt_sign : string → Z → string) (jwt : string → option Auth.JwtPayload)
    (uid socketId : string) (f : User.fields) (now now' : Z) (s : Live.Server),
    users (Live.db s) !! uid = Some f →
    User.f_isActive f = true →
    ObjectId.cast uid = Some uid →
    Auth.token_format (jwt_sign uid (now / 1000)%Z) = true →
    jwt (jwt_sign uid (now / 1000)%Z) = Some (Auth.mkJwt (Some uid)) →
    (∀ x, Middleware.generateToken jwt_sign x now = None
          ↔ ObjectId.is_hex24 x = false)
    ∧ ∃ token,
        Middleware.generateToken jwt_sign uid now = Some token
        ∧ (Live.connect jwt (Live.mkHandshake (Some token) None) socketId now' s).1.2
          = Live.Accepted (User.load uid f).
Proof.
  intros jwt_sign jwt uid sid f now now' s Hf Hact Hcast Hfmt Hjwt.
  assert (ObjectId.is_hex24 uid = true) as Hhex.
  { unfold ObjectId.cast in Hcast. by destruct (ObjectId.is_hex24 uid). }
  assert (JS.is_empty uid = false) as Hne.
  { destruct uid; [discriminate Hhex | done]. }
  split.
  - intros x. unfold Middleware.generateToken.
    destruct (ObjectId.is_hex24 x) eqn:Hx.
    + assert (JS.is_empty x = false) as -> by (destruct x; [discriminate Hx|done]).
      cbn. split; discriminate.
    + rewrite orb_true_r. done.
  - exists (jwt_sign uid (now / 1000)%Z). split.
    + unfold Middleware.generateToken. by rewrite Hne, Hhex.
    + unfold Live.connect, Live.io_use, Live.handshake_token, JS.or_else.
      cbn [Live.auth_token Live.authorization].
      assert (JS.truthy (Some (jwt_sign uid (now / 1000)%Z)) = true) as Htr.
      { destruct (jwt_sign uid (now / 1000)%Z); [discriminate Hfmt | done]. }
      rewrite Htr, Htr. unfold Auth.verifyToken.
      assert (JS.is_empty (jwt_sign uid (now / 1000)%Z) = false) as ->.
      { destruct (jwt_sign uid (now / 1000)%Z); [discriminate Hfmt | done]. }
      rewrite Hfmt, Hjwt. cbn [negb orb Auth.userId]. rewrite Hne, Hhex.
      cbn [negb orb].
      change (Auth.userId (Auth.mkJwt (Some uid)) ≫= User_findById (Live.db s))
        with (User_findById (Live.db s) uid).
      assert (User_findById (Live.db s) uid = Some (Some (User.load uid f))) as ->.
      { unfold User_findById. rewrite Hcast. cbn. by rewrite Hf. }
      cbn [User.isActive User.load]. by rewrite Hact.
Qed.

Lemma X20_witness :
  ∃ token,
    Middleware.generateToken Sample.sign Fixture.alice_id 5000 = Some token
    ∧ (Live.connect Sample.decode_live (Live.mkHandshake (Some token) None)
         "sock-a" 6000 Sample.s2).1.2
      = Live.Accepted (User.load Fixture.alice_id Fixture.alice_fields).
Proof.
  apply (X20_generated_token_accepted Sample.sign Sample.decode_live
           Fixture.alice_id "sock-a" Fixture.alice_fields 5000 6000 Sample.s2);
    reflexivity.
Defined.

(** ** X21, X22: sending *)

Lemma create_plain (hook : bool) (uid id c : string) (req : SendRequest)
    (now : Z) (d : Db) :
  JS.trim c ≠ "" → (String.length c ≤ 1000)%nat →
  JS.truthy (replyTo req) = false →
  Message.in_enum Message.messageType_enum (default "text" (messageType req)) = true →
  forallb Message.valid_attachment (default [] (attachments req)) = true →
  hook = false
  ∨ is_Some (mapM ObjectId.cast (Message.extract_mentions (JS.trim c))) →
  messages d !! id = None →
  create hook id now (send_data uid c req) d
  = let m := Message.mk uid (JS.trim c) (default "text" (messageType req))
               (default [] (attachments req)) false None false None [] None
               (default [] (mapM ObjectId.cast
                              (Message.extract_mentions (JS.trim c)))) now in
    Some (set_messages (<[id := m]> (messages d)) d, (id, m)).
Proof.
  intros Ht Hl Hr Henum Hatt Hhook Hfresh.
  unfold create, send_data. rewrite Hr.
  cbn [d_replyTo d_content d_messageType d_attachments d_user].
  change (Some None ≫= ?k) with (k None). cbv beta.
  rewrite trim_idem, (valid_content_trim c Ht Hl), Henum, Hatt.
  cbn [andb]. unfold pre_save. cbn [Message.content].
  destruct (mapM ObjectId.cast (Message.extract_mentions (JS.trim c)))
    as [ids|] eqn:E.
  - cbn. by rewrite Hfresh.
  - destruct Hhook as [-> | [? ?]]; [|done]. cbn. by rewrite Hfresh.
Qed.

(** X21.  A Send without reply-target, on either transport, by a user
    who is in the store, with content that passes the content checks,
    a kind and attachment kinds of the enumerations (the kind defaults
    to "text") and a fresh key: the message is stored with the trimmed
    content, not edited, not deleted, without reactions, created at the
    time of the request, its mentions being the tokens of the content
    when they all are identifiers and none otherwise; the route answers
    201 with the payload; the live handler broadcasts the same payload
    to the room "general" and confirms to the sending socket alone. *)
Theorem X21_send_effect :
  ∀ (hook : bool) (u : User.t) (socketId id c : string) (req : SendRequest)
    (now : Z) (s : Live.Server) (f : User.fields),
    content req = Some c →
    JS.trim c ≠ "" → (String.length c ≤ 1000)%nat →
    JS.truthy (replyTo req) = false →
    Message.in_enum Message.messageType_enum (default "text" (messageType req)) = true →
    forallb Message.valid_attachment (default [] (attachments req)) = true →
    hook = false
    ∨ is_Some (mapM ObjectId.cast (Message.extract_mentions (JS.trim c))) →
    messages (Live.db s) !! id = None →
    users (Live.db s) !! User._id u = Some f →
    let m := Message.mk (User._id u) (JS.trim c)
               (default "text" (messageType req))
               (default [] (attachments req)) false None false None [] None
               (default [] (mapM ObjectId.cast
                              (Message.extract_mentions (JS.trim c)))) now in
    let d' := set_messages (<[id := m]> (messages (Live.db s))) (Live.db s) in
    let p := mkPayload id (JS.trim c) (default "text" (messageType req))
               (default [] (attachments req))
               (mkSender (User._id u) (User.f_name f) (User.f_avatar f))
               None now in
    Rest.post_messages hook u req id now (Live.db s)
    = (d', Rest.mkResponse 201 (Rest.Sent p))
    ∧ Live.send_message hook u socketId req id now s
      = (Live.set_db d' s,
         [ (Live.ToRoom "general", Live.ev_new_message p);
           (Live.ToSocket socketId, Live.ev_message_sent id) ]).
Proof.
  intros hook u sid id c req now s f Hc Ht Hl Hr Henum Hatt Hhook Hfresh Hu
    m d' p.
  pose proof (check_content_accepts c Ht Hl) as Hcheck.
  pose proof (create_plain hook (User._id u) id c req now (Live.db s)
                Ht Hl Hr Henum Hatt Hhook Hfresh) as Hcreate.
  cbv zeta in Hcreate. fold m d' in Hcreate.
  assert (populate_user d' m
          = Some (mkSender (User._id u) (User.f_name f) (User.f_avatar f)))
    as Hpop.
  { unfold populate_user. subst d' m. cbn. by rewrite Hu. }
  assert (message_payload d' (id, m)
            (mkSender (User._id u) (User.f_name f) (User.f_avatar f)) = p)
    as Hpay by reflexivity.
  split.
  - unfold Rest.post_messages. rewrite Hc, Hcheck, Hcreate. cbn [snd].
    by rewrite Hpop, Hpay.
  - unfold Live.send_message. rewrite Hc, Hcheck, Hcreate. cbn [snd fst].
    by rewrite Hpop, Hpay.
Qed.

Lemma X21_witness :
  Rest.status
    (Rest.post_messages true Fixture.alice (mkSend (Some " hi all ") None None None)
       Fixture.m2 9 (Live.db Sample.s2)).2
  = 201%nat
  ∧ Message.content
    <$> messages
          (Rest.post_messages true Fixture.alice
             (mkSend (Some " hi all ") None None None) Fixture.m2 9
             (Live.db Sample.s2)).1 !! Fixture.m2
    = Some "hi all".
Proof.
  destruct (X21_send_effect true Fixture.alice "sock-a" Fixture.m2 " hi all "
              (mkSend (Some " hi all ") None None None) 9 Sample.s2
              Fixture.alice_fields) as [Hpost _].
  - reflexivity.
  - cbn. intros H. discriminate H.
  - cbn. lia.
  - reflexivity.
  - reflexivity.
  - reflexivity.
  - right. by eexists.
  - reflexivity.
  - reflexivity.
  - rewrite Hpost. split; reflexivity.
Defined.

(** X22.  A Send whose content passes the content checks but whose kind
    is outside the enumeration of the schema, or one of whose
    attachments has a kind outside its enumeration, is answered 500
    "Failed to send message" (an [error] event on the live channel)
    and stores nothing. *)
Theorem X22_send_rejects_unknown_kind :
  ∀ (hook : bool) (u : User.t) (socketId id c : string) (req : SendRequest)
    (now : Z) (s : Live.Server),
    content req = Some c →
    JS.trim c ≠ "" → (String.length c ≤ 1000)%nat →
    Message.in_enum Message.messageType_enum (default "text" (messageType req)) = false
    ∨ forallb Message.valid_attachment (default [] (attachments req)) = false →
    Rest.post_messages hook u req id now (Live.db s)
    = (Live.db s, Rest.fail 500 "Server error" "Failed to send message")
    ∧ Live.send_message hook u socketId req id now s
      = (s, [(Live.ToSocket socketId, Live.ev_error "Failed to send message")]).
Proof.
  intros hook u sid id c req now s Hc Ht Hl Hbad.
  pose proof (check_content_accepts c Ht Hl) as Hcheck.
  assert (create hook id now (send_data (User._id u) c req) (Live.db s) = None)
    as Hcreate.
  { unfold create, send_data.
    cbn [d_replyTo d_content d_messageType d_attachments d_user].
    assert (Message.valid_content (JS.trim (JS.trim c))
            && Message.in_enum Message.messageType_enum
                 (default "text" (messageType req))
            && forallb Message.valid_attachment (default [] (attachments req))
            = false) as ->.
    { destruct Hbad as [-> | ->];
        [by rewrite andb_false_r | by rewrite andb_false_r]. }
    by destruct (if JS.truthy (replyTo req) then replyTo req else None)
      as [r|]; [destruct (ObjectId.cast r)|]. }
  split.
  - unfold Rest.post_messages. by rewrite Hc, Hcheck, Hcreate.
  - unfold Live.send_message. by rewrite Hc, Hcheck, Hcreate.
Qed.

Lemma X22_witness :
  Rest.post_messages false Fixture.alice
    (mkSend (Some "hi") (Some "private") None None) Fixture.m2 9
    (Live.db Sample.s2)
  = (Live.db Sample.s2, Rest.fail 500 "Server error" "Failed to send message").
Proof.
  apply (X22_send_rejects_unknown_kind false Fixture.alice "sock-a" Fixture.m2
           "hi" (mkSend (Some "hi") (Some "private") None None) 9 Sample.s2).
  - reflexivity.
  - cbn. intros H. discriminate H.
  - cbn. lia.
  - left. reflexivity.
Defined.

(** ** X23: the count of online users *)

(** X23.  The registry counts users, not sockets: opening a socket for
    a user who already has an entry leaves the count of online users as
    it was, opening one for a user without entry raises it by one, and
    closing any socket of a user with an entry lowers it by one, even
    if the user has another open socket. *)
Theorem X23_online_count :
  ∀ (u : User.t) (c : string) (now : Z) (s : Live.Server),
    getOnlineUsersCount (Live.on_connection u c now s).1
    = (if decide (is_Some (Live.connectedUsers s !! User._id u))
       then getOnlineUsersCount s
       else S (getOnlineUsersCount s))
    ∧ getOnlineUsersCount (Live.disconnect u c now s).1
      = (if decide (is_Some (Live.connectedUsers s !! User._id u))
         then pred (getOnlineUsersCount s)
         else getOnlineUsersCount s).
Proof.
  intros u c now s. unfold getOnlineUsersCount. cbn. split.
  - destruct (Live.connectedUsers s !! User._id u) as [c0|] eqn:E.
    + rewrite decide_True by eauto. by rewrite map_size_insert_Some.
    + rewrite decide_False by (by intros [? ?]). by rewrite map_size_insert_None.
  - destruct (Live.connectedUsers s !! User._id u) as [c0|] eqn:E.
    + rewrite decide_True by eauto. by rewrite map_size_delete_Some.
    + rewrite decide_False by (by intros [? ?]). by rewrite delete_id.
Qed.

(** ** Requests of an open socket and the flags of the users *)

Lemma same_profiles_refl (d : Db) : same_profiles d d.
Proof. by split. Qed.

Lemma findById_profiles (d d' : Db) (messageId : string) :
  messages d' = messages d →
  Message_findById d' messageId = Message_findById d messageId.
Proof. intros Hm. unfold Message_findById. by rewrite Hm. Qed.

Lemma populate_user_profiles (d d' : Db) (m : Message.t) :
  (∀ k, profile <$> users d' !! k = profile <$> users d !! k) →
  populate_user d' m = populate_user d m.
Proof.
  intros Hu. unfold populate_user. specialize (Hu (Message.user m)).
  destruct (users d' !! Message.user m) as [f'|],
           (users d !! Message.user m) as [f|]; try done.
  cbn in *. unfold profile in Hu. by injection Hu as -> ->.
Qed.

Lemma populate_replyTo_profiles (d d' : Db) (m : Message.t) :
  messages d' = messages d → populate_replyTo d' m = populate_replyTo d m.
Proof. intros Hm. unfold populate_replyTo. by rewrite Hm. Qed.

(** The methods of a message read and write the messages only: on a
    store with the same messages they give the same document, and the
    same messages beside the users of that store. *)
Lemma store_profiles (d d' : Db) (doc : MessageDoc) :
  messages d' = messages d →
  store doc d' = set_messages (messages (store doc d)) d'.
Proof. intros Hm. unfold store, set_messages. cbn. by rewrite Hm. Qed.

Lemma create_profiles (hook : bool) (id : string) (now : Z) (data : MessageData)
    (d d' : Db) :
  messages d' = messages d →
  create hook id now data d'
  = (λ x, (set_messages (messages x.1) d', x.2)) <$> create hook id now data d.
Proof.
  intros Hm. unfold create.
  destruct (d_replyTo data) as [r|]; [destruct (ObjectId.cast r)|];
    cbn [fmap option_fmap option_map mbind option_bind]; [|done|].
  all: destruct (_ && _); [|done].
  all: destruct (pre_save hook true _) as [m|];
    cbn [fmap option_fmap option_map mbind option_bind]; [|done].
  all: rewrite Hm; by destruct (messages d !! id).
Qed.

Lemma editMessage_profiles (hook : bool) (c : string) (now : Z)
    (doc : MessageDoc) (d d' : Db) :
  messages d' = messages d →
  editMessage hook c now doc d'
  = (λ x, (set_messages (messages x.1) d', x.2)) <$> editMessage hook c now doc d.
Proof.
  intros Hm. unfold editMessage.
  destruct (Message.valid_document _); [|done].
  destruct (pre_save hook _ _) as [m|];
    cbn [fmap option_fmap option_map mbind option_bind]; [|done].
  by rewrite (store_profiles d d').
Qed.

Lemma softDelete_profiles (now : Z) (doc : MessageDoc) (d d' : Db) :
  messages d' = messages d →
  softDelete now doc d'
  = (λ x, (set_messages (messages x.1) d', x.2)) <$> softDelete now doc d.
Proof.
  intros Hm. unfold softDelete. destruct (Message.valid_document _); [|done].
  cbn. by rewrite (store_profiles d d').
Qed.

Lemma addReaction_profiles (uid e : string) (now : Z) (doc : MessageDoc)
    (d d' : Db) :
  messages d' = messages d →
  addReaction uid e now doc d'
  = (λ x, (set_messages (messages x.1) d', x.2)) <$> addReaction uid e now doc d.
Proof.
  intros Hm. unfold addReaction. destruct (Message.valid_document _); [|done].
  cbn. by rewrite (store_profiles d d').
Qed.

Lemma removeReaction_profiles (uid : string) (doc : MessageDoc) (d d' : Db) :
  messages d' = messages d →
  removeReaction uid doc d'
  = (λ x, (set_messages (messages x.1) d', x.2)) <$> removeReaction uid doc d.
Proof.
  intros Hm. unfold removeReaction. destruct (Message.valid_document _); [|done].
  cbn. by rewrite (store_profiles d d').
Qed.

(** A store written by a method keeps its users. *)
Lemma changed_users (now : Z) (d d1 : Db) : changed now d d1 → users d1 = users d.
Proof. by intros [->|(k & m & -> & _)]. Qed.

Lemma set_db_twice (d1 d2 : Db) (s : Live.Server) :
  Live.set_db d1 (Live.set_db d2 s) = Live.set_db d1 s.
Proof. done. Qed.

Lemma set_messages_same (d : Db) : set_messages (messages d) d = d.
Proof. by destruct d. Qed.

Lemma live_ignores_flags (hook : bool) (u : User.t) (socketId : string)
    (now : Z) (r : Dispatch.Request) (s : Live.Server) (d' : Db) :
  same_profiles (Live.db s) d' →
  Dispatch.live hook u socketId now r (Live.set_db d' s)
  = (Live.set_db
       (set_messages (messages (Live.db (Dispatch.live hook u socketId now r s).1)) d')
       s,
     (Dispatch.live hook u socketId now r s).2).
Proof.
  intros [Hm Hu].
  assert (Hsame : Live.set_db (set_messages (messages (Live.db s)) d') s
                  = Live.set_db d' s).
  { by rewrite <- Hm, set_messages_same. }
  destruct r as [req id|mid c|mid|mid e|mid|rcpt body id| | |];
    cbn [Dispatch.live].
  - unfold Live.send_message, Live.emit_error. cbn [Live.db Live.set_db].
    destruct (check_content (content req)); try by (cbn [fst snd Live.db]; rewrite Hsame).
    rewrite (create_profiles hook id now _ (Live.db s) d' Hm).
    destruct (create _ _ _ _ (Live.db s)) as [[d1 doc]|] eqn:E;
      cbn [fmap option_fmap option_map fst snd]; [|by (cbn [fst snd Live.db]; rewrite Hsame)].
    apply create_effect in E as (_ & Hd1 & _ & _).
    rewrite (populate_user_profiles d1 (set_messages (messages d1) d'))
      by (intros k; rewrite Hd1; cbn; apply Hu).
    destruct (populate_user d1 doc.2); cbn [fst snd Live.db Live.set_db]; [|done].
    cbv zeta. unfold message_payload.
    rewrite (populate_replyTo_profiles d1 (set_messages (messages d1) d')) by done.
    by destruct (serialises _).
  - unfold Live.edit_message, Live.emit_error. cbn [Live.db Live.set_db].
    destruct (check_content c); try by (cbn [fst snd Live.db]; rewrite Hsame).
    rewrite (findById_profiles (Live.db s) d' mid Hm).
    destruct (Message_findById (Live.db s) mid) as [[[k m]|]|];
      try by (cbn [fst snd Live.db]; rewrite Hsame).
    destruct (forbidden (k, m) u); [by (cbn [fst snd Live.db]; rewrite Hsame)|].
    rewrite (editMessage_profiles hook _ now _ (Live.db s) d' Hm).
    destruct (editMessage _ _ _ _ (Live.db s)) as [[d1 doc]|] eqn:E;
      cbn [fmap option_fmap option_map fst snd]; [|by (cbn [fst snd Live.db]; rewrite Hsame)].
    apply editMessage_effect in E as (_ & Hd1 & _ & _).
    rewrite (populate_user_profiles d1 (set_messages (messages d1) d'))
      by (intros j; rewrite Hd1; cbn; apply Hu).
    by destruct (populate_user d1 doc.2).
  - unfold Live.delete_message, Live.emit_error. cbn [Live.db Live.set_db].
    rewrite (findById_profiles (Live.db s) d' mid Hm).
    destruct (Message_findById (Live.db s) mid) as [[[k m]|]|];
      try by (cbn [fst snd Live.db]; rewrite Hsame).
    destruct (forbidden (k, m) u); [by (cbn [fst snd Live.db]; rewrite Hsame)|].
    rewrite (softDelete_profiles now _ (Live.db s) d' Hm).
    destruct (softDelete now (k, m) (Live.db s)) as [[d1 doc]|];
      cbn [fmap option_fmap option_map fst snd];
      [done|by (cbn [fst snd Live.db]; rewrite Hsame)].
  - unfold Live.add_reaction, Live.emit_error. cbn [Live.db Live.set_db].
    destruct (if JS.truthy e then e else None); [|by (cbn [fst snd Live.db]; rewrite Hsame)].
    rewrite (findById_profiles (Live.db s) d' mid Hm).
    destruct (Message_findById (Live.db s) mid) as [[[k m]|]|];
      try by (cbn [fst snd Live.db]; rewrite Hsame).
    rewrite (addReaction_profiles _ _ now _ (Live.db s) d' Hm).
    destruct (addReaction _ _ _ _ (Live.db s)) as [[d1 doc]|];
      cbn [fmap option_fmap option_map fst snd]; [done|by (cbn [fst snd Live.db]; rewrite Hsame)].
  - unfold Live.remove_reaction, Live.emit_error. cbn [Live.db Live.set_db].
    rewrite (findById_profiles (Live.db s) d' mid Hm).
    destruct (Message_findById (Live.db s) mid) as [[[k m]|]|];
      try by (cbn [fst snd Live.db]; rewrite Hsame).
    rewrite (removeReaction_profiles _ _ (Live.db s) d' Hm).
    destruct (removeReaction _ _ (Live.db s)) as [[d1 doc]|];
      cbn [fmap option_fmap option_map fst snd]; [done|by (cbn [fst snd Live.db]; rewrite Hsame)].
  - unfold Live.private_message, Live.emit_error. cbn [Live.db Live.set_db].
    destruct (if JS.truthy body then body else None) as [c|]; [|by (cbn [fst snd Live.db]; rewrite Hsame)].
    destruct (JS.is_empty (JS.trim c)); [by (cbn [fst snd Live.db]; rewrite Hsame)|].
    rewrite !create_private_fails. cbn [fst snd Live.db]. by rewrite Hsame.
  - unfold Live.typing_start. cbn. by rewrite Hsame.
  - unfold Live.typing_stop. cbn. by rewrite Hsame.
  - unfold Live.update_status. cbn. by rewrite Hsame.
Qed.

Lemma deactivate_same_profiles (d : Db) (k : string) (f : User.fields) :
  users d !! k = Some f →
  same_profiles d (set_users (<[k := deactivated f]> (users d)) d).
Proof.
  intros Hk. split; [done|]. intros j. cbn.
  destruct (decide (j = k)) as [->|Hne].
  - by rewrite lookup_insert_eq, Hk.
  - by rewrite lookup_insert_ne.
Qed.

(** ** X24: an open socket and later changes of its user *)

(** X24.  The handlers of an open socket work with the user loaded when
    the socket connected and never read the active flag or the role
    from the store again.  If the store is changed in the active flags
    and roles of its users only, as a deactivation does, every request
    on an open socket emits the events it would have emitted, leaves
    the messages it would have left, keeps the users of the changed
    store, and leaves the registry and the rooms alone. *)
Theorem X24_open_socket_ignores_flags :
  ∀ (hook : bool) (u : User.t) (socketId : string) (now : Z)
    (r : Dispatch.Request) (s : Live.Server) (d' : Db),
    same_profiles (Live.db s) d' →
    let before := Dispatch.live hook u socketId now r s in
    let after := Dispatch.live hook u socketId now r (Live.set_db d' s) in
    after.2 = before.2
    ∧ messages (Live.db after.1) = messages (Live.db before.1)
    ∧ users (Live.db after.1) = users d'
    ∧ Live.connectedUsers after.1 = Live.connectedUsers s
    ∧ Live.userSockets after.1 = Live.userSockets s
    ∧ Live.rooms after.1 = Live.rooms s.
Proof.
  intros hook u socketId now r s d' Hp before after. subst before after.
  by rewrite (live_ignores_flags hook u socketId now r s d' Hp).
Qed.

Lemma X24_witness :
  (Dispatch.live true Fixture.alice "sock-a" 9
     (Dispatch.Send (mkSend (Some "still here") None None None) Fixture.m2)
     (Live.set_db
        (set_users (<[Fixture.alice_id := deactivated Fixture.alice_fields]>
                      (users Fixture.db1)) Fixture.db1)
        Fixture.s1)).2
  = (Dispatch.live true Fixture.alice "sock-a" 9
       (Dispatch.Send (mkSend (Some "still here") None None None) Fixture.m2)
       Fixture.s1).2.
Proof.
  apply (X24_open_socket_ignores_flags true Fixture.alice "sock-a" 9
           (Dispatch.Send (mkSend (Some "still here") None None None) Fixture.m2)
           Fixture.s1).
  apply (deactivate_same_profiles Fixture.db1 Fixture.alice_id Fixture.alice_fields).
  reflexivity.
Defined.

(** ** The statistics of the users *)

Section UserStatsFacts.

Variable isEmailVerified : string → bool.
Variable loginCount : string → Z.
Variable lockUntil : string → option Z.

(** The group over a store with a user [k]: every count is at most
    the number of users, and an active [k] is counted as active. *)
Lemma user_stats_group (now : Z) (d : Db) (k : string) (f : User.fields) :
  users d !! k = Some f →
  ∃ st, UserStats.getStats isEmailVerified loginCount lockUntil now d = [st]
        ∧ UserStats.totalUsers st = size (users d)
        ∧ (0 < UserStats.totalUsers st)%nat
        ∧ (UserStats.activeUsers st ≤ UserStats.totalUsers st)%nat
        ∧ (UserStats.verifiedUsers st ≤ UserStats.totalUsers st)%nat
        ∧ (∃ n, UserStats.lockedUsers st = Some n
                ∧ (n ≤ UserStats.totalUsers st)%nat)
        ∧ (User.f_isActive f = true → (0 < UserStats.activeUsers st)%nat).
Proof.
  intros Hk. unfold UserStats.getStats.
  apply elem_of_map_to_list in Hk.
  destruct (map_to_list (users d)) as [|x l] eqn:E.
  { by apply elem_of_nil in Hk. }
  eexists. split; [reflexivity|]. cbn [UserStats.totalUsers
    UserStats.activeUsers UserStats.verifiedUsers UserStats.lockedUsers].
  rewrite <- E in *. repeat split.
  - apply length_map_to_list.
  - rewrite E. cbn. lia.
  - apply length_filter.
  - apply length_filter.
  - eexists. split; [reflexivity|apply length_filter].
  - intros Hact.
    assert (Hin : (k, f) ∈ filter (UserStats.active) (map_to_list (users d))).
    { apply list_elem_of_filter. by split. }
    destruct (filter _ _); [by apply elem_of_nil in Hin | cbn; lia].
Qed.

Lemma user_stats_route (jv : string → Middleware.Verdict) (h : option string)
    (now : Z) (d : Db) :
  match Middleware.authenticateToken jv h d with
  | Middleware.Next u =>
      UserStats.get_stats isEmailVerified loginCount lockUntil jv h now d
      = if bool_decide (User.role u = User.RoleAdmin)
        then UserStats.Granted
               (default UserStats.zero
                  (head (UserStats.getStats isEmailVerified loginCount
                           lockUntil now d)))
        else UserStats.Denied
               (Rest.fail 403 "Access denied" "Admin privileges required")
  | Middleware.Stop r =>
      UserStats.get_stats isEmailVerified loginCount lockUntil jv h now d
      = UserStats.Denied r
  end.
Proof.
  unfold UserStats.get_stats.
  destruct (Middleware.authenticateToken jv h d) as [u|r]; [|done].
  destruct (decide (User.role u = User.RoleAdmin)) as [Hr|Hr].
  - rewrite bool_decide_eq_false_2 by tauto. by rewrite bool_decide_eq_true_2.
  - rewrite bool_decide_eq_true_2 by done. by rewrite bool_decide_eq_false_2.
Qed.

Lemma user_stats_granted (jv : string → Middleware.Verdict) (h : option string)
    (now : Z) (d : Db) (st : UserStats.t) :
  UserStats.get_stats isEmailVerified loginCount lockUntil jv h now d
  = UserStats.Granted st →
  (∃ u, Middleware.authenticateToken jv h d = Middleware.Next u
        ∧ User.role u = User.RoleAdmin
        ∧ Middleware.requireAdmin (Some u) = None
        ∧ Middleware.requireModerator (Some u) = None)
  ∧ UserStats.getStats isEmailVerified loginCount lockUntil now d = [st]
  ∧ UserStats.totalUsers st = size (users d)
  ∧ (1 ≤ UserStats.activeUsers st ≤ UserStats.totalUsers st)%nat
  ∧ (UserStats.verifiedUsers st ≤ UserStats.totalUsers st)%nat
  ∧ (∃ n, UserStats.lockedUsers st = Some n ∧ (n ≤ UserStats.totalUsers st)%nat).
Proof.
  intros Hg. pose proof (user_stats_route jv h now d) as Hr.
  destruct (Middleware.authenticateToken jv h d) as [u|r] eqn:Hauth;
    [|by rewrite Hr in Hg].
  rewrite Hr in Hg. clear Hr.
  destruct (decide (User.role u = User.RoleAdmin)) as [Hrole|Hrole];
    [rewrite bool_decide_eq_true_2 in Hg by done
    |by rewrite bool_decide_eq_false_2 in Hg by done].
  apply authenticate_next in Hauth
    as (token & decoded & uid & _ & _ & _ & _ & Hfind & Hact).
  apply findById_user_inv in Hfind as (f & _ & Hf & ->).
  cbn [User.isActive User.load User.role] in Hact, Hrole.
  destruct (user_stats_group now d _ f Hf)
    as (st0 & Hst & Htot & Hpos & Hle & Hver & Hlock & Hone).
  rewrite Hst in Hg. cbn in Hg. assert (st0 = st) as -> by congruence.
  split.
  { eexists. split; [reflexivity|]. cbn [User.role User.load].
    split; [done|]. unfold Middleware.requireAdmin, Middleware.requireModerator.
    cbn [User.role User.load]. rewrite Hrole.
    split; [by rewrite bool_decide_eq_false_2 by tauto|].
    by rewrite bool_decide_eq_true_2 by (apply elem_of_cons; by left). }
  repeat split; try done. specialize (Hone Hact). lia.
Qed.

(** Writing a user [k] that is stored: the enumerations of the two
    maps are, up to the order, the rest with the old and with the new
    value of [k]. *)
Lemma rewrite_user (us : gmap string User.fields) (k : string)
    (f f' : User.fields) :
  us !! k = Some f →
  map_to_list us ≡ₚ (k, f) :: map_to_list (delete k us)
  ∧ map_to_list (<[k := f']> us) ≡ₚ (k, f') :: map_to_list (delete k us).
Proof.
  intros Hk. split.
  - symmetry. by apply map_to_list_delete.
  - rewrite <- insert_delete_eq. apply map_to_list_insert, lookup_delete_eq.
Qed.

Lemma logins_perm (l l' : list (string * User.fields)) :
  l ≡ₚ l' → UserStats.logins loginCount l = UserStats.logins loginCount l'.
Proof.
  unfold UserStats.logins. induction 1; cbn; lia.
Qed.

Lemma user_stats_deactivate (now : Z) (d : Db) (k : string) (f : User.fields) :
  users d !! k = Some f → User.f_isActive f = true →
  ∃ st st',
    UserStats.getStats isEmailVerified loginCount lockUntil now d = [st]
    ∧ UserStats.getStats isEmailVerified loginCount lockUntil now
        (set_users (<[k := deactivated f]> (users d)) d) = [st']
    ∧ UserStats.totalUsers st' = UserStats.totalUsers st
    ∧ S (UserStats.activeUsers st') = UserStats.activeUsers st
    ∧ UserStats.verifiedUsers st' = UserStats.verifiedUsers st
    ∧ UserStats.avgLoginCount st' = UserStats.avgLoginCount st
    ∧ UserStats.lockedUsers st' = UserStats.lockedUsers st.
Proof.
  intros Hk Hact.
  destruct (rewrite_user (users d) k f (deactivated f) Hk) as [Hold Hnew].
  unfold UserStats.getStats. cbn [users set_users].
  set (rest := map_to_list (delete k (users d))) in *.
  destruct (map_to_list (users d)) as [|x l] eqn:E.
  { by apply Permutation_nil_cons in Hold. }
  destruct (map_to_list (<[k:=deactivated f]> (users d))) as [|x' l'] eqn:E'.
  { by apply Permutation_nil_cons in Hnew. }
  do 2 eexists. split; [reflexivity|]. split; [reflexivity|].
  cbn [UserStats.totalUsers UserStats.activeUsers UserStats.verifiedUsers
       UserStats.avgLoginCount UserStats.lockedUsers].
  assert (Hlen : length (x' :: l') = length (x :: l)).
  { by rewrite Hold, Hnew. }
  assert (Hlog : UserStats.logins loginCount (x' :: l')
                 = UserStats.logins loginCount (x :: l)).
  { rewrite (logins_perm _ _ Hold), (logins_perm _ _ Hnew).
    unfold UserStats.logins. by cbn. }
  rewrite Hlen, Hlog. repeat split.
  - rewrite Hold, Hnew. rewrite (filter_cons_True _ (k, f)) by exact Hact.
    by rewrite (filter_cons_False _ (k, deactivated f))
      by (unfold UserStats.active; cbn; congruence).
  - rewrite Hold, Hnew.
    unfold UserStats.verified.
    destruct (isEmailVerified k) eqn:Hv.
    + by rewrite !filter_cons_True by done.
    + by rewrite !filter_cons_False by (cbn; congruence).
  - f_equal. rewrite Hold, Hnew.
    destruct (decide (UserStats.locked lockUntil now (k, f))) as [Hl|Hl].
    + by rewrite !filter_cons_True by done.
    + by rewrite !filter_cons_False by done.
Qed.

End UserStatsFacts.

(** ** X25: the statistics of the users are for admins, and never empty *)

(** X25.  [GET /stats] of the auth routes answers with statistics only
    to a request that [authenticateToken] lets through with an admin,
    who would also pass [requireAdmin] and [requireModerator].  The
    requester is a stored, active user, so the statistics are the group
    that the store computes and never the default of zeros: at least
    one user is counted as active, the counts of active, verified and
    locked users are at most the number of users, which is the size of
    the collection, and the count of locked users is present. *)
Theorem X25_user_stats_for_admin :
  ∀ (isEmailVerified : string → bool) (loginCount : string → Z)
    (lockUntil : string → option Z) (jv : string → Middleware.Verdict)
    (h : option string) (now : Z) (d : Db) (st : UserStats.t),
    UserStats.get_stats isEmailVerified loginCount lockUntil jv h now d
    = UserStats.Granted st →
    (∃ u, Middleware.authenticateToken jv h d = Middleware.Next u
          ∧ User.role u = User.RoleAdmin
          ∧ Middleware.requireAdmin (Some u) = None
          ∧ Middleware.requireModerator (Some u) = None)
    ∧ UserStats.getStats isEmailVerified loginCount lockUntil now d = [st]
    ∧ UserStats.totalUsers st = size (users d)
    ∧ (1 ≤ UserStats.activeUsers st ≤ UserStats.totalUsers st)%nat
    ∧ (UserStats.verifiedUsers st ≤ UserStats.totalUsers st)%nat
    ∧ (∃ n, UserStats.lockedUsers st = Some n
            ∧ (n ≤ UserStats.totalUsers st)%nat).
Proof.
  intros v c l jv h now d st. apply user_stats_granted.
Qed.

Lemma X25_witness :
  ∃ st, UserStats.getStats (λ _, true) (λ _, 2) (λ _, None) 10 Sample.db2 = [st]
        ∧ UserStats.totalUsers st = 4%nat.
Proof.
  set (st := default UserStats.zero
               (head (UserStats.getStats (λ _, true) (λ _, 2) (λ _, None) 10
                        Sample.db2))).
  exists st.
  destruct (X25_user_stats_for_admin (λ _, true) (λ _, 2) (λ _, None)
              Sample.decode (Some "Bearer c.x.y") 10 Sample.db2 st)
    as (_ & Hst & Htot & _).
  - vm_compute. reflexivity.
  - split; [exact Hst|]. rewrite Htot. vm_compute. reflexivity.
Defined.

(** ** X26: a deactivation in the statistics of the users *)

(** X26.  A deactivation through [POST /deactivate] of a user whose
    stored document passes the validation of the schema shows in the
    statistics of the users as one active user less and nothing else:
    the number of users, of verified users and of locked users and the
    average login count are as before.  When the document does not
    pass the validation the statistics are as before.  The login
    count that the validation reads is the one that the statistics
    average. *)
Theorem X26_deactivation_in_user_stats :
  ∀ (isEmailVerified : string → bool) (loginCount : string → Z)
    (lockUntil : string → option Z) (failedLoginAttempts : string → Z)
    (others_valid : string → bool) (jv : string → Middleware.Verdict)
    (h : option string) (now : Z) (d : Db) (u : User.t) (f : User.fields),
    Middleware.authenticateToken jv h d = Middleware.Next u →
    users d !! User._id u = Some f →
    let d' := (post_deactivate loginCount failedLoginAttempts others_valid
                 jv h d).1 in
    (UserDoc.validate loginCount failedLoginAttempts others_valid
       (User._id u) f = true →
     ∃ st st',
       UserStats.getStats isEmailVerified loginCount lockUntil now d = [st]
       ∧ UserStats.getStats isEmailVerified loginCount lockUntil now d' = [st']
       ∧ UserStats.totalUsers st' = UserStats.totalUsers st
       ∧ S (UserStats.activeUsers st') = UserStats.activeUsers st
       ∧ UserStats.verifiedUsers st' = UserStats.verifiedUsers st
       ∧ UserStats.avgLoginCount st' = UserStats.avgLoginCount st
       ∧ UserStats.lockedUsers st' = UserStats.lockedUsers st)
    ∧ (UserDoc.validate loginCount failedLoginAttempts others_valid
         (User._id u) f = false →
       UserStats.getStats isEmailVerified loginCount lockUntil now d'
       = UserStats.getStats isEmailVerified loginCount lockUntil now d).
Proof.
  intros v c l fl ov jv h now d u f Hauth Hf d'. subst d'.
  destruct (deactivate_effect c fl ov jv h d u Hauth) as (f0 & Hf0 & Hact & ->).
  rewrite Hf in Hf0. injection Hf0 as <-.
  split; intros ->; cbn [fst]; [|done].
  by apply user_stats_deactivate.
Qed.

Lemma X26_witness :
  ∃ st st',
    UserStats.getStats (λ _, true) (λ _, 2) (λ _, None) 10 Sample.db2 = [st]
    ∧ UserStats.getStats (λ _, true) (λ _, 2) (λ _, None) 10
        (post_deactivate (λ _, 2) (λ _, 0) (λ _, true) Sample.decode
           (Some "Bearer a.b.c") Sample.db2).1 = [st']
    ∧ S (UserStats.activeUsers st') = UserStats.activeUsers st.
Proof.
  destruct (X26_deactivation_in_user_stats (λ _, true) (λ _, 2) (λ _, None)
              (λ _, 0) (λ _, true) Sample.decode (Some "Bearer a.b.c") 10
              Sample.db2 Fixture.alice Fixture.alice_fields)
    as [Hok _].
  - vm_compute. reflexivity.
  - vm_compute. reflexivity.
  - destruct Hok as (st & st' & H1 & H2 & _ & H3 & _); [vm_compute; reflexivity|].
    exists st, st'. split; [exact H1|]. split; [exact H2|exact H3].
Defined.

(** ** The sign-in with Google *)

Lemma verify_found (now : Z) (g e : option Account.t) (ok : bool) :
  (∀ a, Google.found g e = Some a →
        (0 ≤ Account.loginCount a < 9007199254740992)%Z
        ∧ (0 ≤ Account.failedLoginAttempts a)%Z) →
  (Google.found g e = None → ok = true) →
  ∃ o, Google.verify true now g e ok
       = Some (o, match Google.found g e with
                  | Some a =>
                      Account.mk now (Account.loginCount a + 1)
                        (Account.failedLoginAttempts a) (Account.lockUntil a)
                  | None => Account.mk now 1 0 None
                  end)
       ∧ (o = Google.Created ↔ Google.found g e = None).
Proof.
  intros Hpos Hok. unfold Google.verify, Google.found in *.
  destruct g as [a|]; [|destruct e as [a|]].
  - exists Google.Known. destruct (Hpos a eq_refl) as [H1 H2].
    rewrite (succ_exact _ H1), save_valid by (cbn; lia).
    split; [done|]. split; discriminate.
  - exists Google.Linked. destruct (Hpos a eq_refl) as [H1 H2].
    rewrite (succ_exact _ H1), save_valid by (cbn; lia).
    split; [done|]. split; discriminate.
  - exists Google.Created. rewrite Hok by done. by split.
Qed.

Lemma sign_in_effect (jwt_sign : string → Z → string) (uid : string)
    (t1 t2 : Z) (g e : option Account.t) (ok : bool) :
  (∀ a, Google.found g e = Some a →
        (0 ≤ Account.loginCount a ≤ 9007199254740990)%Z
        ∧ (0 ≤ Account.failedLoginAttempts a)%Z) →
  (Google.found g e = None → ok = true) →
  ObjectId.is_hex24 uid = true →
  ∃ o,
    Google.sign_in jwt_sign true uid t1 t2 g e ok
    = Some (o, (Account.mk t2
                  (from_option (λ a, Account.loginCount a + 2) 2 (Google.found g e))%Z
                  0 None,
                Google.WithToken (jwt_sign uid (t2 / 1000)%Z)))
    ∧ (o = Google.Created ↔ Google.found g e = None).
Proof.
  intros Hpos Hok Hhex.
  destruct (verify_found t1 g e ok) as (o & Hv & Ho); [|done|].
  { intros a Ha. destruct (Hpos a Ha). lia. }
  exists o. split; [|done]. unfold Google.sign_in. rewrite Hv.
  cbn [mbind option_bind].
  assert ((match o with Google.Created => true | _ => true end) = true) as Hvalid
    by (by destruct o).
  rewrite Hvalid. unfold Google.callback, Middleware.generateToken.
  rewrite Hhex.
  assert (JS.is_empty uid = false) as -> by (destruct uid; [discriminate Hhex|done]).
  cbn [orb negb]. unfold Account.updateLastLogin.
  destruct (Google.found g e) as [a|] eqn:Hf; cbn [Account.loginCount from_option].
  - destruct (Hpos a eq_refl) as [H1 H2].
    rewrite succ_exact, save_valid by (cbn; lia).
    do 4 f_equal. lia.
  - done.
Qed.

(** ** X27: a sign-in with Google is counted twice and lifts the lock *)

(** X27.  A sign-in with Google passes the strategy and then the
    callback route, and both count the login.  Take a user that the
    strategy finds, by the identifier of Google or by the email, whose
    document passes the validation of the schema (the counters are not
    negative, the other paths pass) and whose login count stays within
    the integers that a number holds exactly: the login count grows by
    two.  A new user, whose profile passes the validation, starts with
    a login count of two.  No step looks at the lock: whatever the
    lock and the number of failed attempts were, the sign-in ends with
    a redirect that carries a token, no failed attempts and no
    lock. *)
Theorem X27_google_sign_in_counts_twice :
  ∀ (jwt_sign : string → Z → string) (uid : string) (t1 t2 : Z)
    (g e : option Account.t) (ok : bool),
    (∀ a, Google.found g e = Some a →
          (0 ≤ Account.loginCount a ≤ 9007199254740990)%Z
          ∧ (0 ≤ Account.failedLoginAttempts a)%Z) →
    (Google.found g e = None → ok = true) →
    ObjectId.is_hex24 uid = true →
    ∃ o a',
      Google.sign_in jwt_sign true uid t1 t2 g e ok
      = Some (o, (a', Google.WithToken (jwt_sign uid (t2 / 1000)%Z)))
      ∧ (o = Google.Created ↔ Google.found g e = None)
      ∧ Account.loginCount a'
        = from_option (λ a, Account.loginCount a + 2)%Z 2%Z (Google.found g e)
      ∧ Account.lastLogin a' = t2
      ∧ Account.failedLoginAttempts a' = 0%Z
      ∧ Account.lockUntil a' = None
      ∧ ∀ t, Account.isLocked t a' = false.
Proof.
  intros jwt_sign uid t1 t2 g e ok Hpos Hok Hhex.
  destruct (sign_in_effect jwt_sign uid t1 t2 g e ok Hpos Hok Hhex) as (o & Hs & Ho).
  exists o. eexists. split; [exact Hs|]. split; [exact Ho|]. by repeat split.
Qed.

Lemma X27_witness :
  Google.sign_in Sample.sign true Fixture.alice_id 10 20
    (Some (Account.mk 0 3 7 (Some 1000))) None false
  = Some (Google.Known,
          (Account.mk 20 5 0 None, Google.WithToken "a.b.c")).
Proof.
  destruct (X27_google_sign_in_counts_twice Sample.sign Fixture.alice_id 10 20
              (Some (Account.mk 0 3 7 (Some 1000))) None false)
    as (o & a' & Hs & _).
  - intros a [= <-]. cbn. lia.
  - intros H. discriminate H.
  - reflexivity.
  - reflexivity.
Defined.
